(** * spi_25lc512x.c: the 25LC512 EEPROM test over a SPI transport

    A shallow embedding of [src/spi_25lc512x.c].  The two static arrays
    [tx] and [rx], the static [status] byte, the attached device and the
    chronological trace of everything the program does to the outside
    world (SPI transfers, sleeps, printed lines, libsoc set-up calls) form
    an explicit state that every function threads.  Array indexing is
    checked: an index outside an array stops the run with [OutOfBounds].
    The two [do ... while (status & 1)] loops take a bound on the number of
    polls; a run that needs more polls stops with [OutOfFuel], keeping the
    state reached so far. *)

From Stdlib Require Import ZArith Lia.
From stdpp Require Import base list strings.

Local Open Scope string_scope.
Local Open Scope list_scope.
Local Open Scope Z_scope.

(** ** Machine integers *)

(** Conversion to [uint8_t] and [uint16_t]. *)
Definition uint8 (v : Z) : Z := v mod 256.
Definition uint16 (v : Z) : Z := v mod 65536.

(** A C condition: any non-zero value is true. *)
Definition nonzero (v : Z) : bool := negb (v =? 0).

(** ** Constants (lines 36-56) *)

Definition SPI_DEVICE : Z := 1.
Definition CHIP_SELECT : Z := 0.

Definition EEPROM_DEVICE_ID : Z := 0x29.
Definition EEPROM_SIZE : Z := 524288 / 8.
Definition EEPROM_PAGE_SIZE : Z := 128.
(* The macro expands textually to 524288/8/128. *)
Definition EEPROM_NUM_PAGES : Z := 524288 / 8 / EEPROM_PAGE_SIZE.
Definition EEPROM_WRITE_DELAY : Z := 3300000.
Definition EEPROM_ERASE_DELAY : Z := 6800000.

Definition WREN : Z := 0x06.
Definition WRDI : Z := 0x04.
Definition WRITE : Z := 0x02.
Definition READ : Z := 0x03.
Definition CE : Z := 0xc7.
Definition RDSR : Z := 0x05.
Definition WRSR : Z := 0x01.
Definition PE : Z := 0x42.
Definition SE : Z := 0xd8.
Definition RDID : Z := 0xab.
Definition DPD : Z := 0xb9.

Definition EXIT_SUCCESS : Z := 0.
Definition EXIT_FAILURE : Z := 1.

(** Size of the static arrays [tx] and [rx] (line 58). *)
Definition BUFFER_SIZE : Z := EEPROM_PAGE_SIZE + 3.

(** ** The SPI transport

    libsoc and the chip behind it are not part of the program.  They are
    an interface: a full-duplex exchange, which clocks a frame out and
    answers with the bytes clocked in, and a write-only transfer. *)
Class Transport := {
  device : Type;
  dev_rw : device -> list Z -> device * list Z;
  dev_write : device -> list Z -> device
}.

(** ** Observable events *)
Inductive event :=
| SpiWrite (frame : list Z)             (* libsoc_spi_write *)
| SpiRW (frame : list Z)                (* libsoc_spi_rw, the bytes sent *)
| Nanosleep (ns : Z)
| Printf (fmt : string) (args : list Z)
| Setup (call : string)                 (* libsoc set-up and query calls *)
| SpiFree.                              (* libsoc_spi_free *)

Inductive array_id := TX | RX | DATA | DATA_READ.

Inductive error :=
| OutOfBounds (a : array_id) (i : Z)
| OutOfFuel.

Section Driver.
Context `{T : Transport}.

(** ** Program state *)
Record state := mkState {
  tx : list Z;
  rx : list Z;
  status : Z;
  dev : device;
  trace : list event
}.

Inductive outcome (A : Type) :=
| Done (a : A) (s : state)
| Fail (e : error) (s : state).
Global Arguments Done {A} a s.
Global Arguments Fail {A} e s.

Definition final {A} (o : outcome A) : state :=
  match o with Done _ s => s | Fail _ s => s end.

Definition value {A} (o : outcome A) : option A :=
  match o with Done a _ => Some a | Fail _ _ => None end.

(** State and error monad. *)
Definition M (A : Type) : Type := state -> outcome A.

Definition ret {A} (a : A) : M A := fun s => Done a s.

Definition bind {A B} (m : M A) (k : A -> M B) : M B :=
  fun s => match m s with
           | Done a s' => k a s'
           | Fail e s' => Fail e s'
           end.

Definition fail {A} (e : error) : M A := fun s => Fail e s.

End Driver.

Declare Scope prog_scope.
Delimit Scope prog_scope with prog.
Notation "x <- m ;; k" := (bind m (fun x => k))
  (at level 100, m at next level, k at level 200, right associativity)
  : prog_scope.
Notation "m ;; k" := (bind m (fun _ => k))
  (at level 100, k at level 200, right associativity) : prog_scope.
Local Open Scope prog_scope.

Section Program.
Context `{T : Transport}.

(** ** Primitive effects *)

Definition emit (e : event) : M unit := fun s =>
  Done tt (mkState (tx s) (rx s) (status s) (dev s) (trace s ++ [e])).

Definition printf (fmt : string) (args : list Z) : M unit :=
  emit (Printf fmt args).

Definition nanosleep (ns : Z) : M unit := emit (Nanosleep ns).

Definition in_bounds (a : list Z) (i : Z) : bool :=
  (0 <=? i) && (i <? Z.of_nat (length a)).

(** [a[i]], for an array held by the caller. *)
Definition array_load (id : array_id) (a : list Z) (i : Z) : M Z := fun s =>
  if in_bounds a i
  then Done (default 0 (a !! Z.to_nat i)) s
  else Fail (OutOfBounds id i) s.

(** [a[i] = v], for an array held by the caller. *)
Definition array_store (id : array_id) (a : list Z) (i v : Z)
  : M (list Z) := fun s =>
  if in_bounds a i
  then Done (<[Z.to_nat i := v]> a) s
  else Fail (OutOfBounds id i) s.

(** [tx[i] = v] *)
Definition tx_store (i v : Z) : M unit := fun s =>
  if in_bounds (tx s) i
  then Done tt (mkState (<[Z.to_nat i := v]> (tx s)) (rx s) (status s)
                        (dev s) (trace s))
  else Fail (OutOfBounds TX i) s.

(** [rx[i] = v] *)
Definition rx_store (i v : Z) : M unit := fun s =>
  if in_bounds (rx s) i
  then Done tt (mkState (tx s) (<[Z.to_nat i := v]> (rx s)) (status s)
                        (dev s) (trace s))
  else Fail (OutOfBounds RX i) s.

(** [rx[i]] *)
Definition rx_load (i : Z) : M Z := fun s =>
  if in_bounds (rx s) i
  then Done (default 0 (rx s !! Z.to_nat i)) s
  else Fail (OutOfBounds RX i) s.

Definition set_status (v : Z) : M unit := fun s =>
  Done tt (mkState (tx s) (rx s) v (dev s) (trace s)).

Definition get_status : M Z := fun s => Done (status s) s.

(** The first [n] bytes of a receive buffer replaced by the bytes clocked
    in; a device that answers with fewer bytes leaves zeros. *)
Definition received (n : nat) (resp : list Z) (buf : list Z) : list Z :=
  ((fun i => uint8 (default 0 (resp !! i))) <$> seq 0 n) ++ drop n buf.

(** [libsoc_spi_write(spi_dev, tx, len)]: sends [tx[0..len)].  The call
    is made whatever [len] is, and no caller looks at its result.  The
    library is handed a pointer to [tx]: the frame recorded is the part of
    [tx[0..len)] that lies in the array (none of it for a negative [len]);
    what the library reads past the end of the array is not part of the
    program's state. *)
Definition libsoc_spi_write (len : Z) : M unit := fun s =>
  let frame := take (Z.to_nat len) (tx s) in
  Done tt (mkState (tx s) (rx s) (status s)
                   (dev_write (dev s) frame)
                   (trace s ++ [SpiWrite frame])).

(** [libsoc_spi_rw(spi_dev, tx, rx, len)]: sends [tx[0..len)] and stores
    the bytes received at the same time in [rx[0..len)].  Like the write,
    the call is made whatever [len] is, and the model keeps to the arrays:
    the frame is the part of [tx[0..len)] inside [tx], and the bytes
    received replace the part of [rx[0..len)] inside [rx], which keeps its
    size. *)
Definition libsoc_spi_rw (len : Z) : M unit := fun s =>
  let frame := take (Z.to_nat len) (tx s) in
  let r := dev_rw (dev s) frame in
  Done tt (mkState (tx s)
                   (received (Nat.min (Z.to_nat len) (length (rx s)))
                             (snd r) (rx s))
                   (status s) (fst r)
                   (trace s ++ [SpiRW frame])).

(** [for (i = lo; i < hi; i++) acc = body(i, acc);] *)
Fixpoint for_iter {A} (n : nat) (i : Z) (body : Z -> A -> M A) (acc : A)
  : M A :=
  match n with
  | O => ret acc
  | S n' => acc' <- body i acc ;; for_iter n' (i + 1) body acc'
  end.

Definition for_loop {A} (lo hi : Z) (body : Z -> A -> M A) (acc : A) : M A :=
  for_iter (Z.to_nat (hi - lo)) lo body acc.

(** ** The driver functions *)

(** Lines 62-76. *)
Definition read_status_register : M Z :=
  printf "Reading STATUS register" [] ;;
  tx_store 0 RDSR ;;
  tx_store 1 0 ;;
  rx_store 0 0 ;;
  rx_store 1 0 ;;
  libsoc_spi_rw 2 ;;
  v <- rx_load 1 ;;
  printf "STATUS is 0x%02x" [v] ;;
  ret v.

(** Lines 78-96. *)
Definition release_pwrdwn_read_sig : M Z :=
  printf "Releasing from Deep power-down and Read Electronic Signature" [] ;;
  tx_store 0 RDID ;;
  tx_store 1 0 ;;
  tx_store 2 0 ;;
  tx_store 3 0 ;;
  rx_store 0 0 ;;
  rx_store 1 0 ;;
  rx_store 2 0 ;;
  rx_store 3 0 ;;
  libsoc_spi_rw 4 ;;
  v <- rx_load 3 ;;
  printf "STATUS is 0x%02x" [v] ;;
  ret v.

(** Lines 98-107. *)
Definition set_write_enable : M Z :=
  tx_store 0 WREN ;;
  printf "Setting write enable bit" [] ;;
  libsoc_spi_write 1 ;;
  ret EXIT_SUCCESS.

(** The loop of lines 122-132 and of lines 169-179:
    [do { status = read_status_register(spi_dev); ... } while (status & 0x1);]
    which differ in the two lines they print.  [fuel] bounds the number of
    polls. *)
Fixpoint busy_wait (in_progress finished : string) (fuel : nat) : M unit :=
  match fuel with
  | O => fail OutOfFuel
  | S fuel' =>
      v <- read_status_register ;;
      set_status v ;;
      st <- get_status ;;
      (if nonzero (Z.land st 0x01)
       then printf in_progress []
       else printf finished []) ;;
      st <- get_status ;;
      if nonzero (Z.land st 0x1)
      then busy_wait in_progress finished fuel'
      else ret tt
  end.

(** Lines 109-135. *)
Definition erase_device (fuel : nat) : M Z :=
  set_write_enable ;;
  tx_store 0 CE ;;
  printf "Erase all Sectors" [] ;;
  libsoc_spi_write 1 ;;
  nanosleep EEPROM_ERASE_DELAY ;;
  busy_wait "Erase in progress..." "Erase finished..." fuel ;;
  ret EXIT_SUCCESS.

(** Lines 138-183.  [page_address] is a [uint16_t]; the product is taken
    in [int] and converted back on assignment. *)
Definition write_page (fuel : nat) (page_address : Z) (data : list Z)
  (len : Z) : M Z :=
  if len >? EEPROM_PAGE_SIZE then
    printf "Page size is 128 bytes" [] ;;
    ret EXIT_FAILURE
  else
    set_write_enable ;;
    printf "Writing to page %d" [page_address] ;;
    let page_address := uint16 (page_address * EEPROM_PAGE_SIZE) in
    tx_store 0 WRITE ;;
    tx_store 1 (uint8 (Z.shiftr page_address 8)) ;;
    tx_store 2 (uint8 page_address) ;;
    for_loop 0 len
      (fun i _ => v <- array_load DATA data i ;; tx_store (i + 3) v) tt ;;
    libsoc_spi_write (len + 3) ;;
    nanosleep EEPROM_WRITE_DELAY ;;
    busy_wait "Write in progress..." "Write finished..." fuel ;;
    ret EXIT_SUCCESS.

(** The copy loop of lines 200-203: [data[i] = rx[(i+3)]]. *)
Definition read_page_copy (data : list Z) (len : Z) : M (list Z) :=
  for_loop 0 len
    (fun i data => v <- rx_load (i + 3) ;; array_store DATA data i v) data.

(** Lines 185-206.  The function fills the caller's array, which the
    embedding returns next to the exit code. *)
Definition read_page (page_address : Z) (data : list Z) (len : Z)
  : M (Z * list Z) :=
  tx_store 0 READ ;;
  let page_address := uint16 (page_address * EEPROM_PAGE_SIZE) in
  tx_store 1 (uint8 (Z.shiftr page_address 8)) ;;
  tx_store 2 (uint8 page_address) ;;
  libsoc_spi_rw (len + 3) ;;
  data' <- read_page_copy data len ;;
  ret (EXIT_SUCCESS, data').

(** Lines 208-217. *)
Definition set_deep_power_down : M Z :=
  tx_store 0 DPD ;;
  printf " : Putting Device into Deep Power Down" [] ;;
  libsoc_spi_write 1 ;;
  ret EXIT_SUCCESS.

(** ** [main] (lines 223-339)

    The parts of [main] are named after the comments that head them in the
    source; [main] below puts them together in the order of the source. *)

Definition libsoc_spi_init (handle : bool) : M bool :=
  emit (Setup "libsoc_spi_init") ;;
  ret handle.

Definition libsoc_spi_free : M unit := emit SpiFree.

(** Lines 238-245: bus mode, speed and word size. *)
Definition configure_bus : M unit :=
  emit (Setup "libsoc_spi_set_mode") ;;
  emit (Setup "libsoc_spi_get_mode") ;;
  emit (Setup "libsoc_spi_set_speed") ;;
  emit (Setup "libsoc_spi_get_speed") ;;
  emit (Setup "libsoc_spi_set_bits_per_word") ;;
  emit (Setup "libsoc_spi_get_bits_per_word").

(** A local array of [EEPROM_PAGE_SIZE] bytes before anything is stored in
    it.  Its content is indeterminate in C; the program stores to every
    element before it reads it. *)
Definition local_array : list Z := replicate (Z.to_nat EEPROM_PAGE_SIZE) 0.

(** Lines 253-255: [data[i] = i]. *)
Definition fill_pattern (len : Z) : M (list Z) :=
  for_loop 0 len (fun i data => array_store DATA data i (uint8 i))
    local_array.

(** Line 260: "Read Device ID (and release from deep power)". *)
Definition read_device_id : M Z :=
  v <- release_pwrdwn_read_sig ;;
  set_status v ;;
  get_status.

(** Lines 266-276: "Erase the whole EEPROM", then "Verify that page 0,
    byte 0 is 0xFF": returns [data_read] after the one-byte read. *)
Definition erase_and_read_back (fuel : nat) (data_read : list Z)
  : M (list Z) :=
  erase_device fuel ;;
  let page := 0 in
  let len := 1 in
  printf "Reading page 0, byte 0 to validate erase" [] ;;
  r <- read_page page data_read len ;;
  ret (snd r).

(** Lines 293-296: "Write EEPROM page-by-page". *)
Definition write_all_pages (fuel : nat) (data : list Z) (len : Z) : M unit :=
  for_loop 0 EEPROM_NUM_PAGES
    (fun page _ => write_page fuel page data len ;; ret tt) tt.

(** Lines 308-314: the comparison of one page. *)
Definition compare_page (page : Z) (data data_read : list Z) (len : Z)
  : M unit :=
  for_loop 0 len
    (fun i _ =>
       d <- array_load DATA data i ;;
       r <- array_load DATA_READ data_read i ;;
       if negb (d =? r)
       then printf
         "Data Miscompare Error: Page %d : data[%d] = 0x%02x : data_read[%d] = 0x%02x"
         [page; i; d; i; r]
       else ret tt) tt.

(** Lines 304-315: "Read EEPROM page-by-page". *)
Definition read_all_pages (data data_read : list Z) (len : Z)
  : M (list Z) :=
  for_loop 0 EEPROM_NUM_PAGES
    (fun page data_read =>
       r <- read_page page data_read len ;;
       compare_page page data (snd r) len ;;
       ret (snd r)) data_read.

(** Lines 279-283: the erase left something else than [0xFF]. *)
Definition erase_check_failed (b : Z) : M Z :=
  printf " Expected page 0, byte 0 to be 0xFF, but data_read[0] = 0x%02x"
    [b] ;;
  libsoc_spi_free ;;
  ret EXIT_FAILURE.

(** Lines 291-322: write, read back, compare, power down. *)
Definition write_and_verify (fuel : nat) (data data_read : list Z) : M Z :=
  let len := EEPROM_PAGE_SIZE in
  write_all_pages fuel data len ;;
  printf " : Read all pages back and compare to what we wrote" [] ;;
  read_all_pages data data_read len ;;
  printf " : Test Complete" [] ;;
  set_deep_power_down ;;
  libsoc_spi_free ;;
  ret EXIT_SUCCESS.

(** Lines 263-323: the branch of a matching device ID. *)
Definition test_device (fuel : nat) (data data_read : list Z) : M Z :=
  data_read <- erase_and_read_back fuel data_read ;;
  b <- array_load DATA_READ data_read 0 ;;
  if negb (b =? 0xFF)
  then erase_check_failed b
  else write_and_verify fuel data data_read.

(** Lines 329-337: "If this Device is not a 25LC512...". *)
Definition wrong_device : M Z :=
  printf "Test Terminated - Wrong Device" [] ;;
  set_deep_power_down ;;
  libsoc_spi_free ;;
  ret EXIT_FAILURE.

(** [handle] tells whether [libsoc_spi_init] returned a device. *)
Definition main (fuel : nat) (handle : bool) : M Z :=
  emit (Setup "libsoc_set_debug") ;;
  spi_dev <- libsoc_spi_init handle ;;
  if negb spi_dev then
    printf "Failed to get spidev device!" [] ;;
    ret EXIT_FAILURE
  else
    configure_bus ;;
    let len := EEPROM_PAGE_SIZE in
    let data_read := local_array in
    data <- fill_pattern len ;;
    st <- read_device_id ;;
    if st =? EEPROM_DEVICE_ID
    then test_device fuel data data_read
    else wrong_device.

(** The state in which [main] starts on a device: the static arrays and
    [status] are zero-initialised. *)
Definition power_on (d : device) : state :=
  mkState (replicate (Z.to_nat BUFFER_SIZE) 0)
          (replicate (Z.to_nat BUFFER_SIZE) 0) 0 d [].

Definition run_main (fuel : nat) (handle : bool) (d : device) : outcome Z :=
  main fuel handle (power_on d).

(** The device-ID byte that [main] reads at line 260. *)
Definition device_id_read (d : device) : option Z :=
  value ((emit (Setup "libsoc_set_debug") ;;
          libsoc_spi_init true ;;
          configure_bus ;;
          fill_pattern EEPROM_PAGE_SIZE ;;
          read_device_id) (power_on d)).

(** The byte [data_read[0]] that [main] tests at line 278, when the device
    ID matched and the erase finished within [fuel] polls. *)
Definition erase_check_read (fuel : nat) (d : device) : option Z :=
  value ((emit (Setup "libsoc_set_debug") ;;
          libsoc_spi_init true ;;
          configure_bus ;;
          fill_pattern EEPROM_PAGE_SIZE ;;
          read_device_id ;;
          data_read <- erase_and_read_back fuel local_array ;;
          array_load DATA_READ data_read 0) (power_on d)).

End Program.

(** ** Reading a trace *)

(** The transport calls of a trace, in order. *)
Definition is_bus_call (e : event) : bool :=
  match e with SpiWrite _ | SpiRW _ => true | _ => false end.

Definition bus_calls (tr : list event) : list event :=
  List.filter is_bus_call tr.

(** The opcode a transport call starts with. *)
Definition opcode (e : event) : option Z :=
  match e with
  | SpiWrite (op :: _) | SpiRW (op :: _) => Some op
  | _ => None
  end.

Definition has_opcode (op : Z) (e : event) : bool :=
  match opcode e with Some o => o =? op | None => false end.

Definition is_sleep (e : event) : bool :=
  match e with Nanosleep _ => true | _ => false end.

(** Chip erase and page write, the two frames that need the write-enable
    latch. *)
Definition needs_write_enable (e : event) : bool :=
  has_opcode CE e || has_opcode WRITE e.

(** [wren_before prev calls]: every erase or write frame of [calls] comes
    right after a write-enable frame, [prev] telling whether the call
    before [calls] was one. *)
Fixpoint wren_before (prev : bool) (calls : list event) : bool :=
  match calls with
  | [] => true
  | e :: rest =>
      (if needs_write_enable e then prev else true)
      && wren_before (has_opcode WREN e) rest
  end.

Definition wren_guarded (tr : list event) : bool :=
  wren_before false (bus_calls tr).

(** [sleep_between_polls slept tr]: every status poll of [tr] that follows
    an earlier status poll is separated from it by a sleep; [slept] tells
    whether that holds for the next poll already. *)
Fixpoint sleep_between_polls (slept : bool) (tr : list event) : bool :=
  match tr with
  | [] => true
  | e :: rest =>
      if has_opcode RDSR e then slept && sleep_between_polls false rest
      else if is_sleep e then sleep_between_polls true rest
      else sleep_between_polls slept rest
  end.

Section Observations.
Context `{T : Transport}.

(** The arrays have their declared size. *)
Definition wf (s : state) : Prop :=
  length (tx s) = Z.to_nat BUFFER_SIZE /\ length (rx s) = Z.to_nat BUFFER_SIZE.

(** What one status poll does to the device and reads from it. *)
Definition poll_frame : list Z := [RDSR; 0].
Definition after_poll (d : device) : device := fst (dev_rw d poll_frame).
Definition status_byte (d : device) : Z :=
  uint8 (default 0 (snd (dev_rw d poll_frame) !! 1%nat)).

(** [idle_within n d]: one of the next [n] status polls of [d] reads the
    busy bit clear. *)
Fixpoint idle_within (n : nat) (d : device) : bool :=
  match n with
  | O => false
  | S n' => if Z.testbit (status_byte d) 0 then idle_within n' (after_poll d)
            else true
  end.

(** A device on which no busy period lasts forever. *)
Definition responsive : Prop :=
  forall d : device, exists n, idle_within n d = true.

(** The events of at most [fuel] rounds of the polling loop on [d]. *)
Fixpoint poll_trace (in_progress finished : string) (fuel : nat) (d : device)
  : list event :=
  match fuel with
  | O => []
  | S fuel' =>
      [Printf "Reading STATUS register" []; SpiRW poll_frame;
       Printf "STATUS is 0x%02x" [status_byte d]] ++
      (if Z.testbit (status_byte d) 0
       then Printf in_progress [] :: poll_trace in_progress finished fuel'
                                                 (after_poll d)
       else [Printf finished []])
  end.

(** The device once the polling loop has seen it idle. *)
Fixpoint settled (fuel : nat) (d : device) : device :=
  match fuel with
  | O => d
  | S fuel' => if Z.testbit (status_byte d) 0 then settled fuel' (after_poll d)
               else after_poll d
  end.

(** The identification frame and the byte the device answers in its
    fourth position. *)
Definition id_frame : list Z := [RDID; 0; 0; 0].
Definition signature (d : device) : Z :=
  uint8 (default 0 (snd (dev_rw d id_frame) !! 3%nat)).

(** The two address bytes, as lines 149-154 and 191-194 compute them. *)
Definition addr_hi (page_address : Z) : Z :=
  uint8 (Z.shiftr (uint16 (page_address * EEPROM_PAGE_SIZE)) 8).
Definition addr_lo (page_address : Z) : Z :=
  uint8 (uint16 (page_address * EEPROM_PAGE_SIZE)).

(** The device after the two frames of an erase, and of a page write. *)
Definition erase_sent (d : device) : device :=
  dev_write (dev_write d [WREN]) [CE].
Definition write_sent (d : device) (frame : list Z) : device :=
  dev_write (dev_write d [WREN]) frame.

(** The test pattern of lines 253-255: the bytes 0 to 127. *)
Definition pattern : list Z :=
  (fun i => uint8 (Z.of_nat i)) <$> seq 0 (Z.to_nat EEPROM_PAGE_SIZE).

(** The state in which [main] reaches line 260. *)
Definition configured (d : device) : state :=
  mkState (replicate (Z.to_nat BUFFER_SIZE) 0)
          (replicate (Z.to_nat BUFFER_SIZE) 0) 0 d
          [Setup "libsoc_set_debug"; Setup "libsoc_spi_init";
           Setup "libsoc_spi_set_mode"; Setup "libsoc_spi_get_mode";
           Setup "libsoc_spi_set_speed"; Setup "libsoc_spi_get_speed";
           Setup "libsoc_spi_set_bits_per_word";
           Setup "libsoc_spi_get_bits_per_word"].

(** What [main] does before it talks to the device. *)
Definition setup_trace : list event :=
  [Setup "libsoc_set_debug"; Setup "libsoc_spi_init";
   Setup "libsoc_spi_set_mode"; Setup "libsoc_spi_get_mode";
   Setup "libsoc_spi_set_speed"; Setup "libsoc_spi_get_speed";
   Setup "libsoc_spi_set_bits_per_word"; Setup "libsoc_spi_get_bits_per_word"].

(** The lines the comparison of a page prints: one for each index below
    [n] (counted from [i]) at which the two arrays differ. *)
Fixpoint miscompare_lines (page : Z) (data data_read : list Z) (n : nat)
  (i : Z) : list event :=
  match n with
  | O => []
  | S n' =>
      let d := default 0 (data !! Z.to_nat i) in
      let r := default 0 (data_read !! Z.to_nat i) in
      (if d =? r then []
       else [Printf
         "Data Miscompare Error: Page %d : data[%d] = 0x%02x : data_read[%d] = 0x%02x"
         [page; i; d; i; r]])
      ++ miscompare_lines page data data_read n' (i + 1)
  end.

(** The [n] bytes that a page read stores in [data]: those the device
    answered behind opcode and address, as bytes. *)
Definition page_received (resp : list Z) (n : nat) : list Z :=
  (fun i => uint8 (default 0 (resp !! (3 + i)%nat))) <$> seq 0 n.

(** What the read-back of [n] pages from [page] on shows on a device [d],
    with [sent] in [tx] behind the address: for each page the read frame,
    then the lines of the comparison of the bytes received with [data]. *)
Fixpoint readback_events (data sent : list Z) (n : nat) (page : Z)
  (d : device) : list event :=
  match n with
  | O => []
  | S n' =>
      let frame := READ :: addr_hi page :: addr_lo page :: sent in
      let r := dev_rw d frame in
      SpiRW frame ::
      miscompare_lines page data
        (page_received (snd r) (Z.to_nat EEPROM_PAGE_SIZE))
        (Z.to_nat EEPROM_PAGE_SIZE) 0 ++
      readback_events data sent n' (page + 1) (fst r)
  end.

(** The device after the writes of [n] pages from [page] on, each one
    polled until idle. *)
Fixpoint after_writes (fuel : nat) (data : list Z) (n : nat) (page : Z)
  (d : device) : device :=
  match n with
  | O => d
  | S n' =>
      after_writes fuel data n' (page + 1)
        (settled fuel
           (write_sent d (WRITE :: addr_hi page :: addr_lo page :: data)))
  end.

(** The device when [main] starts to write: identified, erased, polled
    until idle, and read once at offset 0. *)
Definition erase_checked (fuel : nat) (d : device) : device :=
  fst (dev_rw (settled fuel (erase_sent (fst (dev_rw d id_frame))))
              [READ; 0; 0; 0]).

(** The device when [main] starts to read back: the pattern written to
    every page. *)
Definition written (fuel : nat) (d : device) : device :=
  after_writes fuel pattern (Z.to_nat EEPROM_NUM_PAGES) 0
               (erase_checked fuel d).

(** A stretch of trace in which every erase or write frame has its own
    write-enable frame right before it. *)
Definition self_guarded (ext : list event) : Prop :=
  wren_before false (bus_calls ext) = true.

(** [keeps m P]: from a well-formed state, [m] ends (or stops) in a
    well-formed state, having added a self-guarded stretch to the trace,
    and a value it returns satisfies [P]. *)
Definition keeps {A} (m : M A) (P : A -> Prop) : Prop :=
  forall s, wf s ->
    wf (final (m s)) /\
    (exists ext, trace (final (m s)) = trace s ++ ext /\ self_guarded ext) /\
    forall a s', m s = Done a s' -> P a.

(** The busy-poll policy in the words of the spec, to compare [busy_wait]
    with: "loop { read_status(); if busy bit set, sleep fixed_delay,
    continue; else break }". *)
Fixpoint spec_busy_poll (fixed_delay : Z) (fuel : nat) : M unit :=
  match fuel with
  | O => fail OutOfFuel
  | S fuel' =>
      v <- read_status_register ;;
      if Z.testbit v 0
      then nanosleep fixed_delay ;; spec_busy_poll fixed_delay fuel'
      else ret tt
  end.

End Observations.

(** ** A mock device

    Every page holds the same bytes: [0xFF] after a chip erase, the payload
    of the last page write afterwards, with [mock_fault] flipped into its
    first byte.  An erase or a write keeps the device busy for
    [mock_latency] status polls. *)
Record mock := mkMock {
  mock_id : Z;
  mock_latency : nat;
  mock_blank : Z;
  mock_fault : Z;
  mock_busy : nat;
  mock_page : list Z
}.

Definition mock_write (d : mock) (frame : list Z) : mock :=
  match frame with
  | op :: rest =>
      if op =? CE then
        mkMock (mock_id d) (mock_latency d) (mock_blank d) (mock_fault d)
               (mock_latency d)
               (replicate (Z.to_nat EEPROM_PAGE_SIZE) (mock_blank d))
      else if op =? WRITE then
        mkMock (mock_id d) (mock_latency d) (mock_blank d) (mock_fault d)
               (mock_latency d)
               (match drop 2 rest with
                | b :: payload => Z.lxor b (mock_fault d) :: payload
                | [] => []
                end)
      else d
  | [] => d
  end.

Definition mock_rw (d : mock) (frame : list Z) : mock * list Z :=
  match frame with
  | op :: _ =>
      if op =? RDSR then
        (mkMock (mock_id d) (mock_latency d) (mock_blank d) (mock_fault d)
                (Nat.pred (mock_busy d)) (mock_page d),
         [0; if Nat.ltb 0 (mock_busy d) then 1 else 0])
      else if op =? RDID then (d, [0; 0; 0; mock_id d])
      else if op =? READ then (d, [0; 0; 0] ++ mock_page d)
      else (d, [])
  | [] => (d, [])
  end.

Definition mock_transport : Transport :=
  {| device := mock; dev_rw := mock_rw; dev_write := mock_write |}.

(** A 25LC512 that stays busy for two polls after each erase or write. *)
Definition chip : mock := mkMock 0x29 2 0xFF 0 0 [].
(** The same chip, flipping a bit in the first byte of each page write. *)
Definition faulty_chip : mock := mkMock 0x29 2 0xFF 1 0 [].
(** Another part on the bus. *)
Definition other_chip : mock := mkMock 0x10 2 0xFF 0 0 [].
(** A chip whose erased cells read [0x7F]. *)
Definition worn_chip : mock := mkMock 0x29 2 0x7F 0 0 [].
(** A chip in the middle of a write cycle: busy for two more polls. *)
Definition busy_chip : mock := mkMock 0x29 2 0xFF 0 2 [].

(** ** A device that never finishes

    It answers the identification like a 25LC512, and its status register
    reads busy at every poll. *)
Definition stuck_transport : Transport :=
  {| device := unit;
     dev_rw := fun d frame =>
       match frame with
       | op :: _ => if op =? RDID then (d, [0; 0; 0; 0x29]) else (d, [0; 1])
       | [] => (d, [])
       end;
     dev_write := fun d _ => d |}.

(** ** The commands of a run

    The transport calls other than status polls. *)
Definition commands (tr : list event) : list event :=
  List.filter (fun e => negb (has_opcode RDSR e)) (bus_calls tr).

(** The two frames of the write of page [p]: write enable, then opcode,
    byte offset (high byte first) and payload. *)
Definition page_write_calls (data : list Z) (p : Z) : list event :=
  [SpiWrite [WREN];
   SpiWrite (WRITE :: p * EEPROM_PAGE_SIZE / 256
                   :: (p * EEPROM_PAGE_SIZE) mod 256 :: data)].

(** The frame of the read of page [p]: opcode, byte offset, and the bytes
    sent while the page is clocked in. *)
Definition page_read_call (sent : list Z) (p : Z) : event :=
  SpiRW (READ :: p * EEPROM_PAGE_SIZE / 256
              :: (p * EEPROM_PAGE_SIZE) mod 256 :: sent).

(** * Properties *)

Section Properties.
Context `{T : Transport}.

(** ** Running primitives on well-formed states *)

Lemma in_bounds_true (a : list Z) (i : Z) :
  0 <= i < Z.of_nat (length a) -> in_bounds a i = true.
Proof. unfold in_bounds. intros H. apply andb_true_iff. lia. Qed.

Lemma in_bounds_false (a : list Z) (i : Z) :
  Z.of_nat (length a) <= i -> in_bounds a i = false.
Proof. unfold in_bounds. intros H. apply andb_false_iff. lia. Qed.

Lemma bind_done {A B} (m : M A) (k : A -> M B) s a s' :
  m s = Done a s' -> bind m k s = k a s'.
Proof. unfold bind. intros ->. reflexivity. Qed.

Lemma bind_fail {A B} (m : M A) (k : A -> M B) s e s' :
  m s = Fail e s' -> bind m k s = Fail e s'.
Proof. unfold bind. intros ->. reflexivity. Qed.

Lemma bind_assoc {A B C} (m : M A) (k1 : A -> M B) (k2 : B -> M C) s :
  bind (bind m k1) k2 s = bind m (fun a => bind (k1 a) k2) s.
Proof. unfold bind. destruct (m s); reflexivity. Qed.

Lemma tx_store_done i v s :
  0 <= i < Z.of_nat (length (tx s)) ->
  tx_store i v s =
  Done tt (mkState (<[Z.to_nat i := v]> (tx s)) (rx s) (status s) (dev s)
                   (trace s)).
Proof. intros H. unfold tx_store. now rewrite in_bounds_true. Qed.

Lemma rx_store_done i v s :
  0 <= i < Z.of_nat (length (rx s)) ->
  rx_store i v s =
  Done tt (mkState (tx s) (<[Z.to_nat i := v]> (rx s)) (status s) (dev s)
                   (trace s)).
Proof. intros H. unfold rx_store. now rewrite in_bounds_true. Qed.

Lemma rx_load_done i s :
  0 <= i < Z.of_nat (length (rx s)) ->
  rx_load i s = Done (default 0 (rx s !! Z.to_nat i)) s.
Proof. intros H. unfold rx_load. now rewrite in_bounds_true. Qed.

Lemma libsoc_spi_write_done len s :
  0 <= len <= Z.of_nat (length (tx s)) ->
  libsoc_spi_write len s =
  Done tt (mkState (tx s) (rx s) (status s)
                   (dev_write (dev s) (take (Z.to_nat len) (tx s)))
                   (trace s ++ [SpiWrite (take (Z.to_nat len) (tx s))])).
Proof. intros _. reflexivity. Qed.

Lemma libsoc_spi_rw_done len s :
  0 <= len <= Z.of_nat (length (tx s)) ->
  len <= Z.of_nat (length (rx s)) ->
  libsoc_spi_rw len s =
  Done tt (mkState (tx s)
                   (received (Z.to_nat len)
                      (snd (dev_rw (dev s) (take (Z.to_nat len) (tx s))))
                      (rx s))
                   (status s)
                   (fst (dev_rw (dev s) (take (Z.to_nat len) (tx s))))
                   (trace s ++ [SpiRW (take (Z.to_nat len) (tx s))])).
Proof.
  intros H1 H2. unfold libsoc_spi_rw. rewrite Nat.min_l by lia.
  reflexivity.
Qed.

Lemma length_received n resp buf :
  (n <= length buf)%nat -> length (received n resp buf) = length buf.
Proof.
  intros H. unfold received.
  rewrite length_app, length_fmap, length_seq, length_drop. lia.
Qed.

Lemma received_lookup n resp buf i :
  (i < n)%nat -> received n resp buf !! i = Some (uint8 (default 0 (resp !! i))).
Proof.
  intros H. unfold received.
  rewrite lookup_app_l by (rewrite length_fmap, length_seq; lia).
  rewrite list_lookup_fmap, lookup_seq_lt by lia. reflexivity.
Qed.

Lemma wf_lengths s :
  wf s -> length (tx s) = 131%nat /\ length (rx s) = 131%nat.
Proof. intros H. exact H. Qed.

(** One step of symbolic execution: run the first command of a sequence
    with its equation, leaving the side conditions on indices. *)
Ltac side :=
  cbn [tx rx status dev trace];
  change (Z.to_nat BUFFER_SIZE) with 131%nat;
  repeat first
    [ rewrite length_insert
    | rewrite length_received; [| solve [rewrite ?length_insert; lia]] ];
  lia.

Ltac run1 :=
  match goal with
  | |- context [bind (bind ?m ?k1) ?k2 ?s] =>
      rewrite (bind_assoc m k1 k2 s)
  | |- context [bind (ret ?a) ?k ?s] =>
      change (bind (ret a) k s) with (k a s)
  | |- context [bind (tx_store ?i ?v) ?k ?s] =>
      rewrite (bind_done (tx_store i v) k s _ _ (tx_store_done i v s ltac:(side)))
  | |- context [bind (rx_store ?i ?v) ?k ?s] =>
      rewrite (bind_done (rx_store i v) k s _ _ (rx_store_done i v s ltac:(side)))
  | |- context [bind (rx_load ?i) ?k ?s] =>
      rewrite (bind_done (rx_load i) k s _ _ (rx_load_done i s ltac:(side)))
  | |- context [bind (libsoc_spi_write ?n) ?k ?s] =>
      rewrite (bind_done (libsoc_spi_write n) k s _ _
                 (libsoc_spi_write_done n s ltac:(side)))
  | |- context [bind (libsoc_spi_rw ?n) ?k ?s] =>
      rewrite (bind_done (libsoc_spi_rw n) k s _ _
                 (libsoc_spi_rw_done n s ltac:(side) ltac:(side)))
  | |- context [bind (libsoc_spi_write ?n) ?k ?s] =>
      rewrite (bind_done (libsoc_spi_write n) k s tt _ eq_refl)
  | |- context [bind (printf ?f ?a) ?k ?s] =>
      rewrite (bind_done (printf f a) k s tt _ eq_refl)
  | |- context [bind (nanosleep ?n) ?k ?s] =>
      rewrite (bind_done (nanosleep n) k s tt _ eq_refl)
  | |- context [bind (emit ?e) ?k ?s] =>
      rewrite (bind_done (emit e) k s tt _ eq_refl)
  | |- context [bind (set_status ?v) ?k ?s] =>
      rewrite (bind_done (set_status v) k s tt _ eq_refl)
  | |- context [bind get_status ?k ?s] =>
      rewrite (bind_done get_status k s _ _ eq_refl)
  end; cbn beta; cbn [tx rx status dev trace].

Ltac run := repeat run1.

Lemma frame1 (a : Z) (l : list Z) :
  (1 <= length l)%nat -> take (Z.to_nat 1) (<[Z.to_nat 0 := a]> l) = [a].
Proof. destruct l; simpl; [lia | reflexivity]. Qed.

Lemma frame2 (a b : Z) (l : list Z) :
  (2 <= length l)%nat ->
  take (Z.to_nat 2) (<[Z.to_nat 1 := b]> (<[Z.to_nat 0 := a]> l)) = [a; b].
Proof. destruct l as [|x [|y l]]; simpl; try lia; reflexivity. Qed.

Lemma frame4 (a b c d : Z) (l : list Z) :
  (4 <= length l)%nat ->
  take (Z.to_nat 4)
    (<[Z.to_nat 3 := d]> (<[Z.to_nat 2 := c]> (<[Z.to_nat 1 := b]>
       (<[Z.to_nat 0 := a]> l)))) = [a; b; c; d].
Proof.
  destruct l as [|x [|y [|z [|w l]]]]; simpl; try lia; reflexivity.
Qed.

Lemma nonzero_land_1 v : nonzero (Z.land v 1) = Z.testbit v 0.
Proof.
  unfold nonzero. change 1 with (Z.ones 1) at 1.
  rewrite Z.land_ones by lia. rewrite Z.bit0_odd.
  change (2 ^ 1) with 2. rewrite Zmod_odd.
  destruct (Z.odd v); reflexivity.
Qed.

(** ** The driver functions on well-formed states *)

Lemma read_status_register_run s :
  wf s ->
  exists s',
    read_status_register s = Done (status_byte (dev s)) s' /\
    wf s' /\
    trace s' = trace s ++ [Printf "Reading STATUS register" [];
                           SpiRW poll_frame;
                           Printf "STATUS is 0x%02x" [status_byte (dev s)]] /\
    dev s' = after_poll (dev s) /\
    status s' = status s.
Proof.
  intros Hwf. apply wf_lengths in Hwf as [Htx Hrx].
  unfold read_status_register. run.
  rewrite frame2 by lia.
  rewrite received_lookup by (simpl; lia).
  eexists. split; [reflexivity|]. cbn [tx rx status dev trace].
  repeat split.
  - side.
  - side.
  - now rewrite <- !app_assoc.
Qed.

Lemma release_pwrdwn_read_sig_run s :
  wf s ->
  exists s',
    release_pwrdwn_read_sig s = Done (signature (dev s)) s' /\
    wf s' /\
    trace s' = trace s ++
      [Printf "Releasing from Deep power-down and Read Electronic Signature" [];
       SpiRW id_frame;
       Printf "STATUS is 0x%02x" [signature (dev s)]] /\
    dev s' = fst (dev_rw (dev s) id_frame) /\
    status s' = status s.
Proof.
  intros Hwf. apply wf_lengths in Hwf as [Htx Hrx].
  unfold release_pwrdwn_read_sig. run.
  rewrite frame4 by lia.
  rewrite received_lookup by (simpl; lia).
  eexists. split; [reflexivity|]. cbn [tx rx status dev trace].
  repeat split.
  - side.
  - side.
  - now rewrite <- !app_assoc.
Qed.

Lemma set_write_enable_run s :
  wf s ->
  exists s',
    set_write_enable s = Done EXIT_SUCCESS s' /\
    wf s' /\
    trace s' = trace s ++ [Printf "Setting write enable bit" [];
                           SpiWrite [WREN]] /\
    dev s' = dev_write (dev s) [WREN] /\
    status s' = status s.
Proof.
  intros Hwf. apply wf_lengths in Hwf as [Htx Hrx].
  unfold set_write_enable. run.
  rewrite frame1 by lia.
  eexists. split; [reflexivity|]. cbn [tx rx status dev trace].
  repeat split.
  - side.
  - side.
  - now rewrite <- !app_assoc.
Qed.

Lemma set_deep_power_down_run s :
  wf s ->
  exists s',
    set_deep_power_down s = Done EXIT_SUCCESS s' /\
    wf s' /\
    trace s' = trace s ++ [Printf " : Putting Device into Deep Power Down" [];
                           SpiWrite [DPD]] /\
    dev s' = dev_write (dev s) [DPD] /\
    status s' = status s.
Proof.
  intros Hwf. apply wf_lengths in Hwf as [Htx Hrx].
  unfold set_deep_power_down. run.
  rewrite frame1 by lia.
  eexists. split; [reflexivity|]. cbn [tx rx status dev trace].
  repeat split.
  - side.
  - side.
  - now rewrite <- !app_assoc.
Qed.

(** ** The polling loop *)

(** One round of the loop: a status poll, then either the next round or the
    end, by bit 0 of the byte read.  Nothing sleeps in between. *)
Lemma busy_wait_round in_progress finished fuel s :
  busy_wait in_progress finished (S fuel) s =
  match read_status_register s with
  | Done v s1 =>
      if Z.testbit v 0
      then busy_wait in_progress finished fuel
             (mkState (tx s1) (rx s1) v (dev s1)
                      (trace s1 ++ [Printf in_progress []]))
      else Done tt (mkState (tx s1) (rx s1) v (dev s1)
                            (trace s1 ++ [Printf finished []]))
  | Fail e s1 => Fail e s1
  end.
Proof.
  cbn [busy_wait]. unfold bind at 1.
  destruct (read_status_register s) as [v s1|e s1]; [|reflexivity].
  run. rewrite nonzero_land_1.
  destruct (Z.testbit v 0) eqn:Hbit; run; rewrite nonzero_land_1, Hbit;
    reflexivity.
Qed.

Lemma busy_wait_run in_progress finished fuel : forall s,
  wf s ->
  wf (final (busy_wait in_progress finished fuel s)) /\
  trace (final (busy_wait in_progress finished fuel s)) =
    trace s ++ poll_trace in_progress finished fuel (dev s) /\
  (idle_within fuel (dev s) = true ->
   exists s', busy_wait in_progress finished fuel s = Done tt s' /\
              Z.testbit (status s') 0 = false /\
              dev s' = settled fuel (dev s)) /\
  (idle_within fuel (dev s) = false ->
   exists s', busy_wait in_progress finished fuel s = Fail OutOfFuel s').
Proof.
  induction fuel as [|fuel IH]; intros s Hwf.
  - cbn. rewrite app_nil_r. split; [exact Hwf|]. split; [reflexivity|].
    split; [discriminate|]. intros _. now eexists.
  - rewrite busy_wait_round.
    destruct (read_status_register_run s Hwf) as (s1 & E & Hwf1 & Htr & Hd & _).
    rewrite E. cbn [poll_trace idle_within settled].
    destruct (Z.testbit (status_byte (dev s)) 0) eqn:Hbit.
    + set (s2 := mkState _ _ _ _ _).
      assert (Hwf2 : wf s2) by exact Hwf1.
      destruct (IH s2 Hwf2) as (W & Tr & Ok & Ko).
      split; [exact W|]. split.
      * rewrite Tr. subst s2. cbn [tx rx status dev trace].
        rewrite Htr, Hd, <- !app_assoc. reflexivity.
      * subst s2. cbn [tx rx status dev trace] in Ok, Ko.
        rewrite <- Hd. split; assumption.
    + cbn [final tx rx status dev trace]. split; [exact Hwf1|]. split.
      * rewrite Htr, <- !app_assoc. reflexivity.
      * split; [|discriminate]. intros _. eexists. split; [reflexivity|].
        cbn [tx rx status dev trace]. split; [exact Hbit|exact Hd].
Qed.

(** More fuel does not change a run that finished. *)
Lemma busy_wait_mono in_progress finished n : forall f s s',
  busy_wait in_progress finished n s = Done tt s' -> (n <= f)%nat ->
  busy_wait in_progress finished f s = Done tt s'.
Proof.
  induction n as [|n IH]; intros f s s' H Hle; [discriminate|].
  destruct f as [|f]; [lia|].
  rewrite busy_wait_round in *.
  destruct (read_status_register s) as [v s1|e s1]; [|discriminate].
  destruct (Z.testbit v 0); [|exact H].
  apply IH; [exact H | lia].
Qed.

Lemma idle_within_mono n : forall d f,
  idle_within n d = true -> (n <= f)%nat -> idle_within f d = true.
Proof.
  induction n as [|n IH]; intros d f H Hle; [discriminate|].
  destruct f as [|f]; [lia|]. cbn [idle_within] in *.
  destruct (Z.testbit (status_byte d) 0); [|reflexivity].
  apply IH; [exact H | lia].
Qed.

Lemma busy_wait_then_ret in_progress finished fuel (r : Z) s :
  wf s ->
  let o := (busy_wait in_progress finished fuel ;; ret r) s in
  wf (final o) /\
  trace (final o) = trace s ++ poll_trace in_progress finished fuel (dev s) /\
  (idle_within fuel (dev s) = true ->
   exists s', o = Done r s' /\ Z.testbit (status s') 0 = false) /\
  (idle_within fuel (dev s) = false -> exists s', o = Fail OutOfFuel s').
Proof.
  intros Hwf o. subst o.
  destruct (busy_wait_run in_progress finished fuel s Hwf) as (W & Tr & Ok & Ko).
  destruct (busy_wait _ _ fuel s) as [[] s3|e s3] eqn:Eb;
    [rewrite !(bind_done _ _ _ _ _ Eb) | rewrite !(bind_fail _ _ _ _ _ Eb)];
    unfold ret; cbn [final] in *.
  - split; [exact W|]. split; [exact Tr|]. split.
    + intros Hi. destruct (Ok Hi) as (s' & Es & Hb & _).
      injection Es as <-. eexists. split; [reflexivity | exact Hb].
    + intros Hi. destruct (Ko Hi) as (s' & Es). discriminate.
  - split; [exact W|]. split; [exact Tr|]. split.
    + intros Hi. destruct (Ok Hi) as (s' & Es & _). discriminate.
    + intros Hi. destruct (Ko Hi) as (s' & Es). injection Es as -> ->.
      now eexists.
Qed.

(** ** Erase *)

Lemma erase_device_run fuel s :
  wf s ->
  wf (final (erase_device fuel s)) /\
  trace (final (erase_device fuel s)) =
    trace s ++
    [Printf "Setting write enable bit" []; SpiWrite [WREN];
     Printf "Erase all Sectors" []; SpiWrite [CE];
     Nanosleep EEPROM_ERASE_DELAY] ++
    poll_trace "Erase in progress..." "Erase finished..." fuel
               (erase_sent (dev s)) /\
  (idle_within fuel (erase_sent (dev s)) = true ->
   exists s', erase_device fuel s = Done EXIT_SUCCESS s' /\
              Z.testbit (status s') 0 = false) /\
  (idle_within fuel (erase_sent (dev s)) = false ->
   exists s', erase_device fuel s = Fail OutOfFuel s').
Proof.
  intros Hwf. unfold erase_device.
  destruct (set_write_enable_run s Hwf) as (s1 & E1 & Hwf1 & Htr1 & Hd1 & _).
  rewrite (bind_done _ _ _ _ _ E1).
  pose proof Hwf1 as [Htx Hrx]%wf_lengths.
  run. rewrite frame1 by lia.
  set (s2 := mkState _ _ _ _ _).
  assert (Hwf2 : wf s2) by (subst s2; split; side).
  pose proof (busy_wait_then_ret "Erase in progress..." "Erase finished..."
                fuel EXIT_SUCCESS s2 Hwf2) as H. cbv zeta in H.
  assert (Hd2 : dev s2 = erase_sent (dev s))
    by (subst s2; cbn [dev]; now rewrite Hd1).
  assert (Htr2 : trace s2 = trace s ++
    [Printf "Setting write enable bit" []; SpiWrite [WREN];
     Printf "Erase all Sectors" []; SpiWrite [CE];
     Nanosleep EEPROM_ERASE_DELAY])
    by (subst s2; cbn [trace]; rewrite Htr1, <- !app_assoc; reflexivity).
  rewrite Hd2, Htr2, <- app_assoc in H. exact H.
Qed.

(** ** Page write *)

(** The copy loop of lines 159-162. *)
Lemma copy_to_tx data n : forall i s,
  length (tx s) = 131%nat ->
  (i + n <= length data)%nat -> (i + n <= 128)%nat ->
  exists s',
    for_iter n (Z.of_nat i)
      (fun j _ => v <- array_load DATA data j ;; tx_store (j + 3) v) tt s
    = Done tt s' /\
    length (tx s') = 131%nat /\ rx s' = rx s /\ status s' = status s /\
    dev s' = dev s /\ trace s' = trace s /\
    take (3 + i + n) (tx s') = take (3 + i) (tx s) ++ take n (drop i data).
Proof.
  induction n as [|n IH]; intros i s Htx Hdata Hpage.
  - exists s. cbn [for_iter]. unfold ret. rewrite Nat.add_0_r, app_nil_r.
    repeat split; done.
  - cbn [for_iter].
    destruct (lookup_lt_is_Some_2 data i ltac:(lia)) as [v Hv].
    unfold bind at 1 2. unfold array_load.
    rewrite in_bounds_true by lia. rewrite Nat2Z.id, Hv. cbn [default].
    rewrite tx_store_done by lia.
    set (s1 := mkState _ _ _ _ _).
    replace (Z.of_nat i + 1) with (Z.of_nat (S i)) by lia.
    destruct (IH (S i) s1) as (s' & E & L & R & St & D & Tr & Tk).
    { subst s1. cbn [tx]. now rewrite length_insert. }
    { lia. } { lia. }
    exists s'. split; [exact E|]. subst s1. cbn [tx rx status dev trace] in *.
    repeat split; try assumption.
    replace (3 + i + S n)%nat with (3 + S i + n)%nat by lia.
    rewrite Tk. replace (Z.to_nat (Z.of_nat i + 3)) with (3 + i)%nat by lia.
    replace (3 + S i)%nat with (S (3 + i)) by lia.
    rewrite (take_S_r _ _ v) by (apply list_lookup_insert_eq; lia).
    rewrite take_insert_ge by lia.
    rewrite (drop_S _ _ _ Hv). cbn [take]. now rewrite <- app_assoc.
Qed.

Lemma frame3 (a b c : Z) (l : list Z) :
  (3 <= length l)%nat ->
  take 3 (<[Z.to_nat 2 := c]> (<[Z.to_nat 1 := b]> (<[Z.to_nat 0 := a]> l)))
  = [a; b; c].
Proof. destruct l as [|x [|y [|z l]]]; simpl; try lia; reflexivity. Qed.

Lemma write_page_run fuel page_address data len s :
  wf s -> 0 <= len <= EEPROM_PAGE_SIZE -> len <= Z.of_nat (length data) ->
  let frame := WRITE :: addr_hi page_address :: addr_lo page_address
                     :: take (Z.to_nat len) data in
  let o := write_page fuel page_address data len s in
  wf (final o) /\
  trace (final o) =
    trace s ++
    [Printf "Setting write enable bit" []; SpiWrite [WREN];
     Printf "Writing to page %d" [page_address]; SpiWrite frame;
     Nanosleep EEPROM_WRITE_DELAY] ++
    poll_trace "Write in progress..." "Write finished..." fuel
               (write_sent (dev s) frame) /\
  (idle_within fuel (write_sent (dev s) frame) = true ->
   exists s', o = Done EXIT_SUCCESS s' /\ Z.testbit (status s') 0 = false) /\
  (idle_within fuel (write_sent (dev s) frame) = false ->
   exists s', o = Fail OutOfFuel s').
Proof.
  intros Hwf Hlen Hdata frame o. subst o. unfold write_page.
  unfold EEPROM_PAGE_SIZE in Hlen.
  destruct (len >? EEPROM_PAGE_SIZE) eqn:Hgt;
    [apply Z.gtb_lt in Hgt; unfold EEPROM_PAGE_SIZE in Hgt; lia|].
  destruct (set_write_enable_run s Hwf) as (s1 & E1 & Hwf1 & Htr1 & Hd1 & _).
  rewrite (bind_done _ _ _ _ _ E1).
  pose proof Hwf1 as [Htx Hrx]%wf_lengths.
  run. fold (addr_hi page_address) (addr_lo page_address).
  set (s2 := mkState _ _ _ _ _).
  unfold for_loop. rewrite Z.sub_0_r.
  destruct (copy_to_tx data (Z.to_nat len) 0%nat s2)
    as (s3 & E3 & L3 & R3 & St3 & D3 & Tr3 & Tk3).
  { subst s2. side. } { lia. } { lia. }
  change (Z.of_nat 0) with 0 in E3.
  rewrite (bind_done _ _ _ _ _ E3).
  assert (Hframe : take (Z.to_nat (len + 3)) (tx s3) = frame).
  { replace (Z.to_nat (len + 3)) with (3 + 0 + Z.to_nat len)%nat by lia.
    rewrite Tk3. subst s2. cbn [tx]. rewrite frame3 by lia.
    rewrite drop_0. reflexivity. }
  assert (Hrx3 : length (rx s3) = 131%nat)
    by (rewrite R3; subst s2; side).
  run. rewrite Hframe.
  set (s4 := mkState _ _ _ _ _).
  assert (Hwf4 : wf s4) by (subst s4; split; side).
  pose proof (busy_wait_then_ret "Write in progress..." "Write finished..."
                fuel EXIT_SUCCESS s4 Hwf4) as H. cbv zeta in H.
  assert (Hd4 : dev s4 = write_sent (dev s) frame).
  { subst s4. cbn [dev]. rewrite D3. subst s2. cbn [dev]. now rewrite Hd1. }
  assert (Htr4 : trace s4 = trace s ++
    [Printf "Setting write enable bit" []; SpiWrite [WREN];
     Printf "Writing to page %d" [page_address]; SpiWrite frame;
     Nanosleep EEPROM_WRITE_DELAY]).
  { subst s4. cbn [trace]. rewrite Tr3. subst s2. cbn [trace].
    rewrite Htr1, <- !app_assoc. reflexivity. }
  rewrite Hd4, Htr4, <- app_assoc in H. exact H.
Qed.

(** ** Page read *)

(** The copy loop of lines 200-203 stays inside [rx] as long as it stops
    at index 128. *)
Lemma copy_from_rx_ok n : forall i data s,
  length (rx s) = 131%nat ->
  (i + n <= 128)%nat -> (i + n <= length data)%nat ->
  exists data',
    for_iter n (Z.of_nat i)
      (fun j data => v <- rx_load (j + 3) ;; array_store DATA data j v)
      data s
    = Done data' s /\
    length data' = length data.
Proof.
  induction n as [|n IH]; intros i data s Hrx Hpage Hdata.
  - exists data. split; reflexivity.
  - cbn [for_iter]. unfold bind at 1 2.
    rewrite rx_load_done by lia. unfold array_store.
    rewrite in_bounds_true by lia.
    replace (Z.of_nat i + 1) with (Z.of_nat (S i)) by lia.
    destruct (IH (S i) (<[Z.to_nat (Z.of_nat i) :=
                          default 0 (rx s !! Z.to_nat (Z.of_nat i + 3))]> data)
                 s Hrx ltac:(lia))
      as (data' & E & L).
    { rewrite length_insert. lia. }
    exists data'. split; [exact E|]. now rewrite L, length_insert.
Qed.

(** Past index 128 it reads [rx[131]], one past the end of the array. *)
Lemma copy_from_rx_oob n : forall i data s,
  length (rx s) = 131%nat ->
  (i <= 128 < i + n)%nat -> (128 <= length data)%nat ->
  for_iter n (Z.of_nat i)
    (fun j data => v <- rx_load (j + 3) ;; array_store DATA data j v)
    data s
  = Fail (OutOfBounds RX BUFFER_SIZE) s.
Proof.
  induction n as [|n IH]; intros i data s Hrx Hi Hdata; [lia|].
  cbn [for_iter]. unfold bind at 1 2.
  destruct (decide (i = 128%nat)) as [->|Hne].
  - unfold rx_load. rewrite in_bounds_false by lia. reflexivity.
  - rewrite rx_load_done by lia. unfold array_store.
    rewrite in_bounds_true by lia.
    replace (Z.of_nat i + 1) with (Z.of_nat (S i)) by lia.
    apply IH; [exact Hrx | lia | rewrite length_insert; lia].
Qed.

Lemma frame_read (a b c : Z) (n : nat) (l : list Z) :
  (3 <= length l)%nat ->
  take (3 + n)
    (<[Z.to_nat 2 := c]> (<[Z.to_nat 1 := b]> (<[Z.to_nat 0 := a]> l)))
  = a :: b :: c :: take n (drop 3 l).
Proof. destruct l as [|x [|y [|z l]]]; simpl; try lia; reflexivity. Qed.

Lemma read_page_run page_address data len s :
  wf s -> 0 <= len <= EEPROM_PAGE_SIZE -> len <= Z.of_nat (length data) ->
  let frame := READ :: addr_hi page_address :: addr_lo page_address
                    :: take (Z.to_nat len) (drop 3 (tx s)) in
  exists data' s',
    read_page page_address data len s = Done (EXIT_SUCCESS, data') s' /\
    wf s' /\ length data' = length data /\
    trace s' = trace s ++ [SpiRW frame] /\
    dev s' = fst (dev_rw (dev s) frame) /\
    status s' = status s.
Proof.
  intros Hwf Hlen Hdata frame. unfold EEPROM_PAGE_SIZE in Hlen.
  pose proof Hwf as [Htx Hrx]%wf_lengths.
  unfold read_page. run. fold (addr_hi page_address) (addr_lo page_address).
  replace (Z.to_nat (len + 3)) with (3 + Z.to_nat len)%nat by lia.
  rewrite frame_read by lia. fold frame.
  set (s1 := mkState _ _ _ _ _).
  unfold read_page_copy, for_loop. rewrite Z.sub_0_r.
  destruct (copy_from_rx_ok (Z.to_nat len) 0%nat data s1)
    as (data' & E & L).
  { subst s1. side. } { lia. } { lia. }
  change (Z.of_nat 0) with 0 in E. rewrite (bind_done _ _ _ _ _ E).
  exists data', s1. split; [reflexivity|]. subst s1.
  cbn [tx rx status dev trace]. repeat split; try done; side.
Qed.

(** Up to its copy loop [read_page] cannot fail, whatever [len] is: the
    length is not looked at before the transfer is made with it. *)
Lemma read_page_transfer page_address data len s :
  wf s ->
  exists s1,
    wf s1 /\
    trace s1 = trace s ++
      [SpiRW (take (Z.to_nat (len + 3))
                (<[2%nat := addr_lo page_address]>
                   (<[1%nat := addr_hi page_address]>
                      (<[0%nat := READ]> (tx s)))))] /\
    read_page page_address data len s =
    (data' <- read_page_copy data len ;; ret (EXIT_SUCCESS, data')) s1.
Proof.
  intros Hwf. pose proof Hwf as [Htx Hrx]%wf_lengths.
  unfold read_page. run. unfold bind at 1. unfold libsoc_spi_rw.
  cbn [tx rx status dev trace].
  set (s1 := mkState _ _ _ _ _). exists s1.
  split; [|split; [|reflexivity]].
  - subst s1. split; cbn [tx rx]; change (Z.to_nat BUFFER_SIZE) with 131%nat.
    + rewrite !length_insert. exact Htx.
    + rewrite length_received by lia. exact Hrx.
  - reflexivity.
Qed.

(** ** The blocks of [main] *)

Lemma fill_pattern_run s : fill_pattern EEPROM_PAGE_SIZE s = Done pattern s.
Proof. vm_compute. reflexivity. Qed.

Lemma length_local_array : length local_array = 128%nat.
Proof. reflexivity. Qed.

Lemma length_pattern : length pattern = 128%nat.
Proof. reflexivity. Qed.

Lemma wf_configured d : wf (configured d).
Proof. split; reflexivity. Qed.

(** Up to line 262 a run on a device [d] is the same whatever the fuel:
    it ends in a state [s1] that holds the signature byte in [status]. *)
Lemma main_head d :
  exists s1,
    wf s1 /\
    trace s1 = setup_trace ++
      [Printf "Releasing from Deep power-down and Read Electronic Signature" [];
       SpiRW id_frame;
       Printf "STATUS is 0x%02x" [signature d]] /\
    dev s1 = fst (dev_rw d id_frame) /\
    status s1 = signature d /\
    (forall fuel,
       run_main fuel true d =
       (if signature d =? EEPROM_DEVICE_ID
        then test_device fuel pattern local_array
        else wrong_device) s1) /\
    device_id_read d = Some (signature d) /\
    (forall fuel,
       erase_check_read fuel d =
       value ((data_read <- erase_and_read_back fuel local_array ;;
               array_load DATA_READ data_read 0) s1)).
Proof.
  destruct (release_pwrdwn_read_sig_run (configured d) (wf_configured d))
    as (s1 & E & Hwf1 & Htr & Hd & Hst).
  exists (mkState (tx s1) (rx s1) (signature d) (dev s1) (trace s1)).
  split; [exact Hwf1|]. split; [exact Htr|]. split; [exact Hd|].
  split; [reflexivity|].
  split; [|split]; [intros fuel; unfold run_main, main
                   | unfold device_id_read
                   | intros fuel; unfold erase_check_read];
    unfold libsoc_spi_init, configure_bus, read_device_id;
    run; cbn [negb]; run;
    rewrite (bind_done _ _ _ _ _ (fill_pattern_run _)); run;
    change (mkState (tx (power_on d)) _ _ _ _) with (configured d).
  - rewrite (bind_done _ _ _ _ _ E). run. reflexivity.
  - unfold bind at 1. rewrite E. run. reflexivity.
  - rewrite (bind_done _ _ _ _ _ E). run. reflexivity.
Qed.

Lemma wrong_device_run s :
  wf s ->
  exists s',
    wrong_device s = Done EXIT_FAILURE s' /\
    trace s' = trace s ++
      [Printf "Test Terminated - Wrong Device" [];
       Printf " : Putting Device into Deep Power Down" [];
       SpiWrite [DPD]; SpiFree].
Proof.
  intros Hwf. unfold wrong_device, libsoc_spi_free. run.
  set (s1 := mkState _ _ _ _ _).
  assert (Hwf1 : wf s1) by exact Hwf.
  destruct (set_deep_power_down_run s1 Hwf1) as (s2 & E & _ & Htr & _).
  rewrite (bind_done _ _ _ _ _ E). run.
  eexists. split; [reflexivity|]. cbn [trace].
  rewrite Htr. subst s1. cbn [trace]. now rewrite <- !app_assoc.
Qed.

(** ** Address arithmetic *)

Lemma addr_bytes p :
  0 <= addr_hi p < 256 /\ 0 <= addr_lo p < 256 /\
  addr_hi p * 256 + addr_lo p = (p * 128) mod 2 ^ 16.
Proof.
  unfold addr_hi, addr_lo, uint8, uint16, EEPROM_PAGE_SIZE.
  change (2 ^ 16) with 65536.
  rewrite Z.shiftr_div_pow2 by lia. change (2 ^ 8) with 256.
  Z.div_mod_to_equations. lia.
Qed.

Lemma addr_alias p :
  addr_hi (p mod 512) = addr_hi p /\ addr_lo (p mod 512) = addr_lo p.
Proof.
  assert (H : uint16 (p mod 512 * EEPROM_PAGE_SIZE)
              = uint16 (p * EEPROM_PAGE_SIZE)).
  { unfold uint16, EEPROM_PAGE_SIZE.
    rewrite <- (Z.mul_mod_distr_r p 512 128) by lia.
    change (512 * 128) with 65536. apply Z.mod_mod. lia. }
  unfold addr_hi, addr_lo. now rewrite H.
Qed.

Lemma addr_in_range p :
  0 <= p < EEPROM_NUM_PAGES ->
  addr_hi p = p * EEPROM_PAGE_SIZE / 256 /\
  addr_lo p = (p * EEPROM_PAGE_SIZE) mod 256.
Proof.
  intros Hp. change EEPROM_NUM_PAGES with 512 in Hp.
  unfold addr_hi, addr_lo, uint8, uint16, EEPROM_PAGE_SIZE.
  rewrite Z.shiftr_div_pow2 by lia. change (2 ^ 8) with 256.
  Z.div_mod_to_equations. lia.
Qed.

Lemma no_sleep_in_poll_trace in_progress finished fuel : forall d,
  Forall (fun e => is_sleep e = false)
         (poll_trace in_progress finished fuel d).
Proof.
  induction fuel as [|fuel IH]; intros d; cbn [poll_trace]; [constructor|].
  repeat (constructor; [reflexivity|]).
  destruct (Z.testbit (status_byte d) 0).
  - constructor; [reflexivity | apply IH].
  - repeat constructor.
Qed.

(** ** Erase check *)

Lemma bus_calls_app a b : bus_calls (a ++ b) = bus_calls a ++ bus_calls b.
Proof. apply List.filter_app. Qed.

Lemma bus_calls_poll_trace in_progress finished fuel : forall d,
  exists k, bus_calls (poll_trace in_progress finished fuel d)
            = replicate k (SpiRW poll_frame).
Proof.
  induction fuel as [|fuel IH]; intros d; cbn [poll_trace].
  - now exists 0%nat.
  - destruct (Z.testbit (status_byte d) 0).
    + destruct (IH (after_poll d)) as [k Hk]. exists (S k).
      cbn. f_equal. exact Hk.
    + now exists 1%nat.
Qed.

Lemma erase_and_read_back_run fuel data_read s dr s' :
  wf s -> (1 <= length data_read)%nat ->
  erase_and_read_back fuel data_read s = Done dr s' ->
  wf s' /\ length dr = length data_read /\
  exists x,
    trace s' =
      trace s ++
      [Printf "Setting write enable bit" []; SpiWrite [WREN];
       Printf "Erase all Sectors" []; SpiWrite [CE];
       Nanosleep EEPROM_ERASE_DELAY] ++
      poll_trace "Erase in progress..." "Erase finished..." fuel
                 (erase_sent (dev s)) ++
      [Printf "Reading page 0, byte 0 to validate erase" [];
       SpiRW [READ; 0; 0; x]].
Proof.
  intros Hwf Hlen. unfold erase_and_read_back.
  destruct (erase_device_run fuel s Hwf) as (W & Tr & _).
  destruct (erase_device fuel s) as [r s1|e s1] eqn:E;
    [rewrite (bind_done _ _ _ _ _ E) | rewrite (bind_fail _ _ _ _ _ E)];
    [|discriminate].
  cbn [final] in W, Tr. run.
  set (s2 := mkState _ _ _ _ _).
  assert (Hwf2 : wf s2) by exact W.
  destruct (read_page_run 0 data_read 1 s2 Hwf2)
    as (dr' & s3 & E3 & Hwf3 & L3 & Tr3 & _).
  { unfold EEPROM_PAGE_SIZE. lia. } { lia. }
  rewrite (bind_done _ _ _ _ _ E3). unfold ret. cbn [snd].
  intros [= <- <-]. split; [exact Hwf3|]. split; [exact L3|].
  pose proof W as [Htx _]%wf_lengths.
  destruct (tx s1) as [|t0 [|t1 [|t2 [|t3 txs]]]] eqn:Etx;
    cbn [length] in Htx; try lia.
  exists t3. rewrite Tr3. subst s2. cbn [tx trace]. rewrite Tr.
  rewrite <- !app_assoc. reflexivity.
Qed.

(** ** Fuel *)

(** A run that finished is not changed by a later part that is given
    more fuel. *)
Lemma bind_cont_mono {A B} (m : M A) (k k' : A -> M B) s r s' :
  (forall a s1, k a s1 = Done r s' -> k' a s1 = Done r s') ->
  bind m k s = Done r s' -> bind m k' s = Done r s'.
Proof.
  intros H. unfold bind. destruct (m s) as [a s1|e s1]; [apply H | exact id].
Qed.

Lemma bind_head_mono {A B} (m m' : M A) (k : A -> M B) s r s' :
  (forall a s1, m s = Done a s1 -> m' s = Done a s1) ->
  bind m k s = Done r s' -> bind m' k s = Done r s'.
Proof.
  intros H. unfold bind. destruct (m s) as [a s1|e s1] eqn:E.
  - rewrite (H a s1 eq_refl). exact id.
  - intros E'. discriminate E'.
Qed.

Ltac mono_steps :=
  repeat (apply bind_cont_mono; intros ? ?).

Lemma erase_device_mono n f s r s' :
  erase_device n s = Done r s' -> (n <= f)%nat ->
  erase_device f s = Done r s'.
Proof.
  intros H Hle. revert H. unfold erase_device. mono_steps.
  apply bind_head_mono. intros [] sx H.
  exact (busy_wait_mono _ _ n f _ sx H Hle).
Qed.

Lemma write_page_mono n f page_address data len s r s' :
  write_page n page_address data len s = Done r s' -> (n <= f)%nat ->
  write_page f page_address data len s = Done r s'.
Proof.
  intros H Hle. revert H. unfold write_page.
  destruct (len >? EEPROM_PAGE_SIZE); [exact id|]. mono_steps.
  apply bind_head_mono. intros [] sx H.
  exact (busy_wait_mono _ _ n f _ sx H Hle).
Qed.

Lemma erase_and_read_back_mono n f data_read s r s' :
  erase_and_read_back n data_read s = Done r s' -> (n <= f)%nat ->
  erase_and_read_back f data_read s = Done r s'.
Proof.
  intros H Hle. revert H. unfold erase_and_read_back.
  apply bind_head_mono. intros a sx H.
  exact (erase_device_mono n f s a sx H Hle).
Qed.

Lemma bind_done_inv {A B} (m : M A) (k : A -> M B) s r s' :
  bind m k s = Done r s' ->
  exists a s1, m s = Done a s1 /\ k a s1 = Done r s'.
Proof.
  unfold bind. destruct (m s) as [a s1|e s1]; intros H.
  - exists a, s1. split; [reflexivity | exact H].
  - discriminate H.
Qed.

(** The last block of [main] has one way out. *)
Lemma write_and_verify_exit fuel data data_read s r s' :
  write_and_verify fuel data data_read s = Done r s' -> r = EXIT_SUCCESS.
Proof.
  unfold write_and_verify, libsoc_spi_free. cbv zeta. intros H.
  repeat (apply bind_done_inv in H as (? & ? & _ & H)).
  injection H as <- _. reflexivity.
Qed.

(** ** Read-back and comparison *)

Lemma compare_page_iter page data data_read n : forall i s,
  (i + n <= length data)%nat -> (i + n <= length data_read)%nat ->
  for_iter n (Z.of_nat i)
    (fun i _ =>
       d <- array_load DATA data i ;;
       r <- array_load DATA_READ data_read i ;;
       if negb (d =? r)
       then printf
         "Data Miscompare Error: Page %d : data[%d] = 0x%02x : data_read[%d] = 0x%02x"
         [page; i; d; i; r]
       else ret tt) tt s
  = Done tt (mkState (tx s) (rx s) (status s) (dev s)
               (trace s ++ miscompare_lines page data data_read n (Z.of_nat i))).
Proof.
  induction n as [|n IH]; intros i s Hd Hr.
  - cbn [for_iter miscompare_lines]. unfold ret. rewrite app_nil_r.
    destruct s; reflexivity.
  - cbn [for_iter miscompare_lines]. unfold bind at 1 2 3.
    unfold array_load. rewrite !in_bounds_true by lia.
    replace (Z.of_nat i + 1) with (Z.of_nat (S i)) by lia.
    destruct (default 0 (data !! Z.to_nat (Z.of_nat i))
              =? default 0 (data_read !! Z.to_nat (Z.of_nat i))); cbn [negb].
    + unfold ret at 1. rewrite IH by lia. reflexivity.
    + unfold printf, emit. rewrite IH by lia. cbn [tx rx status dev trace].
      rewrite <- app_assoc. reflexivity.
Qed.

Lemma compare_page_run page data data_read len s :
  len <= Z.of_nat (length data) -> len <= Z.of_nat (length data_read) ->
  compare_page page data data_read len s
  = Done tt (mkState (tx s) (rx s) (status s) (dev s)
               (trace s ++ miscompare_lines page data data_read
                                            (Z.to_nat len) 0)).
Proof.
  intros Hd Hr. unfold compare_page, for_loop. rewrite Z.sub_0_r.
  apply (compare_page_iter page data data_read (Z.to_nat len) 0%nat s); lia.
Qed.

Lemma read_all_pages_iter data n : forall page data_read s,
  wf s -> length data = 128%nat -> length data_read = 128%nat ->
  exists dr' s',
    for_iter n page
      (fun page data_read =>
         r <- read_page page data_read EEPROM_PAGE_SIZE ;;
         compare_page page data (snd r) EEPROM_PAGE_SIZE ;;
         ret (snd r)) data_read s
    = Done dr' s' /\ wf s'.
Proof.
  induction n as [|n IH]; intros page data_read s Hwf Hd Hr.
  - exists data_read, s. split; [reflexivity | exact Hwf].
  - cbn [for_iter].
    destruct (read_page_run page data_read EEPROM_PAGE_SIZE s Hwf)
      as (dr & s1 & E & Hwf1 & L & _).
    { unfold EEPROM_PAGE_SIZE. lia. }
    { rewrite Hr. unfold EEPROM_PAGE_SIZE. lia. }
    run. rewrite (bind_done _ _ _ _ _ E). cbn beta. cbn [snd]. run.
    rewrite (bind_done _ _ _ _ _
               (compare_page_run page data dr EEPROM_PAGE_SIZE s1
                  ltac:(rewrite Hd; unfold EEPROM_PAGE_SIZE; lia)
                  ltac:(rewrite L, Hr; unfold EEPROM_PAGE_SIZE; lia))).
    run. apply IH; [exact Hwf1 | exact Hd | now rewrite L].
Qed.

(** ** Writing every page on a responsive device *)

Lemma write_all_pages_iter (Hresp : responsive) data n : forall page s,
  wf s -> length data = 128%nat ->
  exists F s',
    wf s' /\
    forall f, (F <= f)%nat ->
      for_iter n page
        (fun page _ => write_page f page data EEPROM_PAGE_SIZE ;; ret tt) tt s
      = Done tt s'.
Proof.
  induction n as [|n IH]; intros page s Hwf Hd.
  - exists 0%nat, s. split; [exact Hwf|]. intros f _. reflexivity.
  - set (frame := WRITE :: addr_hi page :: addr_lo page
                        :: take (Z.to_nat EEPROM_PAGE_SIZE) data).
    destruct (Hresp (write_sent (dev s) frame)) as [n1 Hn1].
    destruct (write_page_run n1 page data EEPROM_PAGE_SIZE s Hwf)
      as (W & _ & Ok & _).
    { unfold EEPROM_PAGE_SIZE. lia. }
    { rewrite Hd. unfold EEPROM_PAGE_SIZE. lia. }
    destruct (Ok Hn1) as (s1 & E1 & _). rewrite E1 in W. cbn [final] in W.
    destruct (IH (page + 1) s1 W Hd) as (F2 & s' & Hwf' & Hrest).
    exists (Nat.max n1 F2), s'. split; [exact Hwf'|]. intros f Hf.
    cbn [for_iter]. run.
    rewrite (bind_done _ _ _ _ _
               (write_page_mono n1 f page data EEPROM_PAGE_SIZE s _ s1 E1
                  ltac:(lia))).
    run. apply Hrest. lia.
Qed.

(** ** Write enable before every erase and write *)

Lemma wren_before_weaken calls : forall b,
  wren_before false calls = true -> wren_before b calls = true.
Proof.
  destruct calls as [|e rest]; intros b H; [reflexivity|].
  cbn [wren_before] in *. apply andb_true_iff in H as [H1 H2].
  apply andb_true_iff. split; [|exact H2].
  destruct (needs_write_enable e); [discriminate H1 | reflexivity].
Qed.

Lemma wren_before_app l1 : forall b l2,
  wren_before b l1 = true -> wren_before false l2 = true ->
  wren_before b (l1 ++ l2) = true.
Proof.
  induction l1 as [|e l1 IH]; intros b l2 H1 H2.
  - apply wren_before_weaken. exact H2.
  - cbn [app wren_before] in *. apply andb_true_iff in H1 as [Ha Hb].
    apply andb_true_iff. split; [exact Ha | now apply IH].
Qed.

Lemma self_guarded_nil : self_guarded [].
Proof. reflexivity. Qed.

Lemma self_guarded_app a b :
  self_guarded a -> self_guarded b -> self_guarded (a ++ b).
Proof.
  unfold self_guarded. intros Ha Hb. rewrite bus_calls_app.
  now apply wren_before_app.
Qed.

Lemma self_guarded_poll_trace in_progress finished fuel d :
  self_guarded (poll_trace in_progress finished fuel d).
Proof.
  unfold self_guarded.
  destruct (bus_calls_poll_trace in_progress finished fuel d) as [k ->].
  generalize false. induction k as [|k IH]; intros b; [reflexivity|].
  cbn. apply IH.
Qed.

Lemma self_guarded_miscompare_lines page data data_read n : forall i,
  self_guarded (miscompare_lines page data data_read n i).
Proof.
  induction n as [|n IH]; intros i; [reflexivity|].
  cbn [miscompare_lines]. apply self_guarded_app; [|apply IH].
  destruct (_ =? _); reflexivity.
Qed.

Lemma keeps_ret {A} (a : A) (P : A -> Prop) : P a -> keeps (ret a) P.
Proof.
  intros Ha s Hwf. cbn [ret final]. split; [exact Hwf|]. split.
  - exists []. split; [now rewrite app_nil_r | apply self_guarded_nil].
  - intros a' s' [= <- _]. exact Ha.
Qed.

Lemma keeps_bind {A B} (m : M A) (k : A -> M B) P Q :
  keeps m P -> (forall a, P a -> keeps (k a) Q) -> keeps (bind m k) Q.
Proof.
  intros Hm Hk s Hwf. destruct (Hm s Hwf) as (W & (e1 & Tr & G1) & HP).
  unfold bind. destruct (m s) as [a s1|e s1]; cbn [final] in W, Tr.
  - destruct (Hk a (HP a s1 eq_refl) s1 W) as (W2 & (e2 & Tr2 & G2) & HQ).
    split; [exact W2|]. split; [|exact HQ].
    exists (e1 ++ e2). split; [now rewrite Tr2, Tr, app_assoc|].
    now apply self_guarded_app.
  - cbn [final]. split; [exact W|]. split.
    + exists e1. split; assumption.
    + intros a s' Habs. discriminate Habs.
Qed.

(** What a run lemma gives is enough for [keeps]. *)
Lemma keeps_of_run {A} (m : M A) (P : A -> Prop) :
  (forall s, wf s -> exists a s' ext,
      m s = Done a s' /\ wf s' /\ trace s' = trace s ++ ext /\
      self_guarded ext /\ P a) ->
  keeps m P.
Proof.
  intros H s Hwf. destruct (H s Hwf) as (a & s' & ext & E & W & Tr & G & Pa).
  rewrite E. cbn [final]. split; [exact W|]. split.
  - exists ext. split; assumption.
  - intros a' s'' [= <- _]. exact Pa.
Qed.

Lemma keeps_emit e : is_bus_call e = false -> keeps (emit e) (fun _ => True).
Proof.
  intros He. apply keeps_of_run. intros s Hwf.
  exists tt, (mkState (tx s) (rx s) (status s) (dev s) (trace s ++ [e])), [e].
  repeat split; try apply Hwf.
  unfold self_guarded, bus_calls. cbn. now rewrite He.
Qed.

Lemma keeps_printf fmt args : keeps (printf fmt args) (fun _ => True).
Proof. now apply keeps_emit. Qed.

Lemma keeps_set_status v : keeps (set_status v) (fun _ => True).
Proof.
  apply keeps_of_run. intros s Hwf.
  exists tt, (mkState (tx s) (rx s) v (dev s) (trace s)), [].
  repeat split; try apply Hwf. cbn. now rewrite app_nil_r.
Qed.

Lemma keeps_get_status : keeps get_status (fun _ => True).
Proof.
  apply keeps_of_run. intros s Hwf. exists (status s), s, [].
  repeat split; try apply Hwf. now rewrite app_nil_r.
Qed.

Lemma keeps_array_load id a i : keeps (array_load id a i) (fun _ => True).
Proof.
  intros s Hwf. unfold array_load.
  destruct (in_bounds a i); cbn [final]; (split; [exact Hwf|]); split;
    try (exists []; split; [now rewrite app_nil_r | apply self_guarded_nil]);
    try (intros; exact I).
Qed.

Lemma keeps_for_iter {A} (body : Z -> A -> M A) (P : A -> Prop) n :
  (forall i a, P a -> keeps (body i a) P) ->
  forall i a, P a -> keeps (for_iter n i body a) P.
Proof.
  intros Hbody. induction n as [|n IH]; intros i a Ha; cbn [for_iter].
  - now apply keeps_ret.
  - eapply keeps_bind; [apply Hbody; exact Ha|]. intros a' Ha'. now apply IH.
Qed.

Lemma keeps_set_deep_power_down : keeps set_deep_power_down (fun _ => True).
Proof.
  apply keeps_of_run. intros s Hwf.
  destruct (set_deep_power_down_run s Hwf) as (s' & E & W & Tr & _).
  exists EXIT_SUCCESS, s'. eexists.
  split; [exact E|]. split; [exact W|]. split; [exact Tr|].
  split; [reflexivity | exact I].
Qed.

Lemma keeps_release_pwrdwn_read_sig :
  keeps release_pwrdwn_read_sig (fun _ => True).
Proof.
  apply keeps_of_run. intros s Hwf.
  destruct (release_pwrdwn_read_sig_run s Hwf) as (s' & E & W & Tr & _).
  eexists _, s'. eexists.
  split; [exact E|]. split; [exact W|]. split; [exact Tr|].
  split; [reflexivity | exact I].
Qed.

Lemma keeps_erase_device fuel : keeps (erase_device fuel) (fun _ => True).
Proof.
  intros s Hwf. destruct (erase_device_run fuel s Hwf) as (W & Tr & _).
  split; [exact W|]. split; [|intros; exact I].
  eexists. split; [exact Tr|].
  apply self_guarded_app; [reflexivity | apply self_guarded_poll_trace].
Qed.

Lemma keeps_write_page fuel page data :
  length data = 128%nat ->
  keeps (write_page fuel page data EEPROM_PAGE_SIZE) (fun _ => True).
Proof.
  intros Hd s Hwf.
  destruct (write_page_run fuel page data EEPROM_PAGE_SIZE s Hwf)
    as (W & Tr & _).
  { unfold EEPROM_PAGE_SIZE. lia. }
  { rewrite Hd. unfold EEPROM_PAGE_SIZE. lia. }
  split; [exact W|]. split; [|intros; exact I].
  eexists. split; [exact Tr|].
  apply self_guarded_app; [reflexivity | apply self_guarded_poll_trace].
Qed.

Lemma keeps_read_page page data len :
  0 <= len <= EEPROM_PAGE_SIZE -> len <= Z.of_nat (length data) ->
  keeps (read_page page data len)
        (fun r => length (snd r) = length data).
Proof.
  intros Hlen Hd. apply keeps_of_run. intros s Hwf.
  destruct (read_page_run page data len s Hwf Hlen Hd)
    as (dr & s' & E & W & L & Tr & _).
  eexists _, s'. eexists.
  split; [exact E|]. split; [exact W|]. split; [exact Tr|].
  split; [reflexivity | exact L].
Qed.

Lemma keeps_compare_page page data data_read :
  length data = 128%nat -> length data_read = 128%nat ->
  keeps (compare_page page data data_read EEPROM_PAGE_SIZE) (fun _ => True).
Proof.
  intros Hd Hr. apply keeps_of_run. intros s Hwf.
  eexists tt, _, _. split.
  - apply compare_page_run; [rewrite Hd | rewrite Hr];
      unfold EEPROM_PAGE_SIZE; lia.
  - cbn [tx rx status dev trace]. repeat split; try apply Hwf.
    apply self_guarded_miscompare_lines.
Qed.

Ltac keeps_leaf :=
  first
    [ apply keeps_printf
    | apply keeps_emit; reflexivity
    | apply keeps_set_status
    | apply keeps_get_status
    | apply keeps_array_load
    | apply keeps_set_deep_power_down
    | apply keeps_release_pwrdwn_read_sig
    | apply keeps_erase_device
    | apply keeps_write_page; assumption
    | apply keeps_compare_page; assumption ].

Ltac keeps_seq :=
  repeat first
    [ apply keeps_ret; exact I
    | apply (keeps_ret _ (fun _ => True)); exact I
    | eapply keeps_bind; [keeps_leaf | intros ? ?]
    | keeps_leaf ].

Lemma keeps_fill_pattern :
  keeps (fill_pattern EEPROM_PAGE_SIZE) (fun data => length data = 128%nat).
Proof.
  apply keeps_of_run. intros s Hwf. exists pattern, s, [].
  split; [apply fill_pattern_run|]. split; [exact Hwf|].
  split; [now rewrite app_nil_r|]. split; [reflexivity | reflexivity].
Qed.

Lemma keeps_read_device_id : keeps read_device_id (fun _ => True).
Proof.
  unfold read_device_id. keeps_seq.
Qed.

Lemma keeps_erase_and_read_back fuel data_read :
  length data_read = 128%nat ->
  keeps (erase_and_read_back fuel data_read)
        (fun dr => length dr = 128%nat).
Proof.
  intros Hr. unfold erase_and_read_back. keeps_seq.
  eapply keeps_bind.
  - apply keeps_read_page; [unfold EEPROM_PAGE_SIZE; lia | rewrite Hr; lia].
  - intros r Hlen. apply keeps_ret. now rewrite Hlen.
Qed.

Lemma keeps_write_all_pages fuel data :
  length data = 128%nat ->
  keeps (write_all_pages fuel data EEPROM_PAGE_SIZE) (fun _ => True).
Proof.
  intros Hd. unfold write_all_pages, for_loop.
  apply keeps_for_iter; [|exact I]. intros page [] _. keeps_seq.
Qed.

Lemma keeps_read_all_pages data data_read :
  length data = 128%nat -> length data_read = 128%nat ->
  keeps (read_all_pages data data_read EEPROM_PAGE_SIZE)
        (fun dr => length dr = 128%nat).
Proof.
  intros Hd Hr. unfold read_all_pages, for_loop.
  apply keeps_for_iter; [|exact Hr]. intros page dr Hdr.
  eapply keeps_bind.
  - apply keeps_read_page; [unfold EEPROM_PAGE_SIZE; lia|].
    rewrite Hdr. unfold EEPROM_PAGE_SIZE. lia.
  - intros r Hlen. rewrite Hdr in Hlen.
    eapply keeps_bind; [keeps_leaf|]. intros _ _. now apply keeps_ret.
Qed.

Lemma keeps_wrong_device : keeps wrong_device (fun _ => True).
Proof. unfold wrong_device, libsoc_spi_free. keeps_seq. Qed.

Lemma keeps_test_device fuel data data_read :
  length data = 128%nat -> length data_read = 128%nat ->
  keeps (test_device fuel data data_read) (fun _ => True).
Proof.
  intros Hd Hr. unfold test_device.
  eapply keeps_bind; [apply keeps_erase_and_read_back; exact Hr|].
  intros dr Hdr. eapply keeps_bind; [keeps_leaf|]. intros b _.
  destruct (negb (b =? 255)).
  - unfold erase_check_failed, libsoc_spi_free. keeps_seq.
  - unfold write_and_verify, libsoc_spi_free.
    eapply keeps_bind; [apply keeps_write_all_pages; exact Hd|]. intros _ _.
    eapply keeps_bind; [keeps_leaf|]. intros _ _.
    eapply keeps_bind; [apply keeps_read_all_pages; assumption|]. intros ? _.
    keeps_seq.
Qed.

Lemma keeps_main fuel handle : keeps (main fuel handle) (fun _ => True).
Proof.
  unfold main, libsoc_spi_init, configure_bus.
  eapply keeps_bind; [keeps_leaf|]. intros _ _.
  eapply keeps_bind;
    [eapply keeps_bind;
       [keeps_leaf
       | intros _ _; apply (keeps_ret handle (fun _ => True)); exact I]|].
  intros spi_dev _. destruct spi_dev; cbn [negb]; [|keeps_seq].
  eapply keeps_bind; [keeps_seq|]. intros _ _.
  eapply keeps_bind; [apply keeps_fill_pattern|]. intros data Hd.
  eapply keeps_bind; [apply keeps_read_device_id|]. intros st _.
  destruct (st =? EEPROM_DEVICE_ID).
  - now apply keeps_test_device.
  - apply keeps_wrong_device.
Qed.

Lemma wren_before_sound calls : forall prev pre e post,
  wren_before prev calls = true ->
  calls = pre ++ e :: post ->
  needs_write_enable e = true ->
  (pre = [] /\ prev = true) \/
  exists pre' w, pre = pre' ++ [w] /\ has_opcode WREN w = true.
Proof.
  induction calls as [|c calls IH]; intros prev pre e post H Heq He.
  - destruct pre; discriminate Heq.
  - cbn [wren_before] in H. apply andb_true_iff in H as [H1 H2].
    destruct pre as [|p pre]; cbn [app] in Heq; injection Heq as -> ->.
    + left. rewrite He in H1. split; [reflexivity | exact H1].
    + right. destruct (IH _ pre e post H2 eq_refl He)
        as [[-> Hw]|(pre' & w & -> & Hw)].
      * exists [], p. split; [reflexivity | exact Hw].
      * exists (p :: pre'), w. split; [reflexivity | exact Hw].
Qed.

(** * The claims *)

(** C1.  A call of [write_page] with [len] above the page size (128)
    returns the failure code and leaves [tx], [rx], [status] and the
    device as they were: the one event of the call is the line it prints.
    No write-enable frame, no write frame, no sleep and no status poll
    happen. *)
Theorem write_page_too_long_fails fuel page_address data len s :
  len > EEPROM_PAGE_SIZE ->
  write_page fuel page_address data len s =
  Done EXIT_FAILURE
    (mkState (tx s) (rx s) (status s) (dev s)
             (trace s ++ [Printf "Page size is 128 bytes" []])).
Proof.
  intros Hlen. unfold write_page.
  destruct (len >? EEPROM_PAGE_SIZE) eqn:E.
  - reflexivity.
  - rewrite Z.gtb_ltb in E. apply Z.ltb_ge in E. lia.
Qed.

(** C2.  When the byte read as device ID differs from [0x29], [main]
    returns the failure status, and its whole trace is the set-up, the
    identification exchange, two printed lines, the deep-power-down frame
    and the release of the bus: no erase frame and no write frame (nor any
    write-enable frame) is sent. *)
Theorem wrong_device_aborts fuel d id :
  device_id_read d = Some id -> id <> EEPROM_DEVICE_ID ->
  exists s',
    run_main fuel true d = Done EXIT_FAILURE s' /\
    trace s' = setup_trace ++
      [Printf "Releasing from Deep power-down and Read Electronic Signature" [];
       SpiRW id_frame;
       Printf "STATUS is 0x%02x" [id];
       Printf "Test Terminated - Wrong Device" [];
       Printf " : Putting Device into Deep Power Down" [];
       SpiWrite [DPD]; SpiFree] /\
    bus_calls (trace s') = [SpiRW id_frame; SpiWrite [DPD]] /\
    Forall (fun e => has_opcode CE e = false /\ has_opcode WRITE e = false
                     /\ has_opcode WREN e = false) (trace s').
Proof.
  intros Hid Hne.
  destruct (main_head d) as (s1 & Hwf1 & Htr1 & _ & _ & Hmain & Hsig & _).
  rewrite Hsig in Hid. injection Hid as Hid.
  rewrite Hmain, Hid.
  destruct (id =? EEPROM_DEVICE_ID) eqn:E;
    [apply Z.eqb_eq in E; exact (False_ind _ (Hne E))|].
  destruct (wrong_device_run s1 Hwf1) as (s' & Es & Htr).
  exists s'. split; [exact Es|].
  assert (Htrace : trace s' = setup_trace ++
      [Printf "Releasing from Deep power-down and Read Electronic Signature" [];
       SpiRW id_frame;
       Printf "STATUS is 0x%02x" [id];
       Printf "Test Terminated - Wrong Device" [];
       Printf " : Putting Device into Deep Power Down" [];
       SpiWrite [DPD]; SpiFree])
    by (rewrite Htr, Htr1, Hid, <- app_assoc; reflexivity).
  split; [exact Htrace|]. rewrite Htrace. split; [reflexivity|].
  repeat (constructor; [repeat split; reflexivity|]). constructor.
Qed.

(** C4, as the code has it.  Erase and page write sleep their fixed delay
    once, after the erase or write frame and before the first status poll;
    the loop that follows polls the status register again and again while
    bit 0 of the byte read is set, and nothing sleeps between two polls. *)
Theorem busy_wait_sleeps_once_before_polling fuel s :
  wf s ->
  trace (final (erase_device fuel s)) =
    trace s ++
    [Printf "Setting write enable bit" []; SpiWrite [WREN];
     Printf "Erase all Sectors" []; SpiWrite [CE];
     Nanosleep EEPROM_ERASE_DELAY] ++
    poll_trace "Erase in progress..." "Erase finished..." fuel
               (erase_sent (dev s)) /\
  (forall page_address data len,
     0 <= len <= EEPROM_PAGE_SIZE -> len <= Z.of_nat (length data) ->
     let frame := WRITE :: addr_hi page_address :: addr_lo page_address
                        :: take (Z.to_nat len) data in
     trace (final (write_page fuel page_address data len s)) =
       trace s ++
       [Printf "Setting write enable bit" []; SpiWrite [WREN];
        Printf "Writing to page %d" [page_address]; SpiWrite frame;
        Nanosleep EEPROM_WRITE_DELAY] ++
       poll_trace "Write in progress..." "Write finished..." fuel
                  (write_sent (dev s) frame)) /\
  (forall in_progress finished n d,
     Forall (fun e => is_sleep e = false)
            (poll_trace in_progress finished n d)) /\
  (forall in_progress finished n s0,
     busy_wait in_progress finished (S n) s0 =
     match read_status_register s0 with
     | Done v s1 =>
         if Z.testbit v 0
         then busy_wait in_progress finished n
                (mkState (tx s1) (rx s1) v (dev s1)
                         (trace s1 ++ [Printf in_progress []]))
         else Done tt (mkState (tx s1) (rx s1) v (dev s1)
                               (trace s1 ++ [Printf finished []]))
     | Fail e s1 => Fail e s1
     end).
Proof.
  intros Hwf. split; [apply (erase_device_run fuel s Hwf)|]. split.
  - intros page_address data len Hlen Hdata frame.
    apply (write_page_run fuel page_address data len s Hwf Hlen Hdata).
  - split.
    + intros. apply no_sleep_in_poll_trace.
    + intros. apply busy_wait_round.
Qed.

(** C5.  If one of the next [n] status polls of the device reads bit 0
    clear, the polling loop of [erase_device] and of [write_page] (the two
    are [busy_wait] with their own messages) ends within any fuel of at
    least [n], and the last byte read, which is in [status], has bit 0
    clear. *)
Theorem busy_wait_terminates in_progress finished n fuel s :
  wf s -> idle_within n (dev s) = true -> (n <= fuel)%nat ->
  exists s',
    busy_wait in_progress finished fuel s = Done tt s' /\
    Z.testbit (status s') 0 = false.
Proof.
  intros Hwf Hidle Hle.
  destruct (busy_wait_run in_progress finished fuel s Hwf) as (_ & _ & Ok & _).
  destruct (Ok (idle_within_mono n (dev s) fuel Hidle Hle))
    as (s' & E & Hbit & _).
  exists s'. split; assumption.
Qed.

(** C6.  A page index below the page count (512) maps to a byte offset that
    leaves room for a whole page, and [write_page] and [read_page] send
    that offset right after the opcode, high byte first. *)
Theorem page_address_big_endian p :
  0 <= p < EEPROM_NUM_PAGES ->
  p * EEPROM_PAGE_SIZE + EEPROM_PAGE_SIZE <= EEPROM_SIZE /\
  (forall fuel data len s,
     wf s -> 0 <= len <= EEPROM_PAGE_SIZE -> len <= Z.of_nat (length data) ->
     exists polls,
       trace (final (write_page fuel p data len s)) =
         trace s ++
         [Printf "Setting write enable bit" []; SpiWrite [WREN];
          Printf "Writing to page %d" [p];
          SpiWrite (WRITE :: p * EEPROM_PAGE_SIZE / 256
                          :: (p * EEPROM_PAGE_SIZE) mod 256
                          :: take (Z.to_nat len) data);
          Nanosleep EEPROM_WRITE_DELAY] ++ polls) /\
  (forall data len s,
     wf s -> 0 <= len <= EEPROM_PAGE_SIZE -> len <= Z.of_nat (length data) ->
     trace (final (read_page p data len s)) =
       trace s ++
       [SpiRW (READ :: p * EEPROM_PAGE_SIZE / 256
                    :: (p * EEPROM_PAGE_SIZE) mod 256
                    :: take (Z.to_nat len) (drop 3 (tx s)))]).
Proof.
  intros Hp. destruct (addr_in_range p Hp) as [Hhi Hlo].
  split; [|split].
  - change EEPROM_NUM_PAGES with 512 in Hp.
    change EEPROM_SIZE with 65536. unfold EEPROM_PAGE_SIZE. lia.
  - intros fuel data len s Hwf Hlen Hdata.
    destruct (write_page_run fuel p data len s Hwf Hlen Hdata)
      as (_ & Htr & _).
    rewrite Hhi, Hlo in Htr. eexists. exact Htr.
  - intros data len s Hwf Hlen Hdata.
    destruct (read_page_run p data len s Hwf Hlen Hdata)
      as (data' & s' & E & _ & _ & Htr & _).
    rewrite E. cbn [final]. rewrite Htr, Hhi, Hlo. reflexivity.
Qed.

(** C9.  [read_page] does not check [len], unlike [write_page], which
    with [len] above 128 returns [EXIT_FAILURE] after one printed line.
    With [len] above 128 [read_page] makes the transfer, sending the
    opcode, the two address bytes and what [tx] holds after them, and then
    its copy loop reads [rx[131]], one element past the end of the 131-byte
    array: the run stops there.  The copy loop, and with it the whole
    function, stays in bounds exactly when [len <= 128]; the function then
    returns [EXIT_SUCCESS].  [data] is assumed to have room for [len]
    bytes. *)
Theorem read_page_len_unchecked page_address data len s :
  wf s -> len <= Z.of_nat (length data) ->
  (EEPROM_PAGE_SIZE < len ->
   (exists s',
      read_page page_address data len s
      = Fail (OutOfBounds RX BUFFER_SIZE) s' /\
      trace s' = trace s ++
        [SpiRW (READ :: addr_hi page_address :: addr_lo page_address
                     :: take (Z.to_nat len) (drop 3 (tx s)))]) /\
   read_page_copy data len s = Fail (OutOfBounds RX BUFFER_SIZE) s /\
   (forall fuel,
      write_page fuel page_address data len s
      = Done EXIT_FAILURE
          (mkState (tx s) (rx s) (status s) (dev s)
                   (trace s ++ [Printf "Page size is 128 bytes" []])))) /\
  (len <= EEPROM_PAGE_SIZE <->
   exists data', read_page_copy data len s = Done data' s) /\
  (len <= EEPROM_PAGE_SIZE <->
   exists data' s',
     read_page page_address data len s = Done (EXIT_SUCCESS, data') s').
Proof.
  intros Hwf Hdata. pose proof Hwf as [Htx Hrx]%wf_lengths.
  assert (Hoob : forall s0, length (rx s0) = 131%nat ->
            EEPROM_PAGE_SIZE < len ->
            read_page_copy data len s0
            = Fail (OutOfBounds RX BUFFER_SIZE) s0).
  { intros s0 Hrx0 Hlen. unfold EEPROM_PAGE_SIZE in Hlen.
    unfold read_page_copy, for_loop. rewrite Z.sub_0_r.
    apply (copy_from_rx_oob (Z.to_nat len) 0%nat data s0 Hrx0); lia. }
  assert (Hok : forall s0, length (rx s0) = 131%nat ->
            len <= EEPROM_PAGE_SIZE ->
            exists data', read_page_copy data len s0 = Done data' s0).
  { intros s0 Hrx0 Hlen. unfold EEPROM_PAGE_SIZE in Hlen.
    unfold read_page_copy, for_loop. rewrite Z.sub_0_r.
    destruct (copy_from_rx_ok (Z.to_nat len) 0%nat data s0 Hrx0)
      as (data' & E & _); [lia | lia |].
    exists data'. exact E. }
  destruct (read_page_transfer page_address data len s Hwf)
    as (s1 & Hwf1 & Htr & E).
  pose proof Hwf1 as [_ Hrx1]%wf_lengths.
  split; [|split].
  - intros Hlen. split; [|split].
    + exists s1. split.
      * rewrite E. apply bind_fail. exact (Hoob s1 Hrx1 Hlen).
      * rewrite Htr. unfold EEPROM_PAGE_SIZE in Hlen.
        replace (Z.to_nat (len + 3)) with (3 + Z.to_nat len)%nat by lia.
        rewrite (frame_read READ (addr_hi page_address)
                   (addr_lo page_address)) by lia.
        reflexivity.
    + exact (Hoob s Hrx Hlen).
    + intros fuel. unfold write_page.
      replace (len >? EEPROM_PAGE_SIZE) with true
        by (symmetry; apply Z.gtb_lt; lia).
      reflexivity.
  - split.
    + intros Hlen. exact (Hok s Hrx Hlen).
    + intros [data' E'].
      destruct (Z_le_gt_dec len EEPROM_PAGE_SIZE) as [Hle|Hgt]; [exact Hle|].
      rewrite (Hoob s Hrx) in E' by lia. discriminate E'.
  - split.
    + intros Hlen. destruct (Hok s1 Hrx1 Hlen) as [data' E'].
      exists data', s1. rewrite E.
      rewrite (bind_done _ _ _ _ _ E'). reflexivity.
    + intros (data' & s' & E').
      destruct (Z_le_gt_dec len EEPROM_PAGE_SIZE) as [Hle|Hgt]; [exact Hle|].
      rewrite E in E'.
      rewrite (bind_fail _ _ _ _ _ (Hoob s1 Hrx1 ltac:(lia))) in E'.
      discriminate E'.
Qed.

(** C10.  The two address bytes that [write_page] and [read_page] send are
    the high and low byte of [(page_address * 128) mod 2^16], for every
    [page_address]; the frames sent for a page index are therefore the
    frames sent for that index modulo 512. *)
Theorem page_address_wraps p :
  (0 <= addr_hi p < 256 /\ 0 <= addr_lo p < 256 /\
   addr_hi p * 256 + addr_lo p = (p * EEPROM_PAGE_SIZE) mod 2 ^ 16) /\
  (forall fuel data len s,
     wf s -> 0 <= len <= EEPROM_PAGE_SIZE -> len <= Z.of_nat (length data) ->
     (exists polls,
        trace (final (write_page fuel p data len s)) =
          trace s ++
          [Printf "Setting write enable bit" []; SpiWrite [WREN];
           Printf "Writing to page %d" [p];
           SpiWrite (WRITE :: addr_hi p :: addr_lo p
                           :: take (Z.to_nat len) data);
           Nanosleep EEPROM_WRITE_DELAY] ++ polls) /\
     trace (final (read_page p data len s)) =
       trace s ++
       [SpiRW (READ :: addr_hi p :: addr_lo p
                    :: take (Z.to_nat len) (drop 3 (tx s)))] /\
     bus_calls (trace (final (write_page fuel (p mod 512) data len s))) =
     bus_calls (trace (final (write_page fuel p data len s))) /\
     bus_calls (trace (final (read_page (p mod 512) data len s))) =
     bus_calls (trace (final (read_page p data len s)))).
Proof.
  split; [exact (addr_bytes p)|].
  intros fuel data len s Hwf Hlen Hdata.
  destruct (addr_alias p) as [Hhi Hlo].
  destruct (write_page_run fuel p data len s Hwf Hlen Hdata) as (_ & Hw & _).
  destruct (write_page_run fuel (p mod 512) data len s Hwf Hlen Hdata)
    as (_ & Hw' & _).
  destruct (read_page_run p data len s Hwf Hlen Hdata)
    as (dr & s1 & Er & _ & _ & Hr & _).
  destruct (read_page_run (p mod 512) data len s Hwf Hlen Hdata)
    as (dr' & s1' & Er' & _ & _ & Hr' & _).
  rewrite Hhi, Hlo in Hw', Hr'.
  split; [eexists; exact Hw|]. split; [rewrite Er; exact Hr|]. split.
  - rewrite Hw, Hw'. unfold bus_calls.
    rewrite !List.filter_app. reflexivity.
  - rewrite Er, Er'. cbn [final]. now rewrite Hr, Hr'.
Qed.

(** C7.  When the device ID matches and the erase has returned, [main]
    reads one byte at address 0 (a four-byte read frame: opcode, two
    address bytes, one data byte); if that byte is not [0xFF], [main]
    returns the failure status, and the transport calls of the whole run
    are the identification, the write-enable and erase frames, the status
    polls and that read: no write frame was sent. *)
Theorem erase_check_failure_aborts fuel d b :
  device_id_read d = Some EEPROM_DEVICE_ID ->
  erase_check_read fuel d = Some b ->
  b <> 0xFF ->
  exists s' k x,
    run_main fuel true d = Done EXIT_FAILURE s' /\
    bus_calls (trace s') =
      [SpiRW id_frame; SpiWrite [WREN]; SpiWrite [CE]] ++
      replicate k (SpiRW poll_frame) ++ [SpiRW [READ; 0; 0; x]] /\
    Forall (fun e => has_opcode WRITE e = false) (bus_calls (trace s')).
Proof.
  intros Hid Hread Hb.
  destruct (main_head d) as (s1 & Hwf1 & Htr1 & _ & _ & Hmain & Hsig & Hchk).
  rewrite Hsig in Hid. injection Hid as Hid.
  rewrite Hmain, Hid, Z.eqb_refl. rewrite Hchk in Hread.
  unfold test_device.
  destruct (erase_and_read_back fuel local_array s1) as [dr s2|e s2] eqn:E;
    [rewrite (bind_done _ _ _ _ _ E) in Hread; rewrite (bind_done _ _ _ _ _ E)
    | rewrite (bind_fail _ _ _ _ _ E) in Hread; discriminate Hread].
  destruct (erase_and_read_back_run fuel local_array s1 dr s2 Hwf1
              ltac:(rewrite length_local_array; lia) E)
    as (Hwf2 & _ & x & Htr2).
  unfold array_load at 1. unfold array_load in Hread.
  destruct (in_bounds dr 0); [|discriminate Hread].
  injection Hread as Hread. rewrite (bind_done _ _ _ _ _ eq_refl), Hread.
  destruct (b =? 255) eqn:Eb; [apply Z.eqb_eq in Eb; exact (False_ind _ (Hb Eb))|].
  cbn [negb]. unfold erase_check_failed, libsoc_spi_free. run.
  destruct (bus_calls_poll_trace "Erase in progress..." "Erase finished..."
              fuel (erase_sent (dev s1))) as [k Hk].
  eexists _, k, x. split; [reflexivity|]. cbn [trace].
  assert (Hbus : bus_calls
      ((trace s2 ++
        [Printf " Expected page 0, byte 0 to be 0xFF, but data_read[0] = 0x%02x"
           [b]]) ++ [SpiFree]) =
      [SpiRW id_frame; SpiWrite [WREN]; SpiWrite [CE]] ++
      replicate k (SpiRW poll_frame) ++ [SpiRW [READ; 0; 0; x]]).
  { rewrite Htr2, Htr1. rewrite !bus_calls_app, Hk. cbn.
    rewrite !app_nil_r. reflexivity. }
  split; [exact Hbus|]. rewrite Hbus.
  repeat (apply Forall_cons; split; [reflexivity|]).
  apply Forall_app. split; [|repeat constructor].
  apply Forall_forall. intros e He. apply elem_of_replicate in He as [-> _].
  reflexivity.
Qed.

(** C8.  In the transport calls of any run of [main], finished, failed
    or stopped in a polling loop, every frame that starts with the
    chip-erase opcode and every frame that starts with the write opcode
    comes right after a write-enable frame. *)
Theorem write_enable_before_each_erase_and_write fuel handle d :
  wren_guarded (trace (final (run_main fuel handle d))) = true /\
  forall pre e post,
    bus_calls (trace (final (run_main fuel handle d))) = pre ++ e :: post ->
    has_opcode CE e = true \/ has_opcode WRITE e = true ->
    exists pre' w, pre = pre' ++ [w] /\ has_opcode WREN w = true.
Proof.
  assert (Hwf : wf (power_on d)) by (split; reflexivity).
  destruct (keeps_main fuel handle (power_on d) Hwf)
    as (_ & (ext & Tr & G) & _).
  fold (run_main fuel handle d) in Tr. cbn [power_on trace app] in Tr.
  assert (Hg : wren_guarded (trace (final (run_main fuel handle d))) = true)
    by (rewrite Tr; exact G).
  split; [exact Hg|]. intros pre e post Heq He.
  destruct (wren_before_sound _ false pre e post Hg Heq) as [[_ Habs]|H].
  - unfold needs_write_enable. apply orb_true_iff. exact He.
  - discriminate Habs.
  - exact H.
Qed.

(** * Further properties of the driver *)

(** X1.  [read_status_register] sends the two-byte frame [05 00], whatever
    [tx] held before, and returns the second byte received.  It prints two
    lines and leaves the static [status] alone: the callers store the
    result. *)
Theorem read_status_register_exchange s :
  wf s ->
  exists s',
    read_status_register s
    = Done (uint8 (default 0 (snd (dev_rw (dev s) [RDSR; 0]) !! 1%nat))) s' /\
    0 <= uint8 (default 0 (snd (dev_rw (dev s) [RDSR; 0]) !! 1%nat)) < 256 /\
    trace s' = trace s ++
      [Printf "Reading STATUS register" [];
       SpiRW [RDSR; 0];
       Printf "STATUS is 0x%02x"
         [uint8 (default 0 (snd (dev_rw (dev s) [RDSR; 0]) !! 1%nat))]] /\
    dev s' = fst (dev_rw (dev s) [RDSR; 0]) /\
    status s' = status s /\ wf s'.
Proof.
  intros Hwf.
  destruct (read_status_register_run s Hwf) as (s' & E & W & Tr & D & St).
  exists s'. split; [exact E|]. split; [apply Z.mod_pos_bound; lia|].
  split; [exact Tr|]. split; [exact D|]. split; [exact St | exact W].
Qed.

(** X2.  [release_pwrdwn_read_sig] sends the four-byte frame [AB 00 00 00]
    and returns the fourth byte received, the electronic signature. *)
Theorem release_pwrdwn_read_sig_exchange s :
  wf s ->
  exists s',
    release_pwrdwn_read_sig s
    = Done (uint8 (default 0 (snd (dev_rw (dev s) [RDID; 0; 0; 0]) !! 3%nat)))
           s' /\
    trace s' = trace s ++
      [Printf "Releasing from Deep power-down and Read Electronic Signature" [];
       SpiRW [RDID; 0; 0; 0];
       Printf "STATUS is 0x%02x"
         [uint8 (default 0 (snd (dev_rw (dev s) [RDID; 0; 0; 0]) !! 3%nat))]] /\
    dev s' = fst (dev_rw (dev s) [RDID; 0; 0; 0]) /\
    status s' = status s /\ wf s'.
Proof.
  intros Hwf.
  destruct (release_pwrdwn_read_sig_run s Hwf) as (s' & E & W & Tr & D & St).
  exists s'. split; [exact E|]. split; [exact Tr|]. split; [exact D|].
  split; [exact St | exact W].
Qed.

(** X3.  [set_write_enable] and [set_deep_power_down] each send a frame of
    one byte, the opcode ([06], [B9]), with a write-only transfer; neither
    sleeps nor polls the status register afterwards, and both return
    success. *)
Theorem single_opcode_commands s :
  wf s ->
  (exists s',
     set_write_enable s = Done EXIT_SUCCESS s' /\
     trace s' = trace s ++ [Printf "Setting write enable bit" [];
                            SpiWrite [WREN]] /\
     dev s' = dev_write (dev s) [WREN] /\ status s' = status s /\ wf s') /\
  (exists s',
     set_deep_power_down s = Done EXIT_SUCCESS s' /\
     trace s' = trace s ++ [Printf " : Putting Device into Deep Power Down" [];
                            SpiWrite [DPD]] /\
     dev s' = dev_write (dev s) [DPD] /\ status s' = status s /\ wf s').
Proof.
  intros Hwf. split.
  - destruct (set_write_enable_run s Hwf) as (s' & E & W & Tr & D & St).
    exists s'. repeat (split; [assumption|]). exact W.
  - destruct (set_deep_power_down_run s Hwf) as (s' & E & W & Tr & D & St).
    exists s'. repeat (split; [assumption|]). exact W.
Qed.

(** X4.  When [libsoc_spi_init] returns no device, [main] prints one line
    and returns the failure status: nothing is sent on the bus, the device
    is untouched, and [libsoc_spi_free] is not called. *)
Theorem main_without_spidev fuel d :
  exists s',
    run_main fuel false d = Done EXIT_FAILURE s' /\
    trace s' = [Setup "libsoc_set_debug"; Setup "libsoc_spi_init";
                Printf "Failed to get spidev device!" []] /\
    dev s' = d.
Proof.
  unfold run_main, main, libsoc_spi_init. run. cbn [negb]. run.
  eexists. split; [reflexivity|]. split; reflexivity.
Qed.

(** A negative [len] passes the test of line 140: the copy loop does
    nothing, and the transfer is made with [len + 3] as its length. *)
Lemma write_page_negative fuel page_address data len s :
  wf s -> len < 0 ->
  let frame := take (Z.to_nat (len + 3))
                 (WRITE :: addr_hi page_address :: addr_lo page_address
                        :: data) in
  let o := write_page fuel page_address data len s in
  trace (final o) =
    trace s ++
    [Printf "Setting write enable bit" []; SpiWrite [WREN];
     Printf "Writing to page %d" [page_address]; SpiWrite frame;
     Nanosleep EEPROM_WRITE_DELAY] ++
    poll_trace "Write in progress..." "Write finished..." fuel
               (write_sent (dev s) frame) /\
  (idle_within fuel (write_sent (dev s) frame) = true ->
   exists s', o = Done EXIT_SUCCESS s').
Proof.
  intros Hwf Hlen frame o. subst o. unfold write_page.
  destruct (len >? EEPROM_PAGE_SIZE) eqn:Hgt;
    [apply Z.gtb_lt in Hgt; unfold EEPROM_PAGE_SIZE in Hgt; lia|].
  destruct (set_write_enable_run s Hwf) as (s1 & E1 & Hwf1 & Htr1 & Hd1 & _).
  rewrite (bind_done _ _ _ _ _ E1).
  pose proof Hwf1 as [Htx Hrx]%wf_lengths.
  run. fold (addr_hi page_address) (addr_lo page_address).
  unfold for_loop. replace (Z.to_nat (len - 0)) with 0%nat by lia.
  cbn [for_iter]. run.
  assert (Hf : take (Z.to_nat (len + 3))
                 (<[Z.to_nat 2:=addr_lo page_address]>
                    (<[Z.to_nat 1:=addr_hi page_address]>
                       (<[Z.to_nat 0:=WRITE]> (tx s1))))
               = frame).
  { subst frame.
    change (WRITE :: addr_hi page_address :: addr_lo page_address :: data)
      with ([WRITE; addr_hi page_address; addr_lo page_address] ++ data).
    rewrite take_app_le by (cbn [length]; lia).
    rewrite <- (frame3 WRITE (addr_hi page_address) (addr_lo page_address)
                  (tx s1)) by lia.
    rewrite take_take. f_equal. lia. }
  rewrite Hf.
  set (s4 := mkState _ _ _ _ _).
  assert (Hwf4 : wf s4) by (subst s4; split; side).
  destruct (busy_wait_then_ret "Write in progress..." "Write finished..."
              fuel EXIT_SUCCESS s4 Hwf4) as (_ & Tr & Ok & _).
  assert (Hd4 : dev s4 = write_sent (dev s) frame)
    by (subst s4; cbn [dev]; now rewrite Hd1).
  rewrite Hd4 in Tr, Ok. split.
  - rewrite Tr. subst s4. cbn [trace].
    rewrite Htr1, <- !app_assoc. reflexivity.
  - intros Hi. destruct (Ok Hi) as (s' & E & _). exists s'. exact E.
Qed.

(** X5.  [write_page] reports a failure exactly when [len] is above the
    page size.  With any other [len], negative ones included, it sends
    the first [len + 3] bytes of opcode, address and [data], and returns
    the success code once a poll finds the device idle.  [erase_device]
    returns the success code once a poll finds the device idle,
    [read_page] whenever [len] is at most the page size, and
    [set_write_enable] and [set_deep_power_down] always.  [data] is
    assumed to hold [len] bytes. *)
Theorem only_a_long_write_reports_failure fuel page_address data len s :
  wf s -> len <= Z.of_nat (length data) ->
  let frame := take (Z.to_nat (len + 3))
                 (WRITE :: addr_hi page_address :: addr_lo page_address
                        :: data) in
  (EEPROM_PAGE_SIZE < len ->
   exists s', write_page fuel page_address data len s
              = Done EXIT_FAILURE s') /\
  (len <= EEPROM_PAGE_SIZE ->
   idle_within fuel (write_sent (dev s) frame) = true ->
   exists s' polls,
     write_page fuel page_address data len s = Done EXIT_SUCCESS s' /\
     trace s' =
       trace s ++
       [Printf "Setting write enable bit" []; SpiWrite [WREN];
        Printf "Writing to page %d" [page_address]; SpiWrite frame;
        Nanosleep EEPROM_WRITE_DELAY] ++ polls) /\
  (forall r s',
     write_page fuel page_address data len s = Done r s' ->
     (EEPROM_PAGE_SIZE < len /\ r = EXIT_FAILURE) \/
     (len <= EEPROM_PAGE_SIZE /\ r = EXIT_SUCCESS)) /\
  (idle_within fuel (erase_sent (dev s)) = true ->
   exists s', erase_device fuel s = Done EXIT_SUCCESS s') /\
  (len <= EEPROM_PAGE_SIZE ->
   exists data' s',
     read_page page_address data len s = Done (EXIT_SUCCESS, data') s') /\
  (exists s', set_write_enable s = Done EXIT_SUCCESS s') /\
  (exists s', set_deep_power_down s = Done EXIT_SUCCESS s').
Proof.
  intros Hwf Hdata frame.
  split; [|split; [|split; [|split; [|split; [|split]]]]].
  - intros Hlen. unfold write_page.
    replace (len >? EEPROM_PAGE_SIZE) with true
      by (symmetry; apply Z.gtb_lt; lia).
    eexists. reflexivity.
  - intros Hlen Hidle. destruct (Z_lt_le_dec len 0) as [Hneg|Hpos].
    + destruct (write_page_negative fuel page_address data len s Hwf Hneg)
        as (Tr & Ok).
      destruct (Ok Hidle) as (s' & E). rewrite E in Tr. cbn [final] in Tr.
      exists s'. eexists. split; [exact E | exact Tr].
    + assert (Hf : frame = WRITE :: addr_hi page_address
                     :: addr_lo page_address :: take (Z.to_nat len) data).
      { subst frame.
        replace (Z.to_nat (len + 3)) with (S (S (S (Z.to_nat len)))) by lia.
        reflexivity. }
      destruct (write_page_run fuel page_address data len s Hwf
                  (conj Hpos Hlen) Hdata) as (_ & Tr & Ok & _).
      rewrite <- Hf in Tr, Ok.
      destruct (Ok Hidle) as (s' & E & _). rewrite E in Tr. cbn [final] in Tr.
      exists s'. eexists. split; [exact E | exact Tr].
  - intros r s' H. unfold write_page in H.
    destruct (len >? EEPROM_PAGE_SIZE) eqn:E.
    + apply Z.gtb_lt in E.
      repeat (apply bind_done_inv in H as (? & ? & _ & H)).
      injection H as <- _. left. split; [exact E | reflexivity].
    + rewrite Z.gtb_ltb in E. apply Z.ltb_ge in E.
      repeat (apply bind_done_inv in H as (? & ? & _ & H)).
      injection H as <- _. right. split; [exact E | reflexivity].
  - intros Hidle. destruct (erase_device_run fuel s Hwf) as (_ & _ & Ok & _).
    destruct (Ok Hidle) as (s' & E & _). exists s'. exact E.
  - intros Hlen.
    destruct (read_page_transfer page_address data len s Hwf)
      as (s1 & Hwf1 & _ & E).
    pose proof Hwf1 as [_ Hrx1]%wf_lengths.
    unfold EEPROM_PAGE_SIZE in Hlen.
    destruct (copy_from_rx_ok (Z.to_nat len) 0%nat data s1 Hrx1)
      as (data' & E' & _); [lia | lia |].
    exists data', s1. rewrite E. unfold read_page_copy, for_loop.
    rewrite Z.sub_0_r. change (Z.of_nat 0) with 0 in E'.
    rewrite (bind_done _ _ _ _ _ E'). reflexivity.
  - destruct (set_write_enable_run s Hwf) as (s' & E & _).
    exists s'. exact E.
  - destruct (set_deep_power_down_run s Hwf) as (s' & E & _).
    exists s'. exact E.
Qed.

Lemma polls_while_busy in_progress finished fuel : forall d,
  idle_within fuel d = false ->
  bus_calls (poll_trace in_progress finished fuel d)
  = replicate fuel (SpiRW poll_frame).
Proof.
  induction fuel as [|fuel IH]; intros d H; [reflexivity|].
  cbn [idle_within poll_trace] in *.
  destruct (Z.testbit (status_byte d) 0); [|discriminate H].
  cbn. f_equal. apply IH. exact H.
Qed.

(** X6.  The polling loops have no timeout.  On a device whose status
    register keeps reading busy after the erase frame, [erase_device] does
    not return whatever the fuel: after [fuel] polls it is still polling.
    The same holds for [write_page] after its write frame. *)
Theorem polling_has_no_timeout s :
  wf s ->
  ((forall n, idle_within n (erase_sent (dev s)) = false) ->
   forall fuel, exists s',
     erase_device fuel s = Fail OutOfFuel s' /\
     bus_calls (trace s') =
       bus_calls (trace s) ++ [SpiWrite [WREN]; SpiWrite [CE]] ++
       replicate fuel (SpiRW poll_frame)) /\
  (forall page_address data len,
     0 <= len <= EEPROM_PAGE_SIZE -> len <= Z.of_nat (length data) ->
     let frame := WRITE :: addr_hi page_address :: addr_lo page_address
                        :: take (Z.to_nat len) data in
     (forall n, idle_within n (write_sent (dev s) frame) = false) ->
     forall fuel, exists s',
       write_page fuel page_address data len s = Fail OutOfFuel s' /\
       bus_calls (trace s') =
         bus_calls (trace s) ++ [SpiWrite [WREN]; SpiWrite frame] ++
         replicate fuel (SpiRW poll_frame)).
Proof.
  intros Hwf. split.
  - intros Hbusy fuel.
    destruct (erase_device_run fuel s Hwf) as (_ & Tr & _ & Ko).
    destruct (Ko (Hbusy fuel)) as (s' & E). exists s'. split; [exact E|].
    rewrite E in Tr. cbn [final] in Tr. rewrite Tr.
    rewrite !bus_calls_app, (polls_while_busy _ _ _ _ (Hbusy fuel)).
    reflexivity.
  - intros page_address data len Hlen Hdata frame Hbusy fuel.
    destruct (write_page_run fuel page_address data len s Hwf Hlen Hdata)
      as (_ & Tr & _ & Ko).
    destruct (Ko (Hbusy fuel)) as (s' & E). exists s'. split; [exact E|].
    rewrite E in Tr. cbn [final] in Tr. rewrite Tr.
    rewrite !bus_calls_app, (polls_while_busy _ _ _ _ (Hbusy fuel)).
    reflexivity.
Qed.

(** X7.  [main] inherits the missing timeout: with a matching device ID,
    if the status register keeps reading busy after the erase frame,
    [main] does not return whatever the fuel. *)
Theorem main_hangs_on_stuck_erase d :
  device_id_read d = Some EEPROM_DEVICE_ID ->
  (forall n,
     idle_within n (erase_sent (fst (dev_rw d id_frame))) = false) ->
  forall fuel, exists s', run_main fuel true d = Fail OutOfFuel s'.
Proof.
  intros Hid Hbusy fuel.
  destruct (main_head d) as (s1 & Hwf1 & _ & Hd & _ & Hmain & Hsig & _).
  rewrite Hsig in Hid. injection Hid as Hid.
  rewrite Hmain, Hid, Z.eqb_refl. unfold test_device, erase_and_read_back.
  destruct (erase_device_run fuel s1 Hwf1) as (_ & _ & _ & Ko).
  rewrite Hd in Ko. destruct (Ko (Hbusy fuel)) as (s' & E).
  exists s'. run. rewrite (bind_fail _ _ _ _ _ E). reflexivity.
Qed.

Lemma miscompare_lines_nil_iff page data data_read n : forall i,
  (i + n <= length data)%nat -> (i + n <= length data_read)%nat ->
  miscompare_lines page data data_read n (Z.of_nat i) = [] <->
  take n (drop i data) = take n (drop i data_read).
Proof.
  induction n as [|n IH]; intros i Hd Hr; [cbn; rewrite !take_0; tauto|].
  destruct (lookup_lt_is_Some_2 data i ltac:(lia)) as [a Ha].
  destruct (lookup_lt_is_Some_2 data_read i ltac:(lia)) as [b Hb].
  cbn [miscompare_lines]. rewrite Nat2Z.id, Ha, Hb.
  cbn [default from_option id].
  rewrite (drop_S _ _ _ Ha), (drop_S _ _ _ Hb). cbn [take].
  replace (Z.of_nat i + 1) with (Z.of_nat (S i)) by lia.
  destruct (a =? b) eqn:E.
  - apply Z.eqb_eq in E. subst b. cbn [app].
    rewrite (IH (S i)) by lia. split; [intros ->; reflexivity|].
    intros [= H]. exact H.
  - apply Z.eqb_neq in E. split; [intros H; discriminate H|].
    intros [= H _]. exact (False_ind _ (E H)).
Qed.

(** X8.  The comparison of a page returns without touching the arrays or
    the device, and it prints nothing exactly when the first [len] bytes
    read are the first [len] bytes written. *)
Theorem compare_page_silent_iff_equal page data data_read len s :
  len <= Z.of_nat (length data) -> len <= Z.of_nat (length data_read) ->
  exists s',
    compare_page page data data_read len s = Done tt s' /\
    tx s' = tx s /\ rx s' = rx s /\ status s' = status s /\ dev s' = dev s /\
    bus_calls (trace s') = bus_calls (trace s) /\
    (trace s' = trace s <->
     take (Z.to_nat len) data = take (Z.to_nat len) data_read).
Proof.
  intros Hd Hr. eexists. split; [apply compare_page_run; assumption|].
  cbn [tx rx status dev trace]. repeat (split; [reflexivity|]). split.
  - rewrite bus_calls_app.
    assert (H : forall n i,
              bus_calls (miscompare_lines page data data_read n i) = []).
    { induction n as [|n IH]; intros i; [reflexivity|].
      cbn [miscompare_lines]. rewrite bus_calls_app, IH.
      destruct (_ =? _); reflexivity. }
    now rewrite H, app_nil_r.
  - pose proof (miscompare_lines_nil_iff page data data_read (Z.to_nat len)
                  0%nat ltac:(lia) ltac:(lia)) as Hiff.
    rewrite !drop_0 in Hiff. change (Z.of_nat 0) with 0 in Hiff.
    rewrite <- Hiff. split.
    + intros H. rewrite <- (app_nil_r (trace s)) in H at 2.
      exact (app_inv_head _ _ _ H).
    + intros ->. now rewrite app_nil_r.
Qed.

(** ** What a page read returns *)

Lemma copy_from_rx_content n : forall i data s,
  length (rx s) = 131%nat ->
  (i + n <= 128)%nat -> (i + n <= length data)%nat ->
  for_iter n (Z.of_nat i)
    (fun j data => v <- rx_load (j + 3) ;; array_store DATA data j v)
    data s
  = Done (take i data ++ take n (drop (3 + i) (rx s)) ++ drop (i + n) data) s.
Proof.
  induction n as [|n IH]; intros i data s Hrx Hpage Hdata.
  - cbn [for_iter]. rewrite take_0, Nat.add_0_r. cbn [app].
    rewrite take_drop. reflexivity.
  - cbn [for_iter]. unfold bind at 1 2.
    rewrite rx_load_done by lia. unfold array_store.
    rewrite in_bounds_true by lia.
    replace (Z.of_nat i + 1) with (Z.of_nat (S i)) by lia.
    replace (Z.to_nat (Z.of_nat i + 3)) with (3 + i)%nat by lia.
    rewrite Nat2Z.id.
    destruct (lookup_lt_is_Some_2 (rx s) (3 + i) ltac:(lia)) as [v Hv].
    rewrite Hv. cbn [default].
    rewrite IH by (rewrite ?length_insert; lia).
    f_equal.
    rewrite (take_S_r _ _ v) by (apply list_lookup_insert_eq; lia).
    rewrite take_insert_ge by lia.
    rewrite drop_insert_lt by lia.
    rewrite (drop_S _ _ _ Hv). cbn [take].
    replace (S i + n)%nat with (i + S n)%nat by lia.
    replace (3 + S i)%nat with (S (3 + i)) by lia.
    now rewrite <- app_assoc.
Qed.

Lemma received_payload n resp buf :
  take n (drop 3 (received (3 + n) resp buf))
  = (fun i => uint8 (default 0 (resp !! (3 + i)%nat))) <$> seq 0 n.
Proof.
  apply list_eq. intros i. destruct (decide (i < n)%nat) as [Hlt|Hge].
  - rewrite lookup_take_lt, lookup_drop, received_lookup by lia.
    rewrite list_lookup_fmap, lookup_seq_lt by lia. reflexivity.
  - rewrite lookup_take_ge by lia. symmetry. apply lookup_ge_None.
    rewrite length_fmap, length_seq. lia.
Qed.

(** X9.  A page read of [len <= 128] bytes sends one frame (opcode, two
    address bytes, then [len] bytes of whatever [tx] holds) and stores in
    [data[0..len)] the bytes received after the first three; the rest of
    [data], the static [status] and the busy state are left alone, and no
    status poll or sleep follows. *)
Theorem read_page_returns_received_bytes page_address data len s :
  wf s -> 0 <= len <= EEPROM_PAGE_SIZE -> len <= Z.of_nat (length data) ->
  let frame := READ :: addr_hi page_address :: addr_lo page_address
                    :: take (Z.to_nat len) (drop 3 (tx s)) in
  let resp := snd (dev_rw (dev s) frame) in
  exists s',
    read_page page_address data len s
    = Done (EXIT_SUCCESS,
            ((fun i => uint8 (default 0 (resp !! (3 + i)%nat)))
               <$> seq 0 (Z.to_nat len))
            ++ drop (Z.to_nat len) data) s' /\
    trace s' = trace s ++ [SpiRW frame] /\
    dev s' = fst (dev_rw (dev s) frame) /\
    status s' = status s.
Proof.
  intros Hwf Hlen Hdata frame resp. unfold EEPROM_PAGE_SIZE in Hlen.
  pose proof Hwf as [Htx Hrx]%wf_lengths.
  unfold read_page. run. fold (addr_hi page_address) (addr_lo page_address).
  replace (Z.to_nat (len + 3)) with (3 + Z.to_nat len)%nat by lia.
  rewrite frame_read by lia. fold frame. fold resp.
  set (s1 := mkState _ _ _ _ _).
  unfold read_page_copy, for_loop. rewrite Z.sub_0_r.
  rewrite (bind_done _ _ _ _ _
             (copy_from_rx_content (Z.to_nat len) 0%nat data s1
                ltac:(subst s1; side) ltac:(lia) ltac:(lia))).
  exists s1. unfold ret. subst s1. cbn [tx rx status dev trace].
  rewrite take_0, Nat.add_0_r, received_payload. cbn [app].
  repeat split; reflexivity.
Qed.

(** X11.  [write_page] tests [len] against the page size only.  A length
    of -1 or -2 passes the test, the copy loop does nothing, and the frame
    sent is cut short: the first [len + 3] bytes of opcode and address. *)
Theorem write_page_negative_len_truncates_frame fuel page_address data len s :
  wf s -> -3 < len < 0 ->
  exists polls,
    trace (final (write_page fuel page_address data len s)) =
      trace s ++
      [Printf "Setting write enable bit" []; SpiWrite [WREN];
       Printf "Writing to page %d" [page_address];
       SpiWrite (take (Z.to_nat (len + 3))
                      [WRITE; addr_hi page_address; addr_lo page_address]);
       Nanosleep EEPROM_WRITE_DELAY] ++ polls.
Proof.
  intros Hwf Hlen. unfold write_page.
  destruct (len >? EEPROM_PAGE_SIZE) eqn:Hgt;
    [apply Z.gtb_lt in Hgt; unfold EEPROM_PAGE_SIZE in Hgt; lia|].
  destruct (set_write_enable_run s Hwf) as (s1 & E1 & Hwf1 & Htr1 & Hd1 & _).
  rewrite (bind_done _ _ _ _ _ E1).
  pose proof Hwf1 as [Htx Hrx]%wf_lengths.
  run. fold (addr_hi page_address) (addr_lo page_address).
  unfold for_loop. replace (Z.to_nat (len - 0)) with 0%nat by lia.
  cbn [for_iter]. run.
  set (s4 := mkState _ _ _ _ _).
  assert (Hwf4 : wf s4) by (subst s4; split; side).
  destruct (busy_wait_then_ret "Write in progress..." "Write finished..."
              fuel EXIT_SUCCESS s4 Hwf4) as (_ & Tr & _).
  eexists. rewrite Tr. subst s4. cbn [trace dev].
  rewrite Htr1, <- !app_assoc. cbn [app].
  assert (Hf : take (Z.to_nat (len + 3))
                 (<[Z.to_nat 2:=addr_lo page_address]>
                    (<[Z.to_nat 1:=addr_hi page_address]>
                       (<[Z.to_nat 0:=WRITE]> (tx s1))))
               = take (Z.to_nat (len + 3))
                   [WRITE; addr_hi page_address; addr_lo page_address]).
  { rewrite <- (frame3 WRITE (addr_hi page_address) (addr_lo page_address)
                  (tx s1)) by lia.
    rewrite take_take. f_equal. lia. }
  rewrite Hf. reflexivity.
Qed.

(** ** Releasing the bus *)

Lemma write_and_verify_last fuel data data_read s r s' :
  write_and_verify fuel data data_read s = Done r s' ->
  exists tr, trace s' = tr ++ [SpiFree].
Proof.
  unfold write_and_verify, libsoc_spi_free. cbv zeta. intros H.
  do 5 (apply bind_done_inv in H as (? & ? & _ & H)).
  apply bind_done_inv in H as ([] & sf & Hf & H).
  injection H as _ <-. injection Hf as <-. cbn [trace]. now eexists.
Qed.

(** X12.  Once [libsoc_spi_init] has returned a device, every return of
    [main] is preceded by [libsoc_spi_free]: it is the last thing the
    program does on each of its three ways out. *)
Theorem main_releases_the_bus fuel d r s' :
  run_main fuel true d = Done r s' ->
  exists tr, trace s' = tr ++ [SpiFree].
Proof.
  intros H.
  destruct (main_head d) as (s1 & Hwf1 & _ & _ & _ & Hmain & _ & _).
  rewrite Hmain in H. destruct (signature d =? EEPROM_DEVICE_ID).
  - unfold test_device in H.
    apply bind_done_inv in H as (dr & s2 & _ & H).
    apply bind_done_inv in H as (b & s3 & _ & H).
    destruct (negb (b =? 255)).
    + unfold erase_check_failed, libsoc_spi_free in H.
      apply bind_done_inv in H as (? & ? & _ & H).
      apply bind_done_inv in H as ([] & sf & Hf & H).
      injection H as _ <-. injection Hf as <-. cbn [trace]. now eexists.
    + exact (write_and_verify_last fuel pattern dr s3 r s' H).
  - destruct (wrong_device_run s1 Hwf1) as (s2 & E & Tr).
    rewrite E in H. injection H as _ <-. rewrite Tr.
    exists (trace s1 ++
            [Printf "Test Terminated - Wrong Device" [];
             Printf " : Putting Device into Deep Power Down" [];
             SpiWrite [DPD]]).
    rewrite <- app_assoc. reflexivity.
Qed.

(** ** What stays in [tx] *)

Lemma final_then_ret {A B} (m : M A) (r : B) s :
  final ((m ;; ret r) s) = final (m s).
Proof. unfold bind, ret. destruct (m s); reflexivity. Qed.

Lemma read_status_register_tx s :
  wf s ->
  exists v s', read_status_register s = Done v s' /\
               drop 2 (tx s') = drop 2 (tx s).
Proof.
  intros Hwf. apply wf_lengths in Hwf as [Htx Hrx].
  unfold read_status_register. run.
  eexists _, _. split; [reflexivity|]. cbn [tx].
  rewrite !drop_insert_lt by lia. reflexivity.
Qed.

Lemma busy_wait_tx in_progress finished fuel : forall s,
  wf s ->
  drop 2 (tx (final (busy_wait in_progress finished fuel s)))
  = drop 2 (tx s).
Proof.
  induction fuel as [|fuel IH]; intros s Hwf; [reflexivity|].
  rewrite busy_wait_round.
  destruct (read_status_register_run s Hwf) as (s1 & E & Hwf1 & _).
  destruct (read_status_register_tx s Hwf) as (v & s1' & E' & Htx).
  rewrite E in E'. injection E' as _ <-. rewrite E.
  destruct (Z.testbit (status_byte (dev s)) 0).
  - rewrite IH by exact Hwf1. exact Htx.
  - exact Htx.
Qed.

Lemma erase_device_tx fuel s :
  wf s -> drop 2 (tx (final (erase_device fuel s))) = drop 2 (tx s).
Proof.
  intros Hwf. pose proof Hwf as [Htx Hrx]%wf_lengths.
  unfold erase_device, set_write_enable. run.
  rewrite final_then_ret. set (s2 := mkState _ _ _ _ _).
  rewrite busy_wait_tx by (subst s2; split; side).
  subst s2. cbn [tx]. rewrite !drop_insert_lt by lia. reflexivity.
Qed.

Lemma write_page_tx fuel page_address data len s :
  wf s -> 0 <= len <= EEPROM_PAGE_SIZE -> len <= Z.of_nat (length data) ->
  take (Z.to_nat len)
       (drop 3 (tx (final (write_page fuel page_address data len s))))
  = take (Z.to_nat len) data.
Proof.
  intros Hwf Hlen Hdata. unfold write_page.
  unfold EEPROM_PAGE_SIZE in Hlen.
  destruct (len >? EEPROM_PAGE_SIZE) eqn:Hgt;
    [apply Z.gtb_lt in Hgt; unfold EEPROM_PAGE_SIZE in Hgt; lia|].
  pose proof Hwf as [Htx Hrx]%wf_lengths.
  unfold set_write_enable. run.
  set (s2 := mkState _ _ _ _ _).
  unfold for_loop. rewrite Z.sub_0_r.
  destruct (copy_to_tx data (Z.to_nat len) 0%nat s2)
    as (s3 & E3 & L3 & R3 & St3 & D3 & Tr3 & Tk3).
  { subst s2. side. } { lia. } { lia. }
  change (Z.of_nat 0) with 0 in E3.
  rewrite (bind_done _ _ _ _ _ E3).
  assert (Hrx3 : length (rx s3) = 131%nat) by (rewrite R3; subst s2; side).
  run. rewrite final_then_ret. set (s4 := mkState _ _ _ _ _).
  assert (Hwf4 : wf s4) by (subst s4; split; side).
  replace 3%nat with (2 + 1)%nat at 1 by reflexivity.
  rewrite <- drop_drop, busy_wait_tx by exact Hwf4.
  rewrite drop_drop. subst s4. cbn [tx]. change (2 + 1)%nat with 3%nat.
  rewrite take_drop_commute.
  change (3 + Z.to_nat len)%nat with (3 + 0 + Z.to_nat len)%nat.
  rewrite Tk3. subst s2. cbn [tx].
  change (3 + 0)%nat with 3%nat. rewrite frame3 by side.
  rewrite drop_0. reflexivity.
Qed.

Lemma read_page_tx page_address data len s :
  wf s -> 0 <= len <= EEPROM_PAGE_SIZE -> len <= Z.of_nat (length data) ->
  drop 3 (tx (final (read_page page_address data len s))) = drop 3 (tx s).
Proof.
  intros Hwf Hlen Hdata. unfold EEPROM_PAGE_SIZE in Hlen.
  pose proof Hwf as [Htx Hrx]%wf_lengths.
  unfold read_page. run. set (s1 := mkState _ _ _ _ _).
  unfold read_page_copy, for_loop. rewrite Z.sub_0_r.
  rewrite (bind_done _ _ _ _ _
             (copy_from_rx_content (Z.to_nat len) 0%nat data s1
                ltac:(subst s1; side) ltac:(lia) ltac:(lia))).
  unfold ret. cbn [final]. subst s1. cbn [tx].
  rewrite !drop_insert_lt by lia. reflexivity.
Qed.

(** X10.  The transmit buffer is shared.  After a page write of [len]
    bytes has returned, a page read of [len] bytes sends, behind its
    opcode and address, the [len] bytes that were just written: the status
    polls in between only reuse the first two bytes of [tx]. *)
Theorem read_after_write_resends_payload
  fuel page_written page_read data data_read len s r s' :
  wf s -> 0 <= len <= EEPROM_PAGE_SIZE ->
  len <= Z.of_nat (length data) -> len <= Z.of_nat (length data_read) ->
  write_page fuel page_written data len s = Done r s' ->
  trace (final (read_page page_read data_read len s')) =
    trace s' ++
    [SpiRW (READ :: addr_hi page_read :: addr_lo page_read
                 :: take (Z.to_nat len) data)].
Proof.
  intros Hwf Hlen Hdata Hread Hw.
  destruct (write_page_run fuel page_written data len s Hwf Hlen Hdata)
    as (W & _).
  pose proof (write_page_tx fuel page_written data len s Hwf Hlen Hdata)
    as Htx.
  rewrite Hw in W, Htx. cbn [final] in W, Htx.
  destruct (read_page_run page_read data_read len s' W Hlen Hread)
    as (dr & s2 & E & _ & _ & Tr & _).
  rewrite E. cbn [final]. rewrite Tr, Htx. reflexivity.
Qed.

(** ** The frames of the two page loops *)

Lemma commands_app a b : commands (a ++ b) = commands a ++ commands b.
Proof. unfold commands. now rewrite bus_calls_app, List.filter_app. Qed.

Lemma commands_poll_trace in_progress finished fuel d :
  commands (poll_trace in_progress finished fuel d) = [].
Proof.
  unfold commands.
  destruct (bus_calls_poll_trace in_progress finished fuel d) as [k ->].
  induction k as [|k IH]; [reflexivity | exact IH].
Qed.

Lemma commands_miscompare_lines page data data_read n : forall i,
  bus_calls (miscompare_lines page data data_read n i) = [].
Proof.
  induction n as [|n IH]; intros i; [reflexivity|].
  cbn [miscompare_lines]. rewrite bus_calls_app, IH.
  destruct (_ =? _); reflexivity.
Qed.

Lemma write_all_pages_frames fuel data n : forall page s s',
  wf s -> length data = 128%nat ->
  0 <= page -> page + Z.of_nat n <= EEPROM_NUM_PAGES ->
  for_iter n page
    (fun page _ => write_page fuel page data EEPROM_PAGE_SIZE ;; ret tt) tt s
  = Done tt s' ->
  wf s' /\
  (exists ext,
     trace s' = trace s ++ ext /\
     commands ext = flat_map (page_write_calls data) (seqZ page (Z.of_nat n)))
  /\ ((0 < n)%nat -> drop 3 (tx s') = data).
Proof.
  induction n as [|n IH]; intros page s s' Hwf Hd Hp Hn H.
  - cbn [for_iter] in H. injection H as <-. split; [exact Hwf|]. split.
    + exists []. rewrite app_nil_r. split; reflexivity.
    + intros Habs. lia.
  - cbn [for_iter] in H.
    apply bind_done_inv in H as ([] & s1 & H1 & H).
    apply bind_done_inv in H1 as (r & s1' & Hw & H1).
    injection H1 as ->.
    assert (Hlen : 0 <= EEPROM_PAGE_SIZE <= EEPROM_PAGE_SIZE)
      by (unfold EEPROM_PAGE_SIZE; lia).
    assert (Hdata : EEPROM_PAGE_SIZE <= Z.of_nat (length data))
      by (rewrite Hd; unfold EEPROM_PAGE_SIZE; lia).
    destruct (write_page_run fuel page data EEPROM_PAGE_SIZE s Hwf Hlen Hdata)
      as (W & Tr & _).
    pose proof (write_page_tx fuel page data EEPROM_PAGE_SIZE s Hwf Hlen Hdata)
      as Htx.
    rewrite Hw in W, Tr, Htx. cbn [final] in W, Tr, Htx.
    rewrite (take_ge data) in Htx, Tr
      by (rewrite Hd; unfold EEPROM_PAGE_SIZE; lia).
    rewrite take_ge in Htx.
    2:{ rewrite length_drop. destruct W as [-> _].
        unfold EEPROM_PAGE_SIZE. change (Z.to_nat BUFFER_SIZE) with 131%nat.
        lia. }
    change EEPROM_NUM_PAGES with 512 in Hn.
    destruct (addr_in_range page ltac:(change EEPROM_NUM_PAGES with 512; lia))
      as [Hhi Hlo].
    rewrite Hhi, Hlo in Tr.
    destruct (IH (page + 1) s1 s' W Hd ltac:(lia)
                ltac:(change EEPROM_NUM_PAGES with 512; lia) H)
      as (W' & (ext & Tr' & C') & Htx').
    split; [exact W'|]. split.
    + eexists. split; [rewrite Tr', Tr, <- !app_assoc; reflexivity|].
      rewrite !commands_app, commands_poll_trace, C'.
      rewrite (seqZ_cons page (Z.of_nat (S n))) by lia.
      replace (Z.pred (Z.of_nat (S n))) with (Z.of_nat n) by lia.
      replace (Z.succ page) with (page + 1) by lia.
      reflexivity.
    + intros _. destruct n as [|n].
      * cbn [for_iter] in H. unfold ret in H. injection H as <-. exact Htx.
      * apply Htx'. lia.
Qed.

(** X13.  When the loop that writes the EEPROM returns, it has written
    every page once, in ascending order from page 0 to page 511: for each
    page a write-enable frame, then the write frame with the page's byte
    offset and the 128 bytes of [data]; apart from status polls nothing
    else was sent. *)
Theorem write_all_pages_writes_each_page_once fuel data s :
  wf s -> length data = 128%nat ->
  value (write_all_pages fuel data EEPROM_PAGE_SIZE s) = Some tt ->
  exists ext,
    trace (final (write_all_pages fuel data EEPROM_PAGE_SIZE s))
    = trace s ++ ext /\
    commands ext
    = flat_map (page_write_calls data) (seqZ 0 EEPROM_NUM_PAGES).
Proof.
  intros Hwf Hd Hv. unfold write_all_pages, for_loop in *.
  destruct (for_iter _ 0 _ tt s) as [[] s'|e s'] eqn:E;
    [|discriminate Hv].
  destruct (write_all_pages_frames fuel data
              (Z.to_nat (EEPROM_NUM_PAGES - 0)) 0 s s' Hwf Hd ltac:(lia)
              ltac:(vm_compute; discriminate) E) as (_ & H & _).
  cbn [final]. exact H.
Qed.

Lemma read_all_pages_frames data n : forall page data_read s,
  wf s -> length data = 128%nat -> length data_read = 128%nat ->
  0 <= page -> page + Z.of_nat n <= EEPROM_NUM_PAGES ->
  exists dr' s' ext,
    for_iter n page
      (fun page data_read =>
         r <- read_page page data_read EEPROM_PAGE_SIZE ;;
         compare_page page data (snd r) EEPROM_PAGE_SIZE ;;
         ret (snd r)) data_read s
    = Done dr' s' /\
    wf s' /\ length dr' = 128%nat /\
    trace s' = trace s ++ ext /\
    bus_calls ext
    = map (page_read_call (drop 3 (tx s))) (seqZ page (Z.of_nat n)) /\
    drop 3 (tx s') = drop 3 (tx s).
Proof.
  induction n as [|n IH]; intros page data_read s Hwf Hd Hr Hp Hn.
  - exists data_read, s, []. rewrite app_nil_r.
    repeat (split; [first [reflexivity | assumption]|]). reflexivity.
  - cbn [for_iter].
    assert (Hlen : 0 <= EEPROM_PAGE_SIZE <= EEPROM_PAGE_SIZE)
      by (unfold EEPROM_PAGE_SIZE; lia).
    assert (Hdata : EEPROM_PAGE_SIZE <= Z.of_nat (length data_read))
      by (rewrite Hr; unfold EEPROM_PAGE_SIZE; lia).
    destruct (read_page_run page data_read EEPROM_PAGE_SIZE s Hwf Hlen Hdata)
      as (dr & s1 & E & Hwf1 & L & Tr & _).
    pose proof (read_page_tx page data_read EEPROM_PAGE_SIZE s Hwf Hlen Hdata)
      as Htx.
    rewrite E in Htx. cbn [final] in Htx.
    rewrite take_ge in Tr.
    2:{ rewrite length_drop. destruct Hwf as [-> _].
        unfold EEPROM_PAGE_SIZE. change (Z.to_nat BUFFER_SIZE) with 131%nat.
        lia. }
    change EEPROM_NUM_PAGES with 512 in Hn.
    destruct (addr_in_range page ltac:(change EEPROM_NUM_PAGES with 512; lia))
      as [Hhi Hlo].
    rewrite Hhi, Hlo in Tr.
    run. rewrite (bind_done _ _ _ _ _ E). cbn beta. cbn [snd]. run.
    rewrite (bind_done _ _ _ _ _
               (compare_page_run page data dr EEPROM_PAGE_SIZE s1
                  ltac:(rewrite Hd; unfold EEPROM_PAGE_SIZE; lia)
                  ltac:(rewrite L, Hr; unfold EEPROM_PAGE_SIZE; lia))).
    run. set (s2 := mkState _ _ _ _ _).
    destruct (IH (page + 1) dr s2 Hwf1 Hd ltac:(rewrite L; exact Hr)
                ltac:(lia) ltac:(change EEPROM_NUM_PAGES with 512; lia))
      as (dr' & s' & ext & E' & W' & L' & Tr' & B' & Htx').
    exists dr', s'. eexists. split; [exact E'|]. split; [exact W'|].
    split; [exact L'|]. subst s2. cbn [tx trace] in Tr', B', Htx'.
    split; [rewrite Tr', Tr, <- !app_assoc; reflexivity|]. split.
    + rewrite !bus_calls_app, commands_miscompare_lines, B', Htx.
      rewrite (seqZ_cons page (Z.of_nat (S n))) by lia.
      replace (Z.pred (Z.of_nat (S n))) with (Z.of_nat n) by lia.
      replace (Z.succ page) with (page + 1) by lia.
      reflexivity.
    + rewrite Htx'. exact Htx.
Qed.

(** X14.  The loop that reads the EEPROM back cannot fail.  It sends one
    read frame for each page, in ascending order from page 0 to page 511,
    and nothing else on the bus: no write enable, no status poll.  Behind
    opcode and offset each frame carries the 128 bytes that [tx] held
    from index 3 on when the loop started. *)
Theorem read_all_pages_reads_each_page_once data data_read s :
  wf s -> length data = 128%nat -> length data_read = 128%nat ->
  exists dr' s' ext,
    read_all_pages data data_read EEPROM_PAGE_SIZE s = Done dr' s' /\
    length dr' = 128%nat /\
    trace s' = trace s ++ ext /\
    bus_calls ext
    = map (page_read_call (drop 3 (tx s))) (seqZ 0 EEPROM_NUM_PAGES).
Proof.
  intros Hwf Hd Hr. unfold read_all_pages, for_loop.
  destruct (read_all_pages_frames data (Z.to_nat (EEPROM_NUM_PAGES - 0)) 0
              data_read s Hwf Hd Hr ltac:(lia)
              ltac:(vm_compute; discriminate))
    as (dr' & s' & ext & E & _ & L & Tr & B & _).
  exists dr', s', ext. split; [exact E|]. split; [exact L|].
  split; [exact Tr | exact B].
Qed.

(** ** The transport calls of a successful run *)

Lemma release_pwrdwn_read_sig_tx s :
  wf s ->
  exists v s', release_pwrdwn_read_sig s = Done v s' /\
               drop 3 (tx s') = 0 :: drop 4 (tx s).
Proof.
  intros Hwf. apply wf_lengths in Hwf as [Htx Hrx].
  unfold release_pwrdwn_read_sig. run.
  eexists _, _. split; [reflexivity|]. cbn [tx].
  rewrite (drop_S _ 0 3) by (apply list_lookup_insert_eq; side).
  rewrite !drop_insert_lt by lia. reflexivity.
Qed.

Lemma main_head_with_tx d :
  exists s1,
    wf s1 /\
    trace s1 = setup_trace ++
      [Printf "Releasing from Deep power-down and Read Electronic Signature" [];
       SpiRW id_frame;
       Printf "STATUS is 0x%02x" [signature d]] /\
    drop 3 (tx s1) = replicate 128 0 /\
    (forall fuel,
       run_main fuel true d =
       (if signature d =? EEPROM_DEVICE_ID
        then test_device fuel pattern local_array
        else wrong_device) s1).
Proof.
  destruct (release_pwrdwn_read_sig_run (configured d) (wf_configured d))
    as (s1 & E & Hwf1 & Htr & Hd & Hst).
  destruct (release_pwrdwn_read_sig_tx (configured d) (wf_configured d))
    as (v & s1' & E' & Htx).
  rewrite E in E'. injection E' as _ <-.
  exists (mkState (tx s1) (rx s1) (signature d) (dev s1) (trace s1)).
  split; [exact Hwf1|]. split; [exact Htr|]. split; [exact Htx|].
  intros fuel. unfold run_main, main.
  unfold libsoc_spi_init, configure_bus, read_device_id.
  run. cbn [negb]. run.
  rewrite (bind_done _ _ _ _ _ (fill_pattern_run _)). run.
  change (mkState (tx (power_on d)) _ _ _ _) with (configured d).
  rewrite (bind_done _ _ _ _ _ E). run. reflexivity.
Qed.

Lemma erase_and_read_back_full fuel data_read s dr s' :
  wf s -> (1 <= length data_read)%nat ->
  erase_and_read_back fuel data_read s = Done dr s' ->
  wf s' /\ length dr = length data_read /\
  trace s' =
    trace s ++
    [Printf "Setting write enable bit" []; SpiWrite [WREN];
     Printf "Erase all Sectors" []; SpiWrite [CE];
     Nanosleep EEPROM_ERASE_DELAY] ++
    poll_trace "Erase in progress..." "Erase finished..." fuel
               (erase_sent (dev s)) ++
    [Printf "Reading page 0, byte 0 to validate erase" [];
     SpiRW (READ :: 0 :: 0 :: take 1 (drop 3 (tx s)))] /\
  drop 3 (tx s') = drop 3 (tx s).
Proof.
  intros Hwf Hlen H. unfold erase_and_read_back in H.
  destruct (erase_device_run fuel s Hwf) as (W & Tr & _).
  pose proof (erase_device_tx fuel s Hwf) as Htx.
  apply bind_done_inv in H as (r & s1 & E & H). rewrite E in W, Tr, Htx.
  cbn [final] in W, Tr, Htx.
  apply bind_done_inv in H as ([] & s2 & Ep & H).
  unfold printf, emit in Ep. injection Ep as <-.
  set (s2 := mkState _ _ _ _ _) in H.
  assert (Hwf2 : wf s2) by exact W.
  assert (Hl : 0 <= 1 <= EEPROM_PAGE_SIZE) by (unfold EEPROM_PAGE_SIZE; lia).
  destruct (read_page_run 0 data_read 1 s2 Hwf2 Hl ltac:(lia))
    as (dr' & s3 & E3 & Hwf3 & L3 & Tr3 & _).
  pose proof (read_page_tx 0 data_read 1 s2 Hwf2 Hl ltac:(lia)) as Htx3.
  rewrite E3 in Htx3. cbn [final] in Htx3.
  rewrite (bind_done _ _ _ _ _ E3) in H. unfold ret in H. cbn [snd] in H.
  injection H as <- <-. split; [exact Hwf3|]. split; [exact L3|].
  subst s2. cbn [tx trace] in Tr3, Htx3.
  assert (Ht : drop 3 (tx s1) = drop 3 (tx s)).
  { replace 3%nat with (2 + 1)%nat by reflexivity.
    now rewrite <- !drop_drop, Htx. }
  split.
  - rewrite Tr3, Tr, Ht, <- !app_assoc. reflexivity.
  - now rewrite Htx3.
Qed.

(** X15.  A run of [main] that returns success has sent, apart from status
    polls, exactly this: the identification frame; write enable and chip
    erase; the one-byte read at offset 0; for each page from 0 to 511 a
    write enable and the write of the pattern; for each page from 0 to 511
    a read, which clocks the pattern out again behind the address; and the
    deep-power-down frame. *)
Theorem main_success_protocol fuel d :
  value (run_main fuel true d) = Some EXIT_SUCCESS ->
  commands (trace (final (run_main fuel true d))) =
    [SpiRW id_frame; SpiWrite [WREN]; SpiWrite [CE]; SpiRW [READ; 0; 0; 0]] ++
    flat_map (page_write_calls pattern) (seqZ 0 EEPROM_NUM_PAGES) ++
    map (page_read_call pattern) (seqZ 0 EEPROM_NUM_PAGES) ++
    [SpiWrite [DPD]].
Proof.
  intros H.
  destruct (main_head_with_tx d) as (s1 & Hwf1 & Htr1 & Htx1 & Hmain).
  rewrite Hmain in *. destruct (signature d =? EEPROM_DEVICE_ID).
  2:{ destruct (wrong_device_run s1 Hwf1) as (s2 & E & _).
      rewrite E in H. discriminate H. }
  destruct (test_device fuel pattern local_array s1) as [r s'|e s'] eqn:Erun;
    [|discriminate H].
  injection H as ->. cbn [final]. unfold test_device in Erun.
  apply bind_done_inv in Erun as (dr & s2 & Ee & Erun).
  destruct (erase_and_read_back_full fuel local_array s1 dr s2 Hwf1
              ltac:(rewrite length_local_array; lia) Ee)
    as (Hwf2 & Ldr & Htr2 & Htx2).
  rewrite length_local_array in Ldr. rewrite Htx1 in Htr2, Htx2.
  apply bind_done_inv in Erun as (b & s3 & Eb & Erun).
  unfold array_load in Eb.
  destruct (in_bounds dr 0); [|discriminate Eb]. injection Eb as _ <-.
  destruct (negb (b =? 255)).
  { unfold erase_check_failed, libsoc_spi_free in Erun.
    do 2 (apply bind_done_inv in Erun as (? & ? & _ & Erun)).
    unfold ret in Erun. discriminate Erun. }
  unfold write_and_verify, libsoc_spi_free in Erun. cbv zeta in Erun.
  apply bind_done_inv in Erun as ([] & s4 & Ew & Erun).
  unfold write_all_pages, for_loop in Ew.
  destruct (write_all_pages_frames fuel pattern
              (Z.to_nat (EEPROM_NUM_PAGES - 0)) 0 s2 s4 Hwf2 length_pattern
              ltac:(lia) ltac:(vm_compute; discriminate) Ew)
    as (Hwf4 & (extw & Htr4 & Cw) & Htx4).
  specialize (Htx4 ltac:(vm_compute; lia)).
  apply bind_done_inv in Erun as ([] & s5 & Ep & Erun).
  unfold printf, emit in Ep. injection Ep as <-.
  set (s5 := mkState _ _ _ _ _) in Erun.
  assert (Hwf5 : wf s5) by exact Hwf4.
  destruct (read_all_pages_frames pattern (Z.to_nat (EEPROM_NUM_PAGES - 0)) 0
              dr s5 Hwf5 length_pattern Ldr ltac:(lia)
              ltac:(vm_compute; discriminate))
    as (dr' & s6 & extr & Er & Hwf6 & _ & Htr6 & Br & _).
  apply bind_done_inv in Erun as (dr2 & s6' & Er' & Erun).
  unfold read_all_pages, for_loop in Er'. rewrite Er in Er'.
  injection Er' as _ <-.
  apply bind_done_inv in Erun as ([] & s7 & Ep & Erun).
  unfold printf, emit in Ep. injection Ep as <-.
  set (s7 := mkState _ _ _ _ _) in Erun.
  assert (Hwf7 : wf s7) by exact Hwf6.
  destruct (set_deep_power_down_run s7 Hwf7) as (s8 & Ed & _ & Htr8 & _).
  apply bind_done_inv in Erun as (rd & s8' & Ed' & Erun).
  rewrite Ed in Ed'. injection Ed' as _ <-.
  apply bind_done_inv in Erun as ([] & s9 & Ef & Erun).
  unfold emit in Ef. injection Ef as <-.
  unfold ret in Erun. injection Erun as <-. cbn [trace].
  rewrite Htr8. subst s7. cbn [trace]. rewrite Htr6. subst s5.
  cbn [tx trace] in *. rewrite Htx4 in Br. rewrite Htr4, Htr2, Htr1.
  rewrite !commands_app, commands_poll_trace, Cw.
  unfold commands at 6. rewrite Br.
  change (Z.of_nat (Z.to_nat (EEPROM_NUM_PAGES - 0))) with EEPROM_NUM_PAGES.
  assert (Hreads : forall l,
            List.filter (fun e => negb (has_opcode RDSR e))
                        (map (page_read_call pattern) l)
            = map (page_read_call pattern) l).
  { induction l as [|p l IH]; [reflexivity|]. cbn. now rewrite IH. }
  rewrite Hreads. cbn. rewrite !app_nil_r. reflexivity.
Qed.

(** * The read-back of a run that passed the erase check *)

(** ** The device behind the polling loops *)

Lemma busy_wait_dev in_progress finished fuel : forall s,
  wf s ->
  dev (final (busy_wait in_progress finished fuel s)) = settled fuel (dev s).
Proof.
  induction fuel as [|fuel IH]; intros s Hwf; [reflexivity|].
  rewrite busy_wait_round.
  destruct (read_status_register_run s Hwf) as (s1 & E & Hwf1 & _ & Hd & _).
  rewrite E. cbn [settled].
  destruct (Z.testbit (status_byte (dev s)) 0).
  - rewrite IH by exact Hwf1. cbn [dev]. now rewrite Hd.
  - cbn [final dev]. exact Hd.
Qed.

Lemma erase_device_dev fuel s :
  wf s ->
  dev (final (erase_device fuel s)) = settled fuel (erase_sent (dev s)).
Proof.
  intros Hwf. pose proof Hwf as [Htx Hrx]%wf_lengths.
  unfold erase_device, set_write_enable. run.
  rewrite final_then_ret. set (s2 := mkState _ _ _ _ _).
  rewrite busy_wait_dev by (subst s2; split; side).
  subst s2. cbn [dev]. rewrite !frame1 by side. reflexivity.
Qed.

Lemma write_page_dev fuel page_address data len s :
  wf s -> 0 <= len <= EEPROM_PAGE_SIZE -> len <= Z.of_nat (length data) ->
  dev (final (write_page fuel page_address data len s))
  = settled fuel
      (write_sent (dev s)
         (WRITE :: addr_hi page_address :: addr_lo page_address
                :: take (Z.to_nat len) data)).
Proof.
  intros Hwf Hlen Hdata. unfold write_page.
  unfold EEPROM_PAGE_SIZE in Hlen.
  destruct (len >? EEPROM_PAGE_SIZE) eqn:Hgt;
    [apply Z.gtb_lt in Hgt; unfold EEPROM_PAGE_SIZE in Hgt; lia|].
  destruct (set_write_enable_run s Hwf) as (s1 & E1 & Hwf1 & _ & Hd1 & _).
  rewrite (bind_done _ _ _ _ _ E1).
  pose proof Hwf1 as [Htx Hrx]%wf_lengths.
  run. fold (addr_hi page_address) (addr_lo page_address).
  set (s2 := mkState _ _ _ _ _).
  unfold for_loop. rewrite Z.sub_0_r.
  destruct (copy_to_tx data (Z.to_nat len) 0%nat s2)
    as (s3 & E3 & L3 & R3 & St3 & D3 & Tr3 & Tk3).
  { subst s2. side. } { lia. } { lia. }
  change (Z.of_nat 0) with 0 in E3.
  rewrite (bind_done _ _ _ _ _ E3).
  assert (Hrx3 : length (rx s3) = 131%nat) by (rewrite R3; subst s2; side).
  run. rewrite final_then_ret. set (s4 := mkState _ _ _ _ _).
  assert (Hwf4 : wf s4) by (subst s4; split; side).
  rewrite busy_wait_dev by exact Hwf4. subst s4. cbn [dev].
  replace (Z.to_nat (len + 3)) with (3 + 0 + Z.to_nat len)%nat by lia.
  rewrite Tk3, D3. subst s2. cbn [tx dev]. rewrite frame3 by lia.
  rewrite drop_0, Hd1. reflexivity.
Qed.

Lemma erase_and_read_back_dev fuel data_read s dr s' :
  wf s -> (1 <= length data_read)%nat ->
  erase_and_read_back fuel data_read s = Done dr s' ->
  dev s' = fst (dev_rw (settled fuel (erase_sent (dev s)))
                  (READ :: 0 :: 0 :: take 1 (drop 3 (tx s)))).
Proof.
  intros Hwf Hlen H. unfold erase_and_read_back in H.
  destruct (erase_device_run fuel s Hwf) as (W & _).
  pose proof (erase_device_tx fuel s Hwf) as Htx.
  pose proof (erase_device_dev fuel s Hwf) as Hdev.
  apply bind_done_inv in H as (r & s1 & E & H). rewrite E in W, Htx, Hdev.
  cbn [final] in W, Htx, Hdev.
  apply bind_done_inv in H as ([] & s2 & Ep & H).
  unfold printf, emit in Ep. injection Ep as <-.
  set (s2 := mkState _ _ _ _ _) in H.
  assert (Hwf2 : wf s2) by exact W.
  assert (Hl : 0 <= 1 <= EEPROM_PAGE_SIZE) by (unfold EEPROM_PAGE_SIZE; lia).
  destruct (read_page_run 0 data_read 1 s2 Hwf2 Hl ltac:(lia))
    as (dr' & s3 & E3 & _ & _ & _ & Hd3 & _).
  rewrite (bind_done _ _ _ _ _ E3) in H. unfold ret in H. cbn [snd] in H.
  injection H as <- <-. rewrite Hd3. subst s2. cbn [tx dev].
  assert (Ht : drop 3 (tx s1) = drop 3 (tx s)).
  { replace 3%nat with (2 + 1)%nat by reflexivity.
    now rewrite <- !drop_drop, Htx. }
  rewrite Ht, Hdev. reflexivity.
Qed.

Lemma write_all_pages_dev fuel data n : forall page s s',
  wf s -> length data = 128%nat ->
  for_iter n page
    (fun page _ => write_page fuel page data EEPROM_PAGE_SIZE ;; ret tt) tt s
  = Done tt s' ->
  wf s' /\
  dev s' = after_writes fuel data n page (dev s) /\
  ((0 < n)%nat -> drop 3 (tx s') = data).
Proof.
  induction n as [|n IH]; intros page s s' Hwf Hd H.
  - cbn [for_iter] in H. injection H as <-. split; [exact Hwf|].
    split; [reflexivity|]. intros Habs. lia.
  - cbn [for_iter] in H.
    apply bind_done_inv in H as ([] & s1 & H1 & H).
    apply bind_done_inv in H1 as (r & s1' & Hw & H1).
    injection H1 as ->.
    assert (Hlen : 0 <= EEPROM_PAGE_SIZE <= EEPROM_PAGE_SIZE)
      by (unfold EEPROM_PAGE_SIZE; lia).
    assert (Hdata : EEPROM_PAGE_SIZE <= Z.of_nat (length data))
      by (rewrite Hd; unfold EEPROM_PAGE_SIZE; lia).
    destruct (write_page_run fuel page data EEPROM_PAGE_SIZE s Hwf Hlen Hdata)
      as (W & _).
    pose proof (write_page_tx fuel page data EEPROM_PAGE_SIZE s Hwf Hlen Hdata)
      as Htx.
    pose proof (write_page_dev fuel page data EEPROM_PAGE_SIZE s Hwf Hlen
                  Hdata) as Hdev.
    rewrite Hw in W, Htx, Hdev. cbn [final] in W, Htx, Hdev.
    rewrite (take_ge data) in Htx, Hdev
      by (rewrite Hd; unfold EEPROM_PAGE_SIZE; lia).
    rewrite take_ge in Htx.
    2:{ rewrite length_drop. destruct W as [-> _].
        unfold EEPROM_PAGE_SIZE. change (Z.to_nat BUFFER_SIZE) with 131%nat.
        lia. }
    destruct (IH (page + 1) s1 s' W Hd H) as (W' & Hdev' & Htx').
    split; [exact W'|]. split.
    + cbn [after_writes]. rewrite Hdev', Hdev. reflexivity.
    + intros _. destruct n as [|n].
      * cbn [for_iter] in H. unfold ret in H. injection H as <-. exact Htx.
      * apply Htx'. lia.
Qed.

(** ** The read-back loop, event by event *)

Lemma read_page_content page_address data len s :
  wf s -> 0 <= len <= EEPROM_PAGE_SIZE -> len <= Z.of_nat (length data) ->
  let frame := READ :: addr_hi page_address :: addr_lo page_address
                    :: take (Z.to_nat len) (drop 3 (tx s)) in
  exists s',
    read_page page_address data len s
    = Done (EXIT_SUCCESS,
            page_received (snd (dev_rw (dev s) frame)) (Z.to_nat len)
            ++ drop (Z.to_nat len) data) s' /\
    wf s' /\
    trace s' = trace s ++ [SpiRW frame] /\
    dev s' = fst (dev_rw (dev s) frame) /\
    drop 3 (tx s') = drop 3 (tx s).
Proof.
  intros Hwf Hlen Hdata frame. unfold EEPROM_PAGE_SIZE in Hlen.
  pose proof Hwf as [Htx Hrx]%wf_lengths.
  unfold read_page. run. fold (addr_hi page_address) (addr_lo page_address).
  replace (Z.to_nat (len + 3)) with (3 + Z.to_nat len)%nat by lia.
  rewrite frame_read by lia. fold frame.
  set (s1 := mkState _ _ _ _ _).
  unfold read_page_copy, for_loop. rewrite Z.sub_0_r.
  rewrite (bind_done _ _ _ _ _
             (copy_from_rx_content (Z.to_nat len) 0%nat data s1
                ltac:(subst s1; side) ltac:(lia) ltac:(lia))).
  exists s1. unfold ret, page_received. subst s1.
  cbn [tx rx status dev trace].
  rewrite take_0, Nat.add_0_r, received_payload. cbn [app].
  split; [reflexivity|]. split; [split; side|].
  split; [reflexivity|]. split; [reflexivity|].
  rewrite !drop_insert_lt by lia. reflexivity.
Qed.

Lemma read_all_pages_events data n : forall page data_read s,
  wf s -> length data = 128%nat -> length data_read = 128%nat ->
  exists dr' s',
    for_iter n page
      (fun page data_read =>
         r <- read_page page data_read EEPROM_PAGE_SIZE ;;
         compare_page page data (snd r) EEPROM_PAGE_SIZE ;;
         ret (snd r)) data_read s
    = Done dr' s' /\
    wf s' /\
    trace s' = trace s ++ readback_events data (drop 3 (tx s)) n page (dev s).
Proof.
  induction n as [|n IH]; intros page data_read s Hwf Hd Hr.
  - exists data_read, s. cbn [readback_events]. rewrite app_nil_r.
    split; [reflexivity|]. split; [exact Hwf | reflexivity].
  - cbn [for_iter readback_events].
    assert (Hlen : 0 <= EEPROM_PAGE_SIZE <= EEPROM_PAGE_SIZE)
      by (unfold EEPROM_PAGE_SIZE; lia).
    assert (Hdata : EEPROM_PAGE_SIZE <= Z.of_nat (length data_read))
      by (rewrite Hr; unfold EEPROM_PAGE_SIZE; lia).
    destruct (read_page_content page data_read EEPROM_PAGE_SIZE s Hwf Hlen
                Hdata) as (s1 & E & Hwf1 & Tr & Dv & Htx).
    pose proof Hwf as [Htxl _]%wf_lengths.
    rewrite take_ge in E, Tr, Dv
      by (rewrite length_drop, Htxl; unfold EEPROM_PAGE_SIZE; lia).
    rewrite (drop_ge data_read) in E
      by (rewrite Hr; unfold EEPROM_PAGE_SIZE; lia).
    rewrite app_nil_r in E.
    set (frame := READ :: addr_hi page :: addr_lo page :: drop 3 (tx s)) in *.
    set (got := page_received (snd (dev_rw (dev s) frame))
                              (Z.to_nat EEPROM_PAGE_SIZE)) in *.
    assert (Lgot : length got = 128%nat)
      by (subst got; unfold page_received;
          rewrite length_fmap, length_seq; reflexivity).
    run. rewrite (bind_done _ _ _ _ _ E). cbn beta. cbn [snd]. run.
    rewrite (bind_done _ _ _ _ _
               (compare_page_run page data got EEPROM_PAGE_SIZE s1
                  ltac:(rewrite Hd; unfold EEPROM_PAGE_SIZE; lia)
                  ltac:(rewrite Lgot; unfold EEPROM_PAGE_SIZE; lia))).
    run. set (s2 := mkState _ _ _ _ _).
    destruct (IH (page + 1) got s2 Hwf1 Hd Lgot)
      as (dr' & s' & E' & W' & Tr').
    exists dr', s'. split; [exact E'|]. split; [exact W'|].
    subst s2. cbn [tx dev trace] in Tr'.
    rewrite Tr', Tr, Htx, Dv, <- !app_assoc. reflexivity.
Qed.

(** ** Lines 291-322 *)

Lemma write_and_verify_run fuel data data_read s r s' :
  wf s -> length data = 128%nat -> length data_read = 128%nat ->
  write_and_verify fuel data data_read s = Done r s' ->
  r = EXIT_SUCCESS /\
  exists before,
    trace s' = before ++
      [Printf " : Read all pages back and compare to what we wrote" []] ++
      readback_events data data (Z.to_nat EEPROM_NUM_PAGES) 0
        (after_writes fuel data (Z.to_nat EEPROM_NUM_PAGES) 0 (dev s)) ++
      [Printf " : Test Complete" [];
       Printf " : Putting Device into Deep Power Down" [];
       SpiWrite [DPD]; SpiFree].
Proof.
  intros Hwf Hd Hr Erun.
  unfold write_and_verify, libsoc_spi_free in Erun. cbv zeta in Erun.
  apply bind_done_inv in Erun as ([] & s4 & Ew & Erun).
  unfold write_all_pages, for_loop in Ew.
  change (Z.to_nat (EEPROM_NUM_PAGES - 0))
    with (Z.to_nat EEPROM_NUM_PAGES) in Ew.
  destruct (write_all_pages_dev fuel data (Z.to_nat EEPROM_NUM_PAGES) 0 s s4
              Hwf Hd Ew) as (Hwf4 & Hdev4 & Htx4).
  specialize (Htx4 ltac:(vm_compute; lia)).
  apply bind_done_inv in Erun as ([] & s5 & Ep & Erun).
  unfold printf, emit in Ep. injection Ep as <-.
  set (s5 := mkState _ _ _ _ _) in Erun.
  assert (Hwf5 : wf s5) by exact Hwf4.
  destruct (read_all_pages_events data (Z.to_nat EEPROM_NUM_PAGES) 0
              data_read s5 Hwf5 Hd Hr)
    as (dr' & s6 & Er & Hwf6 & Htr6).
  apply bind_done_inv in Erun as (dr2 & s6' & Er' & Erun).
  unfold read_all_pages, for_loop in Er'.
  change (Z.to_nat (EEPROM_NUM_PAGES - 0))
    with (Z.to_nat EEPROM_NUM_PAGES) in Er'.
  rewrite Er in Er'. injection Er' as _ <-.
  apply bind_done_inv in Erun as ([] & s7 & Ep & Erun).
  unfold printf, emit in Ep. injection Ep as <-.
  set (s7 := mkState _ _ _ _ _) in Erun.
  assert (Hwf7 : wf s7) by exact Hwf6.
  destruct (set_deep_power_down_run s7 Hwf7) as (s8 & Ed & _ & Htr8 & _).
  apply bind_done_inv in Erun as (rd & s8' & Ed' & Erun).
  rewrite Ed in Ed'. injection Ed' as _ <-.
  apply bind_done_inv in Erun as ([] & s9 & Ef & Erun).
  unfold emit in Ef. injection Ef as <-.
  unfold ret in Erun. injection Erun as <- <-. split; [reflexivity|].
  exists (trace s4). cbn [trace]. rewrite Htr8. subst s7. cbn [trace].
  rewrite Htr6. subst s5. cbn [tx dev trace].
  rewrite Htx4, Hdev4, <- !app_assoc. reflexivity.
Qed.

Lemma test_device_passed fuel0 fuel s dr0 s0 :
  erase_and_read_back fuel0 local_array s = Done dr0 s0 ->
  array_load DATA_READ dr0 0 s0 = Done 0xFF s0 ->
  forall r s',
    test_device fuel pattern local_array s = Done r s' ->
    exists dr s2,
      erase_and_read_back fuel local_array s = Done dr s2 /\
      write_and_verify fuel pattern dr s2 = Done r s'.
Proof.
  intros E Eload r s' Hrun. unfold test_device in Hrun.
  apply bind_done_inv in Hrun as (dr' & s2' & E' & Hrun).
  pose proof (erase_and_read_back_mono fuel0 (Nat.max fuel fuel0) local_array
                s dr0 s0 E ltac:(lia)) as E1.
  pose proof (erase_and_read_back_mono fuel (Nat.max fuel fuel0) local_array
                s dr' s2' E' ltac:(lia)) as E2.
  rewrite E1 in E2. injection E2 as <- <-.
  rewrite (bind_done _ _ _ _ _ Eload) in Hrun.
  cbn [Z.eqb Pos.eqb negb] in Hrun.
  exists dr0, s0. split; [exact E' | exact Hrun].
Qed.

Lemma main_head_full d :
  exists s1,
    wf s1 /\
    dev s1 = fst (dev_rw d id_frame) /\
    drop 3 (tx s1) = replicate 128 0 /\
    (forall fuel,
       run_main fuel true d =
       (if signature d =? EEPROM_DEVICE_ID
        then test_device fuel pattern local_array
        else wrong_device) s1) /\
    device_id_read d = Some (signature d) /\
    (forall fuel,
       erase_check_read fuel d =
       value ((data_read <- erase_and_read_back fuel local_array ;;
               array_load DATA_READ data_read 0) s1)).
Proof.
  destruct (release_pwrdwn_read_sig_run (configured d) (wf_configured d))
    as (s1 & E & Hwf1 & Htr & Hd & Hst).
  destruct (release_pwrdwn_read_sig_tx (configured d) (wf_configured d))
    as (v & s1' & E' & Htx).
  rewrite E in E'. injection E' as _ <-.
  exists (mkState (tx s1) (rx s1) (signature d) (dev s1) (trace s1)).
  split; [exact Hwf1|]. split; [exact Hd|]. split; [exact Htx|].
  split; [|split]; [intros fuel; unfold run_main, main
                   | unfold device_id_read
                   | intros fuel; unfold erase_check_read];
    unfold libsoc_spi_init, configure_bus, read_device_id;
    run; cbn [negb]; run;
    rewrite (bind_done _ _ _ _ _ (fill_pattern_run _)); run;
    change (mkState (tx (power_on d)) _ _ _ _) with (configured d).
  - rewrite (bind_done _ _ _ _ _ E). run. reflexivity.
  - unfold bind at 1. rewrite E. run. reflexivity.
  - rewrite (bind_done _ _ _ _ _ E). run. reflexivity.
Qed.

(** C3.  When the device ID matches and the byte read after the erase is
    [0xFF], every run of [main] that returns, returns the success status,
    having gone through the whole read-back: the trace of the run ends
    with the line that announces the read-back, then for each of the 512
    pages the read frame and one line for each index at which the byte the
    device answered differs from the byte written, and then the power-down
    and the release of the bus.  The device may answer anything to these
    reads.  On a device whose busy periods end [main] does return.  The
    comparison of a page cannot fail, it only prints. *)
Theorem main_succeeds_whatever_is_read_back d fuel0 :
  device_id_read d = Some EEPROM_DEVICE_ID ->
  erase_check_read fuel0 d = Some 0xFF ->
  (forall f r s',
     run_main f true d = Done r s' ->
     r = EXIT_SUCCESS /\
     exists before,
       trace s' = before ++
         [Printf " : Read all pages back and compare to what we wrote" []] ++
         readback_events pattern pattern (Z.to_nat EEPROM_NUM_PAGES) 0
                         (written f d) ++
         [Printf " : Test Complete" [];
          Printf " : Putting Device into Deep Power Down" [];
          SpiWrite [DPD]; SpiFree]) /\
  (responsive ->
   exists fuel, forall f, (fuel <= f)%nat ->
     exists s', run_main f true d = Done EXIT_SUCCESS s') /\
  (forall page data data_read len s,
     len <= Z.of_nat (length data) -> len <= Z.of_nat (length data_read) ->
     compare_page page data data_read len s
     = Done tt (mkState (tx s) (rx s) (status s) (dev s)
                  (trace s ++ miscompare_lines page data data_read
                                               (Z.to_nat len) 0))).
Proof.
  intros Hid Hread. split; [|split; [|apply compare_page_run]].
  all: destruct (main_head_full d)
    as (s1 & Hwf1 & Hdev1 & Htx1 & Hmain & Hsig & Hchk).
  all: rewrite Hsig in Hid; injection Hid as Hid.
  all: rewrite Hchk in Hread.
  all: destruct (erase_and_read_back fuel0 local_array s1) as [dr s2|e s2] eqn:E;
    [rewrite (bind_done _ _ _ _ _ E) in Hread
    | rewrite (bind_fail _ _ _ _ _ E) in Hread; discriminate Hread].
  all: assert (Eload : array_load DATA_READ dr 0 s2 = Done 0xFF s2)
    by (unfold array_load in Hread |- *;
        destruct (in_bounds dr 0); [|discriminate Hread];
        injection Hread as ->; reflexivity).
  - intros f r s' Hrun.
    rewrite Hmain, Hid, Z.eqb_refl in Hrun.
    destruct (test_device_passed fuel0 f s1 dr s2 E Eload r s' Hrun)
      as (dr' & s2' & E' & Hrun').
    destruct (erase_and_read_back_run f local_array s1 dr' s2' Hwf1
                ltac:(rewrite length_local_array; lia) E')
      as (Hwf2 & Ldr & _).
    rewrite length_local_array in Ldr.
    pose proof (erase_and_read_back_dev f local_array s1 dr' s2' Hwf1
                  ltac:(rewrite length_local_array; lia) E') as Hdev2.
    destruct (write_and_verify_run f pattern dr' s2' r s' Hwf2 length_pattern
                Ldr Hrun') as (-> & before & Htr).
    split; [reflexivity|]. exists before. rewrite Htr.
    unfold written, erase_checked. rewrite Hdev2, Hdev1, Htx1.
    reflexivity.
  - intros Hresp.
    destruct (erase_and_read_back_run fuel0 local_array s1 dr s2 Hwf1
                ltac:(rewrite length_local_array; lia) E)
      as (Hwf2 & Ldr & _).
    rewrite length_local_array in Ldr.
    destruct (write_all_pages_iter Hresp pattern
                (Z.to_nat (EEPROM_NUM_PAGES - 0)) 0 s2 Hwf2 length_pattern)
      as (F & s3 & Hwf3 & Hwrite).
    set (s3' := mkState (tx s3) (rx s3) (status s3) (dev s3)
      (trace s3 ++
       [Printf " : Read all pages back and compare to what we wrote" []])).
    assert (Hwf3' : wf s3') by exact Hwf3.
    destruct (read_all_pages_iter pattern (Z.to_nat (EEPROM_NUM_PAGES - 0)) 0
                dr s3' Hwf3' length_pattern Ldr)
      as (dr' & s4 & Eread & Hwf4).
    set (s4' := mkState (tx s4) (rx s4) (status s4) (dev s4)
      (trace s4 ++ [Printf " : Test Complete" []])).
    assert (Hwf4' : wf s4') by exact Hwf4.
    destruct (set_deep_power_down_run s4' Hwf4') as (s5 & Edpd & _).
    exists (Nat.max fuel0 F). intros f Hf.
    rewrite Hmain, Hid, Z.eqb_refl. unfold test_device.
    rewrite (bind_done _ _ _ _ _
               (erase_and_read_back_mono fuel0 f local_array s1 dr s2 E
                  ltac:(lia))).
    rewrite (bind_done _ _ _ _ _ Eload). cbn [Z.eqb Pos.eqb negb].
    unfold write_and_verify, write_all_pages, read_all_pages, for_loop.
    rewrite (bind_done _ _ _ _ _ (Hwrite f ltac:(lia))). run.
    fold s3'. rewrite (bind_done _ _ _ _ _ Eread). run.
    fold s4'. rewrite (bind_done _ _ _ _ _ Edpd).
    unfold libsoc_spi_free. run. eexists. reflexivity.
Qed.

End Properties.

(** * The claims on the mock device *)

#[local] Existing Instance mock_transport.

Lemma mock_idle_within k : forall d : mock,
  mock_busy d = k -> @idle_within mock_transport (S k) d = true.
Proof.
  induction k as [|k IH]; intros [id lat blank fault busy page] Hk;
    cbn [mock_busy] in Hk; subst busy.
  - reflexivity.
  - change (@idle_within mock_transport (S k)
              (mkMock id lat blank fault k page) = true).
    apply IH. reflexivity.
Qed.

Lemma mock_responsive : @responsive mock_transport.
Proof. intros d. exists (S (mock_busy d)). now apply mock_idle_within. Qed.

Lemma wf_power_on_mock (d : mock) : @wf mock_transport (@power_on mock_transport d).
Proof. split; reflexivity. Defined.

(** C1 on the mock: 129 bytes for page 0. *)
Lemma write_page_too_long_fails_witness :
  @write_page mock_transport 5 0 (replicate 129 0) 129 (@power_on mock_transport chip) =
  Done EXIT_FAILURE
    (mkState (replicate 131 0) (replicate 131 0) 0 chip
             [Printf "Page size is 128 bytes" []]).
Proof.
  apply (@write_page_too_long_fails mock_transport 5 0 (replicate 129 0) 129
           (@power_on mock_transport chip)).
  reflexivity.
Defined.

(** C2 on the mock: a part that answers [0x10]. *)
Lemma wrong_device_aborts_witness :
  exists s', @run_main mock_transport 5 true other_chip
             = Done EXIT_FAILURE s' /\
             bus_calls (trace s') = [SpiRW id_frame; SpiWrite [DPD]].
Proof.
  destruct (@wrong_device_aborts mock_transport 5 other_chip 0x10)
    as (s' & E & _ & Hbus & _).
  - vm_compute. reflexivity.
  - unfold EEPROM_DEVICE_ID. lia.
  - exists s'. split; [exact E | exact Hbus].
Defined.

(** C3 on the mock: the chip that corrupts the first byte of every page
    still passes, and the read-back logs the first byte of page 0. *)
Lemma main_succeeds_whatever_is_read_back_witness :
  exists s',
    @run_main mock_transport 5 true faulty_chip = Done EXIT_SUCCESS s' /\
    (exists before,
       trace s' = before ++
         [Printf " : Read all pages back and compare to what we wrote" []] ++
         @readback_events mock_transport pattern pattern
           (Z.to_nat EEPROM_NUM_PAGES) 0
           (@written mock_transport 5 faulty_chip) ++
         [Printf " : Test Complete" [];
          Printf " : Putting Device into Deep Power Down" [];
          SpiWrite [DPD]; SpiFree]) /\
    @readback_events mock_transport pattern pattern
      (Z.to_nat EEPROM_NUM_PAGES) 0
      (@written mock_transport 5 faulty_chip) !! 1%nat
    = Some (Printf
        "Data Miscompare Error: Page %d : data[%d] = 0x%02x : data_read[%d] = 0x%02x"
        [0; 0; 0; 0; 1]).
Proof.
  destruct (@main_succeeds_whatever_is_read_back mock_transport faulty_chip 3)
    as (Ha & _).
  - vm_compute. reflexivity.
  - vm_compute. reflexivity.
  - destruct (@run_main mock_transport 5 true faulty_chip) as [r s'|e s'] eqn:E.
    + destruct (Ha 5%nat r s' E) as [-> Htr]. exists s'.
      split; [reflexivity|]. split; [exact Htr|]. vm_compute. reflexivity.
    + exfalso.
      assert (V : value (@run_main mock_transport 5 true faulty_chip)
                  = Some EXIT_SUCCESS) by (vm_compute; reflexivity).
      rewrite E in V. discriminate V.
Defined.

(** C4 as the spec states it fails on the mock: the chip is busy for two
    polls after an erase or a write, and the second and third poll follow
    the one before without any sleep.  The loop of the spec, run on a chip
    in the same condition, does sleep between them. *)
Lemma polls_follow_without_sleep :
  sleep_between_polls true
    (trace (final (@erase_device mock_transport 5 (@power_on mock_transport chip)))) = false /\
  sleep_between_polls true
    (trace (final (@write_page mock_transport 5 0 pattern 128
                     (@power_on mock_transport chip)))) = false /\
  sleep_between_polls true
    (trace (final (@spec_busy_poll mock_transport EEPROM_ERASE_DELAY 5
                     (@power_on mock_transport busy_chip)))) = true.
Proof. repeat split; vm_compute; reflexivity. Qed.

(** C4 as amended, on the mock. *)
Lemma busy_wait_sleeps_once_before_polling_witness :
  trace (final (@erase_device mock_transport 5 (@power_on mock_transport chip))) =
    trace (@power_on mock_transport chip) ++
    [Printf "Setting write enable bit" []; SpiWrite [WREN];
     Printf "Erase all Sectors" []; SpiWrite [CE];
     Nanosleep EEPROM_ERASE_DELAY] ++
    @poll_trace mock_transport "Erase in progress..." "Erase finished..." 5
                (erase_sent (dev (@power_on mock_transport chip))).
Proof.
  exact (proj1 (@busy_wait_sleeps_once_before_polling mock_transport 5
                  (@power_on mock_transport chip) (wf_power_on_mock chip))).
Defined.

(** C5 on the mock: busy for two polls, idle at the third. *)
Lemma busy_wait_terminates_witness :
  exists s',
    @busy_wait mock_transport "Erase in progress..." "Erase finished..." 5
               (@power_on mock_transport busy_chip) = Done tt s' /\
    Z.testbit (status s') 0 = false.
Proof.
  apply (@busy_wait_terminates mock_transport _ _ 3 5 (@power_on mock_transport busy_chip)).
  - apply wf_power_on_mock.
  - vm_compute. reflexivity.
  - lia.
Defined.

(** C6 on the mock: the last page. *)
Lemma page_address_big_endian_witness :
  511 * EEPROM_PAGE_SIZE + EEPROM_PAGE_SIZE <= EEPROM_SIZE /\
  trace (final (@read_page mock_transport 511 local_array 1 (@power_on mock_transport chip)))
  = [SpiRW [READ; 255; 128; 0]].
Proof.
  destruct (@page_address_big_endian mock_transport 511) as (H1 & _ & H3).
  - vm_compute. split; [discriminate | reflexivity].
  - split; [exact H1|].
    apply (H3 local_array 1 (@power_on mock_transport chip)).
    + apply wf_power_on_mock.
    + unfold EEPROM_PAGE_SIZE. lia.
    + vm_compute. discriminate.
Defined.

(** C7 on the mock: the chip whose erased cells read [0x7F]. *)
Lemma erase_check_failure_aborts_witness :
  exists s' k x,
    @run_main mock_transport 5 true worn_chip = Done EXIT_FAILURE s' /\
    bus_calls (trace s') =
      [SpiRW id_frame; SpiWrite [WREN]; SpiWrite [CE]] ++
      replicate k (SpiRW poll_frame) ++ [SpiRW [READ; 0; 0; x]].
Proof.
  destruct (@erase_check_failure_aborts mock_transport 5 worn_chip 0x7F)
    as (s' & k & x & E & Hbus & _).
  - vm_compute. reflexivity.
  - vm_compute. reflexivity.
  - lia.
  - exists s', k, x. split; [exact E | exact Hbus].
Defined.

(** C9 on the mock: 129 bytes into an array with room for them. *)
Lemma read_page_len_unchecked_witness :
  exists s',
    @read_page mock_transport 0 (replicate 200 0) 129
      (@power_on mock_transport chip)
    = Fail (OutOfBounds RX BUFFER_SIZE) s' /\
    trace s' = trace (@power_on mock_transport chip) ++
      [SpiRW (READ :: addr_hi 0 :: addr_lo 0
                   :: take (Z.to_nat 129)
                        (drop 3 (tx (@power_on mock_transport chip))))].
Proof.
  destruct (@read_page_len_unchecked mock_transport 0 (replicate 200 0) 129
              (@power_on mock_transport chip)) as (H & _).
  - apply wf_power_on_mock.
  - vm_compute. discriminate.
  - apply H. unfold EEPROM_PAGE_SIZE. lia.
Defined.

(** * The further properties on the mock devices *)

Lemma stuck_never_idle n : forall d : unit,
  @idle_within stuck_transport n d = false.
Proof. induction n as [|n IH]; intros d; [reflexivity | apply IH]. Qed.

Lemma wf_power_on_stuck : @wf stuck_transport (@power_on stuck_transport tt).
Proof. split; reflexivity. Defined.

(** X1 on the mock. *)
Lemma read_status_register_exchange_witness :
  exists s',
    @read_status_register mock_transport (@power_on mock_transport busy_chip)
    = Done 1 s'.
Proof.
  destruct (@read_status_register_exchange mock_transport
              (@power_on mock_transport busy_chip) (wf_power_on_mock busy_chip))
    as (s' & E & _).
  exists s'. exact E.
Defined.

(** X2 on the mock. *)
Lemma release_pwrdwn_read_sig_exchange_witness :
  exists s',
    @release_pwrdwn_read_sig mock_transport (@power_on mock_transport chip)
    = Done 0x29 s'.
Proof.
  destruct (@release_pwrdwn_read_sig_exchange mock_transport
              (@power_on mock_transport chip) (wf_power_on_mock chip))
    as (s' & E & _).
  exists s'. exact E.
Defined.

(** X3 on the mock. *)
Lemma single_opcode_commands_witness :
  exists s',
    @set_deep_power_down mock_transport (@power_on mock_transport chip)
    = Done EXIT_SUCCESS s' /\
    trace s' = [Printf " : Putting Device into Deep Power Down" [];
                SpiWrite [DPD]].
Proof.
  destruct (@single_opcode_commands mock_transport
              (@power_on mock_transport chip) (wf_power_on_mock chip))
    as (_ & s' & E & Tr & _).
  exists s'. split; [exact E | exact Tr].
Defined.

(** X6 on the device that never finishes: seven polls, and no end. *)
Lemma polling_has_no_timeout_witness :
  exists s',
    @erase_device stuck_transport 7 (@power_on stuck_transport tt)
    = Fail OutOfFuel s' /\
    bus_calls (trace s') =
      [SpiWrite [WREN]; SpiWrite [CE]] ++ replicate 7 (SpiRW poll_frame).
Proof.
  destruct (@polling_has_no_timeout stuck_transport
              (@power_on stuck_transport tt) wf_power_on_stuck) as (H & _).
  destruct (H (fun n => stuck_never_idle n _) 7%nat) as (s' & E & Hbus).
  exists s'. split; [exact E | exact Hbus].
Defined.

(** X7 on the device that never finishes. *)
Lemma main_hangs_on_stuck_erase_witness :
  exists s', @run_main stuck_transport 9 true tt = Fail OutOfFuel s'.
Proof.
  apply (@main_hangs_on_stuck_erase stuck_transport tt).
  - vm_compute. reflexivity.
  - intros n. apply stuck_never_idle.
Defined.

(** X8 on the mock: two arrays that differ in the second of three bytes. *)
Lemma compare_page_silent_iff_equal_witness :
  exists s',
    @compare_page mock_transport 7 [1; 2; 3] [1; 9; 3] 3
                  (@power_on mock_transport chip) = Done tt s' /\
    dev s' = chip.
Proof.
  destruct (@compare_page_silent_iff_equal mock_transport 7 [1; 2; 3]
              [1; 9; 3] 3 (@power_on mock_transport chip))
    as (s' & E & _ & _ & _ & D & _).
  - vm_compute. discriminate.
  - vm_compute. discriminate.
  - exists s'. split; [exact E | exact D].
Defined.

(** X9 on the mock: one byte of page 0. *)
Lemma read_page_returns_received_bytes_witness :
  exists s',
    @read_page mock_transport 0 [7; 8] 1 (@power_on mock_transport chip)
    = Done (EXIT_SUCCESS, [0; 8]) s'.
Proof.
  destruct (@read_page_returns_received_bytes mock_transport 0 [7; 8] 1
              (@power_on mock_transport chip) (wf_power_on_mock chip))
    as (s' & E & _).
  - unfold EEPROM_PAGE_SIZE. lia.
  - vm_compute. discriminate.
  - exists s'. exact E.
Defined.

(** X11 on the mock: [len = -1] sends the opcode and one address byte. *)
Lemma write_page_negative_len_truncates_frame_witness :
  exists polls,
    trace (final (@write_page mock_transport 5 3 [] (-1)
                    (@power_on mock_transport chip))) =
      trace (@power_on mock_transport chip) ++
      [Printf "Setting write enable bit" []; SpiWrite [WREN];
       Printf "Writing to page %d" [3];
       SpiWrite (take (Z.to_nat (-1 + 3)) [WRITE; addr_hi 3; addr_lo 3]);
       Nanosleep EEPROM_WRITE_DELAY] ++ polls.
Proof.
  apply (@write_page_negative_len_truncates_frame mock_transport 5 3 [] (-1)
           (@power_on mock_transport chip) (wf_power_on_mock chip)).
  lia.
Defined.

(** X12 on the mock: the part with the wrong ID. *)
Lemma main_releases_the_bus_witness :
  exists tr,
    trace (final (@run_main mock_transport 5 true other_chip))
    = tr ++ [SpiFree].
Proof.
  apply (@main_releases_the_bus mock_transport 5 other_chip EXIT_FAILURE
           (final (@run_main mock_transport 5 true other_chip))).
  vm_compute. reflexivity.
Defined.

(** X10 on the mock: three bytes written to page 1, three read from
    page 2. *)
Lemma read_after_write_resends_payload_witness :
  trace (final (@read_page mock_transport 2 [0; 0; 0] 3
                  (final (@write_page mock_transport 5 1 [7; 8; 9] 3
                            (@power_on mock_transport chip))))) =
    trace (final (@write_page mock_transport 5 1 [7; 8; 9] 3
                    (@power_on mock_transport chip))) ++
    [SpiRW (READ :: addr_hi 2 :: addr_lo 2 :: take (Z.to_nat 3) [7; 8; 9])].
Proof.
  apply (@read_after_write_resends_payload mock_transport 5 1 2 [7; 8; 9]
           [0; 0; 0] 3 (@power_on mock_transport chip) EXIT_SUCCESS).
  - apply wf_power_on_mock.
  - unfold EEPROM_PAGE_SIZE. lia.
  - vm_compute. discriminate.
  - vm_compute. discriminate.
  - vm_compute. reflexivity.
Defined.

(** X13 on the mock. *)
Lemma write_all_pages_writes_each_page_once_witness :
  exists ext,
    trace (final (@write_all_pages mock_transport 5 pattern EEPROM_PAGE_SIZE
                    (@power_on mock_transport chip)))
    = trace (@power_on mock_transport chip) ++ ext /\
    commands ext
    = flat_map (page_write_calls pattern) (seqZ 0 EEPROM_NUM_PAGES).
Proof.
  apply (@write_all_pages_writes_each_page_once mock_transport 5 pattern
           (@power_on mock_transport chip)).
  - apply wf_power_on_mock.
  - reflexivity.
  - vm_compute. reflexivity.
Defined.

(** X14 on the mock. *)
Lemma read_all_pages_reads_each_page_once_witness :
  exists dr' s' ext,
    @read_all_pages mock_transport pattern local_array EEPROM_PAGE_SIZE
                    (@power_on mock_transport chip) = Done dr' s' /\
    length dr' = 128%nat /\
    trace s' = trace (@power_on mock_transport chip) ++ ext /\
    bus_calls ext
    = map (page_read_call (drop 3 (tx (@power_on mock_transport chip))))
          (seqZ 0 EEPROM_NUM_PAGES).
Proof.
  apply (@read_all_pages_reads_each_page_once mock_transport pattern
           local_array (@power_on mock_transport chip)).
  - apply wf_power_on_mock.
  - reflexivity.
  - reflexivity.
Defined.

(** X15 on the mock. *)
Lemma main_success_protocol_witness :
  commands (trace (final (@run_main mock_transport 5 true chip))) =
    [SpiRW id_frame; SpiWrite [WREN]; SpiWrite [CE]; SpiRW [READ; 0; 0; 0]] ++
    flat_map (page_write_calls pattern) (seqZ 0 EEPROM_NUM_PAGES) ++
    map (page_read_call pattern) (seqZ 0 EEPROM_NUM_PAGES) ++
    [SpiWrite [DPD]].
Proof.
  apply (@main_success_protocol mock_transport 5 chip).
  vm_compute. reflexivity.
Defined.

(** X5 on the mock: a length of -4 is not refused. *)
Lemma only_a_long_write_reports_failure_witness :
  exists s' polls,
    @write_page mock_transport 5 0 [] (-4) (@power_on mock_transport chip)
    = Done EXIT_SUCCESS s' /\
    trace s' =
      trace (@power_on mock_transport chip) ++
      [Printf "Setting write enable bit" []; SpiWrite [WREN];
       Printf "Writing to page %d" [0];
       SpiWrite (take (Z.to_nat (-4 + 3))
                   (WRITE :: addr_hi 0 :: addr_lo 0 :: []));
       Nanosleep EEPROM_WRITE_DELAY] ++ polls.
Proof.
  destruct (@only_a_long_write_reports_failure mock_transport 5 0 [] (-4)
              (@power_on mock_transport chip)) as (_ & H & _).
  - apply wf_power_on_mock.
  - vm_compute. discriminate.
  - apply H.
    + unfold EEPROM_PAGE_SIZE. lia.
    + vm_compute. reflexivity.
Defined.
